(** * KontaFlow: grupos económicos

    Shallow embedding of the backend slice that serves [/api/grupos]:
    the Zod schemas of [validators/grupos.schema.ts], the error classes of
    [lib/errors.ts], the error handler middleware, the authentication hook
    of [middleware/auth.ts], [GruposRepository], [GruposService] and the
    routes of [routes/grupos.routes.ts].

    The database behind Prisma is a record of tables; every repository and
    service method is a computation over it that either returns a value or
    throws. *)

From Stdlib Require Import ZArith NArith List String Ascii Bool Lia.
From Stdlib Require Import DecimalString Permutation Sorted.
Import ListNotations.
Open Scope string_scope.
Open Scope list_scope.
Open Scope Z_scope.

(** ** JavaScript strings

    A JS string is a sequence of UTF-16 code units; [length] counts code
    units. *)

Definition JsString := list N.

(** A literal of the source, for literals that are plain ASCII. *)
Definition lit (s : string) : JsString :=
  map N_of_ascii (list_ascii_of_string s).

Definition js_length (s : JsString) : Z := Z.of_nat (List.length s).

(** Truthiness of a string value: only the empty string is falsy. *)
Definition truthy (s : JsString) : bool :=
  match s with [] => false | _ => true end.

Definition js_eqb (a b : JsString) : bool :=
  if list_eq_dec N.eq_dec a b then true else false.

(** WhiteSpace and LineTerminator code units, as [String.prototype.trim]
    strips them. *)
Definition is_white_space (c : N) : bool :=
  (((9 <=? c) && (c <=? 13)) || (c =? 32) || (c =? 160) || (c =? 5760)
   || ((8192 <=? c) && (c <=? 8202)) || (c =? 8232) || (c =? 8233)
   || (c =? 8239) || (c =? 8287) || (c =? 12288) || (c =? 65279))%N.

Fixpoint trimStart (s : JsString) : JsString :=
  match s with
  | [] => []
  | c :: r => if is_white_space c then trimStart r else s
  end.

Definition trimEnd (s : JsString) : JsString := rev (trimStart (rev s)).

Definition trim (s : JsString) : JsString := trimEnd (trimStart s).

Definition is_digit (c : N) : bool := ((48 <=? c) && (c <=? 57))%N.

(** [/^[0-9]{12}$/.test(s)] *)
Definition rut_regex (s : JsString) : bool :=
  (List.length s =? 12)%nat && forallb is_digit s.

(** ASCII case folding and substring search, used for the store's
    case-insensitive [contains]. *)
Definition to_lower (c : N) : N :=
  if ((65 <=? c) && (c <=? 90))%N then (c + 32)%N else c.

Fixpoint starts_with (p s : JsString) : bool :=
  match p, s with
  | [], _ => true
  | _ :: _, [] => false
  | a :: p', b :: s' => (a =? b)%N && starts_with p' s'
  end.

Fixpoint includes (s p : JsString) : bool :=
  starts_with p s ||
  match s with
  | [] => false
  | _ :: s' => includes s' p
  end.

Definition contains_insensitive (s p : JsString) : bool :=
  includes (map to_lower s) (map to_lower p).

(** ** JavaScript numbers

    A JS number is NaN, an infinity or a finite value.  A finite value is
    kept as an exact fraction [num / den], the way [Q] keeps one, so that
    several pairs stand for one number, and the operations are the exact
    ones: they give what the double-precision operations of the source
    give whenever the exact result is a double, as it is for the safe
    integers and for the halves that the statements below use.  The two
    zeros are one. *)

Inductive JsNumber :=
| NaN
| Infinito (negativo : bool)
| Finito (num : Z) (den : positive).

Definition de_Z (z : Z) : JsNumber := Finito z 1.

(** [Number.MAX_SAFE_INTEGER]: up to it the integers are doubles and their
    sums and products, when below it too, are exact. *)
Definition MAX_SAFE_INTEGER : Z := 2 ^ 53 - 1.

Definition js_sub (x y : JsNumber) : JsNumber :=
  match x, y with
  | NaN, _ | _, NaN => NaN
  | Infinito a, Infinito b => if Bool.eqb a b then NaN else Infinito a
  | Infinito a, Finito _ _ => Infinito a
  | Finito _ _, Infinito b => Infinito (negb b)
  | Finito a b, Finito c d => Finito (a * Zpos d - c * Zpos b) (b * d)
  end.

Definition js_mul (x y : JsNumber) : JsNumber :=
  match x, y with
  | NaN, _ | _, NaN => NaN
  | Infinito a, Infinito b => Infinito (xorb a b)
  | Infinito a, Finito n _ | Finito n _, Infinito a =>
      if n =? 0 then NaN else Infinito (xorb a (n <? 0))
  | Finito a b, Finito c d => Finito (a * c) (b * d)
  end.

Definition js_div (x y : JsNumber) : JsNumber :=
  match x, y with
  | NaN, _ | _, NaN => NaN
  | Infinito _, Infinito _ => NaN
  | Infinito a, Finito n _ => Infinito (xorb a (n <? 0))
  | Finito _ _, Infinito _ => de_Z 0
  | Finito a b, Finito c d =>
      if c =? 0 then (if a =? 0 then NaN else Infinito (a <? 0))
      else if 0 <? c then Finito (a * Zpos d) (b * Z.to_pos c)
      else Finito (- a * Zpos d) (b * Z.to_pos (- c))
  end.

(** [x < y] and [x <= y]: false as soon as one side is NaN. *)
Definition js_ltb (x y : JsNumber) : bool :=
  match x, y with
  | NaN, _ | _, NaN => false
  | Infinito a, Infinito b => a && negb b
  | Infinito a, Finito _ _ => a
  | Finito _ _, Infinito b => negb b
  | Finito a b, Finito c d => a * Zpos d <? c * Zpos b
  end.

Definition js_leb (x y : JsNumber) : bool :=
  match x, y with
  | NaN, _ | _, NaN => false
  | Infinito a, Infinito b => a || negb b
  | Infinito a, Finito _ _ => a
  | Finito _ _, Infinito b => negb b
  | Finito a b, Finito c d => a * Zpos d <=? c * Zpos b
  end.

(** [Math.ceil(x)] *)
Definition Math_ceil (x : JsNumber) : JsNumber :=
  match x with
  | Finito n d => de_Z (- ((- n) / Zpos d))
  | _ => x
  end.

(** The integer a number is, when it is one. *)
Definition entero (x : JsNumber) : option Z :=
  match x with
  | Finito n d => if n mod Zpos d =? 0 then Some (n / Zpos d) else None
  | _ => None
  end.

(** ** Enumerations of the schema *)

Inductive Pais := UY | AR | BR | CL | CO | PE | MX | US | ES.
Inductive Moneda := UYU | USD | ARS | BRL | CLP | COP | PEN | MXN | EUR.
Inductive Rol := ADMIN | CONTADOR | OPERATIVO.

Definition PAISES_VALIDOS : list Pais := [UY; AR; BR; CL; CO; PE; MX; US; ES].
Definition MONEDAS_VALIDAS : list Moneda :=
  [UYU; USD; ARS; BRL; CLP; COP; PEN; MXN; EUR].

Definition pais_codigo (p : Pais) : string :=
  match p with
  | UY => "UY" | AR => "AR" | BR => "BR" | CL => "CL" | CO => "CO"
  | PE => "PE" | MX => "MX" | US => "US" | ES => "ES"
  end.

Definition moneda_codigo (m : Moneda) : string :=
  match m with
  | UYU => "UYU" | USD => "USD" | ARS => "ARS" | BRL => "BRL" | CLP => "CLP"
  | COP => "COP" | PEN => "PEN" | MXN => "MXN" | EUR => "EUR"
  end.

Definition pais_eqb (a b : Pais) : bool :=
  String.eqb (pais_codigo a) (pais_codigo b).

Definition moneda_eqb (a b : Moneda) : bool :=
  String.eqb (moneda_codigo a) (moneda_codigo b).

(** ** lib/errors.ts *)

(** A Zod issue message: either the text given in the schema or one of the
    texts of the library's default error map. *)
Inductive ZodMessage :=
| Custom (text : string)
| Required
| InvalidType (expected received : string)
| InvalidEnumValue (received : JsString)
| InvalidInput.

Record ZodIssue := { path : list string; issue_message : ZodMessage }.

Definition Details := list (string * list ZodMessage).

Record AppError := {
  name : string;
  message : string;
  statusCode : Z;
  code : string;
  isOperational : bool;
  details : option Details;
  field : option string;
  rule : option string
}.

Definition ValidationError (msg : string) (d : option Details) : AppError :=
  {| name := "ValidationError"; message := msg; statusCode := 400;
     code := "VALIDATION_ERROR"; isOperational := true;
     details := d; field := None; rule := None |}.

(** An integer in decimal digits, as a template literal prints the
    integers below 10^21. *)
Definition string_of_Z (z : Z) : string := NilZero.string_of_int (Z.to_int z).

(** [id ? `... con id ${id} ...` : `... no encontrado`]: the id 0 is falsy. *)
Definition NotFoundError (resource : string) (id : option Z) : AppError :=
  {| name := "NotFoundError";
     message :=
       match id with
       | Some i =>
           if i =? 0 then (resource ++ " no encontrado")%string
           else (resource ++ " con id " ++ string_of_Z i ++ " no encontrado")%string
       | None => (resource ++ " no encontrado")%string
       end;
     statusCode := 404; code := "NOT_FOUND"; isOperational := true;
     details := None; field := None; rule := None |}.

Definition ForbiddenError (msg : string) : AppError :=
  {| name := "ForbiddenError"; message := msg; statusCode := 403;
     code := "FORBIDDEN"; isOperational := true;
     details := None; field := None; rule := None |}.

Definition UnauthorizedError (msg : string) : AppError :=
  {| name := "UnauthorizedError"; message := msg; statusCode := 401;
     code := "UNAUTHORIZED"; isOperational := true;
     details := None; field := None; rule := None |}.

(** [if (field) this.field = field]: an empty field name is not attached. *)
Definition ConflictError (msg : string) (f : option string) : AppError :=
  {| name := "ConflictError"; message := msg; statusCode := 409;
     code := "CONFLICT"; isOperational := true;
     details := None;
     field := match f with
              | Some s => if String.eqb s "" then None else Some s
              | None => None
              end;
     rule := None |}.

Definition BusinessRuleError (msg : string) (r : option string) : AppError :=
  {| name := "BusinessRuleError"; message := msg; statusCode := 422;
     code := "BUSINESS_RULE_VIOLATION"; isOperational := true;
     details := None; field := None;
     rule := match r with
             | Some s => if String.eqb s "" then None else Some s
             | None => None
             end |}.

(** Errors of the Prisma client, by their code.  [PrismaOther] is a known
    request error with any other code, or a [PrismaClientValidationError],
    which has none. *)
Inductive PrismaError :=
| P2002 (target : option string)
| P2025
| P2003
| PrismaOther.

Definition handlePrismaError (e : PrismaError) : AppError :=
  match e with
  | P2002 target =>
      let f := match target with
               | Some t => if String.eqb t "" then "campo" else t
               | None => "campo"
               end in
      ConflictError ("Ya existe un registro con ese " ++ f)%string (Some f)
  | P2025 => NotFoundError "Registro" None
  | P2003 =>
      BusinessRuleError
        "No se puede completar la operación debido a relaciones con otros registros"
        None
  | PrismaOther =>
      {| name := "AppError"; message := "Error en la base de datos";
         statusCode := 500; code := "DATABASE_ERROR"; isOperational := false;
         details := None; field := None; rule := None |}
  end.

Fixpoint join_path (p : list string) : string :=
  match p with
  | [] => ""
  | [a] => a
  | a :: r => (a ++ "." ++ join_path r)%string
  end.

(** [details[path].push(err.message)], creating the entry when absent: the
    update of [details] for a path that is not a property yet or is one of
    its own. *)
Fixpoint details_push (d : Details) (k : string) (m : ZodMessage) : Details :=
  match d with
  | [] => [(k, [m])]
  | (k', ms) :: r =>
      if String.eqb k' k then (k', ms ++ [m]) :: r
      else (k', ms) :: details_push r k m
  end.

(** The [forEach] of [handleZodError] over the issues. *)
Definition agrupar (errors : list ZodIssue) : Details :=
  fold_left
    (fun d err => details_push d (join_path (path err)) (issue_message err))
    errors [].

(** [details] is a plain object, [{}]: it inherits the properties of
    [Object.prototype]. *)
Definition Object_prototype : list string :=
  [ "constructor"; "__defineGetter__"; "__defineSetter__"; "hasOwnProperty";
    "__lookupGetter__"; "__lookupSetter__"; "isPrototypeOf";
    "propertyIsEnumerable"; "toString"; "valueOf"; "__proto__";
    "toLocaleString" ].

Definition heredada (k : string) : bool :=
  existsb (String.eqb k) Object_prototype.

(** What [handleZodError] returns, when it returns. *)
Definition validationError_de (errors : list ZodIssue) : AppError :=
  ValidationError "Error de validación en los datos enviados"
    (Some (agrupar errors)).

(** [handleZodError(error)].  For a path that joins to the name of an
    inherited property, [details[path]] is that property, which is truthy:
    no entry is created and [details[path].push] is not a function, so the
    call throws a TypeError, here [None]. *)
Definition handleZodError (errors : list ZodIssue) : option AppError :=
  if existsb (fun err => heredada (join_path (path err))) errors then None
  else Some (validationError_de errors).

(** Everything a handler can throw. *)
Inductive Thrown :=
| ThrowApp (e : AppError)
| ThrowZod (errors : list ZodIssue)
| ThrowPrisma (e : PrismaError).

(** Outcome of a call: a returned value or a thrown error. *)
Inductive Res (A : Type) :=
| Ok (a : A)
| Throw (e : Thrown).
Arguments Ok {A} a.
Arguments Throw {A} e.

(** ** middleware/error-handler.ts

    The wire-level error envelope [{ error: { code, message, details?,
    field?, rule? } }] with its HTTP status.  The branches of the handler for
    framework errors and for unexpected exceptions handle errors that no
    code of this development throws.  Likewise the Zod errors it is given
    are those the schemas of this development throw: their paths are keys
    of the schemas, none of them inherited, and [handleZodError] returns
    on them. *)

Record ErrorBody := {
  eb_code : string;
  eb_message : string;
  eb_details : option Details;
  eb_field : option string;
  eb_rule : option string
}.

Record ErrorResponse := { status : Z; error : ErrorBody }.

Definition errorHandler (err : Thrown) : ErrorResponse :=
  match err with
  | ThrowApp e =>
      {| status := statusCode e;
         error := {| eb_code := code e; eb_message := message e;
                     eb_details := details e; eb_field := field e;
                     eb_rule := rule e |} |}
  | ThrowZod errors =>
      let validationError := validationError_de errors in
      {| status := 400;
         error := {| eb_code := "VALIDATION_ERROR";
                     eb_message := message validationError;
                     eb_details := details validationError;
                     eb_field := None; eb_rule := None |} |}
  | ThrowPrisma e =>
      let prismaError := handlePrismaError e in
      {| status := statusCode prismaError;
         error := {| eb_code := code prismaError;
                     eb_message := message prismaError;
                     eb_details := None; eb_field := None;
                     eb_rule := None |} |}
  end.

(** ** validators/grupos.schema.ts

    The schemas are built from Zod combinators.  A parser returns the parsed
    value, when there is one, and the messages of the issues it raised: no
    value is Zod's INVALID, a value with issues is its "dirty" status. *)

Inductive Json :=
| JUndefined
| JNull
| JBoolean (b : bool)
| JNumber (n : Z)
| JString (s : JsString)
| JArray
| JObject.

Definition received (j : Json) : string :=
  match j with
  | JUndefined => "undefined"
  | JNull => "null"
  | JBoolean _ => "boolean"
  | JNumber _ => "number"
  | JString _ => "string"
  | JArray => "array"
  | JObject => "object"
  end.

Definition invalid_type (expected : string) (j : Json) : ZodMessage :=
  match j with
  | JUndefined => Required
  | _ => InvalidType expected (received j)
  end.

Definition Parsed (A : Type) : Type := option A * list ZodMessage.

(** The checks of a [z.string()], kept in the order the schema chains them:
    Zod runs them in that order on the current value, and [trim] replaces
    the value for the checks that follow it. *)
Inductive StringCheck :=
| check_min (value : Z) (msg : string)
| check_max (value : Z) (msg : string)
| check_regex (re : JsString -> bool) (msg : string)
| check_trim.

Fixpoint run_checks (checks : list StringCheck) (data : JsString)
  : JsString * list ZodMessage :=
  match checks with
  | [] => (data, [])
  | check_min value msg :: r =>
      let '(d, issues) := run_checks r data in
      (d, if js_length data <? value then Custom msg :: issues else issues)
  | check_max value msg :: r =>
      let '(d, issues) := run_checks r data in
      (d, if js_length data >? value then Custom msg :: issues else issues)
  | check_regex re msg :: r =>
      let '(d, issues) := run_checks r data in
      (d, if re data then issues else Custom msg :: issues)
  | check_trim :: r => run_checks r (trim data)
  end.

Definition z_string (checks : list StringCheck) (input : Json)
  : Parsed JsString :=
  match input with
  | JString s => let '(d, issues) := run_checks checks s in (Some d, issues)
  | _ => (None, [invalid_type "string" input])
  end.

Definition z_optional {A} (inner : Json -> Parsed A) (input : Json)
  : Parsed (option A) :=
  match input with
  | JUndefined => (Some None, [])
  | _ => let '(v, issues) := inner input in (option_map Some v, issues)
  end.

(** [z.literal('')], typed as the optional string of the union it sits in. *)
Definition z_literal_empty (input : Json) : Parsed (option JsString) :=
  match input with
  | JString [] => (Some (Some []), [])
  | _ => (None, [InvalidInput])
  end.

(** [a.or(b)]: the first option that is valid wins; failing that, the first
    dirty one is returned with its issues; failing that, one
    [invalid_union] issue. *)
Definition z_or {A} (a b : Json -> Parsed A) (input : Json) : Parsed A :=
  match a input, b input with
  | (Some v, []), _ => (Some v, [])
  | _, (Some v, []) => (Some v, [])
  | (Some v, issues), _ => (Some v, issues)
  | _, (Some v, issues) => (Some v, issues)
  | _, _ => (None, [InvalidInput])
  end.

(** [util.joinValues]: the options of an enum as an issue names them. *)
Fixpoint joinValues (values : list string) : string :=
  match values with
  | [] => ""
  | [a] => ("'" ++ a ++ "'")%string
  | a :: r => ("'" ++ a ++ "' | " ++ joinValues r)%string
  end.

(** [z.enum(values, { errorMap })]: with an error map every issue carries
    its message. *)
Definition z_enum {A} (values : list A) (codigo : A -> string)
  (errorMap : option string) (input : Json) : Parsed A :=
  match input with
  | JString s =>
      match find (fun v => js_eqb s (lit (codigo v))) values with
      | Some v => (Some v, [])
      | None =>
          (None, [match errorMap with
                  | Some m => Custom m
                  | None => InvalidEnumValue s
                  end])
      end
  | _ =>
      (None, [match errorMap with
              | Some m => Custom m
              | None => invalid_type (joinValues (map codigo values)) input
              end])
  end.

Definition z_boolean (input : Json) : Parsed bool :=
  match input with
  | JBoolean b => (Some b, [])
  | _ => (None, [invalid_type "boolean" input])
  end.

(** The request body, as the object its JSON parses to: one value per key
    of the schemas, [JUndefined] for an absent key; other keys are stripped
    by [z.object]. *)
Record Body := {
  b_nombre : Json;
  b_rutControlador : Json;
  b_paisPrincipal : Json;
  b_monedaBase : Json;
  b_activo : Json
}.

Record CreateGrupoDto := {
  c_nombre : JsString;
  c_rutControlador : option JsString;
  c_paisPrincipal : Pais;
  c_monedaBase : Moneda
}.

Record UpdateGrupoDto := {
  u_nombre : option JsString;
  u_rutControlador : option JsString;
  u_paisPrincipal : option Pais;
  u_monedaBase : option Moneda;
  u_activo : option bool
}.

Record ListGruposQuery := {
  page : JsNumber;
  limit : JsNumber;
  search : option JsString;
  q_activo : option bool;
  q_paisPrincipal : option Pais
}.

Definition at_key (k : string) (msgs : list ZodMessage) : list ZodIssue :=
  map (fun m => {| path := [k]; issue_message := m |}) msgs.

Definition nombre_checks : list StringCheck :=
  [ check_min 3 "El nombre debe tener al menos 3 caracteres";
    check_max 200 "El nombre no puede exceder 200 caracteres";
    check_trim ].

Definition rutControlador_schema : Json -> Parsed (option JsString) :=
  z_or (z_optional (z_string [check_regex rut_regex "El RUT debe tener 12 dígitos"]))
       z_literal_empty.

Definition pais_errorMap : string :=
  "País inválido. Debe ser uno de: UY, AR, BR, CL, CO, PE, MX, US, ES".

Definition moneda_errorMap : string :=
  "Moneda inválida. Debe ser una de: UYU, USD, ARS, BRL, CLP, COP, PEN, MXN, EUR".

(** [CreateGrupoSchema.parse(data)] *)
Definition CreateGrupoSchema (data : Body) : Res CreateGrupoDto :=
  let '(nombre, e1) := z_string nombre_checks (b_nombre data) in
  let '(rut, e2) := rutControlador_schema (b_rutControlador data) in
  let '(pais, e3) :=
    z_enum PAISES_VALIDOS pais_codigo (Some pais_errorMap) (b_paisPrincipal data) in
  let '(moneda, e4) :=
    z_enum MONEDAS_VALIDAS moneda_codigo (Some moneda_errorMap) (b_monedaBase data) in
  let issues :=
    at_key "nombre" e1 ++ at_key "rutControlador" e2
    ++ at_key "paisPrincipal" e3 ++ at_key "monedaBase" e4 in
  match issues, nombre, rut, pais, moneda with
  | [], Some n, Some r, Some p, Some m =>
      Ok {| c_nombre := n; c_rutControlador := r;
            c_paisPrincipal := p; c_monedaBase := m |}
  | _, _, _, _, _ => Throw (ThrowZod issues)
  end.

(** [UpdateGrupoSchema.parse(data)] *)
Definition UpdateGrupoSchema (data : Body) : Res UpdateGrupoDto :=
  let '(nombre, e1) := z_optional (z_string nombre_checks) (b_nombre data) in
  let '(rut, e2) := rutControlador_schema (b_rutControlador data) in
  let '(pais, e3) :=
    z_optional (z_enum PAISES_VALIDOS pais_codigo None) (b_paisPrincipal data) in
  let '(moneda, e4) :=
    z_optional (z_enum MONEDAS_VALIDAS moneda_codigo None) (b_monedaBase data) in
  let '(activo, e5) := z_optional z_boolean (b_activo data) in
  let issues :=
    at_key "nombre" e1 ++ at_key "rutControlador" e2
    ++ at_key "paisPrincipal" e3 ++ at_key "monedaBase" e4
    ++ at_key "activo" e5 in
  match issues, nombre, rut, pais, moneda, activo with
  | [], Some n, Some r, Some p, Some m, Some a =>
      Ok {| u_nombre := n; u_rutControlador := r; u_paisPrincipal := p;
            u_monedaBase := m; u_activo := a |}
  | _, _, _, _, _, _ => Throw (ThrowZod issues)
  end.

Definition validateCreateGrupo (data : Body) : Res CreateGrupoDto :=
  CreateGrupoSchema data.

Definition validateUpdateGrupo (data : Body) : Res UpdateGrupoDto :=
  UpdateGrupoSchema data.

(** The refinements of [ListGruposQuerySchema]: [n > 0] on [page] and
    [n > 0 && n <= 100] on [limit].  The schema transforms both with
    [Number] and checks nothing else, so a fraction in range passes. *)
Definition page_refine (n : JsNumber) : bool := js_ltb (de_Z 0) n.

Definition limit_refine (n : JsNumber) : bool :=
  js_ltb (de_Z 0) n && js_leb n (de_Z 100).

Definition consulta_valida (q : ListGruposQuery) : Prop :=
  page_refine (page q) = true /\ limit_refine (limit q) = true.

(** ** The database

    Rows of the tables the slice reads and writes, with the columns the
    sources name.  [montoMinimoAprobacion] is a decimal column, kept in
    hundredths; timestamps are integers. *)

Record Usuario := {
  us_id : Z;
  us_email : JsString;
  us_nombre : JsString;
  us_activo : bool
}.

Record GrupoEconomico := {
  id : Z;
  nombre : JsString;
  rutControlador : option JsString;
  paisPrincipal : Pais;
  monedaBase : Moneda;
  activo : bool;
  fechaCreacion : Z
}.

Record UsuarioGrupo := {
  ug_usuarioId : Z;
  ug_grupoEconomicoId : Z;
  ug_rol : Rol
}.

Record ConfiguracionContable := {
  cc_id : Z;
  cc_grupoEconomicoId : Z;
  permitirAsientosEnPeriodoCerrado : bool;
  requiereAprobacionGlobal : bool;
  montoMinimoAprobacion : Z;
  permitirAsientosDescuadrados : bool;
  decimalesMonto : Z;
  decimalesTipoCambio : Z
}.

Record PlanDeCuentas := {
  pc_id : Z;
  pc_grupoEconomicoId : Z;
  pc_nombre : JsString;
  pc_descripcion : JsString;
  pc_activo : bool
}.

Record Empresa := {
  em_id : Z;
  em_grupoEconomicoId : Z;
  em_nombre : JsString;
  em_nombreComercial : JsString;
  em_rut : JsString;
  em_pais : Pais;
  em_monedaFuncional : Moneda;
  em_activa : bool
}.

(** Tables keep their rows in insertion order; each serial column has its
    sequence; [reloj] is the store's clock. *)
Record DB := {
  usuarios : list Usuario;
  grupos : list GrupoEconomico;
  usuariosGrupos : list UsuarioGrupo;
  configuraciones : list ConfiguracionContable;
  planes : list PlanDeCuentas;
  empresas : list Empresa;
  seq_grupos : Z;
  seq_configuraciones : Z;
  seq_planes : Z;
  reloj : Z
}.

Definition set_grupos (l : list GrupoEconomico) (s : Z) (db : DB) : DB :=
  {| usuarios := usuarios db; grupos := l;
     usuariosGrupos := usuariosGrupos db;
     configuraciones := configuraciones db; planes := planes db;
     empresas := empresas db;
     seq_grupos := s; seq_configuraciones := seq_configuraciones db;
     seq_planes := seq_planes db; reloj := reloj db |}.

Definition set_usuariosGrupos (l : list UsuarioGrupo) (db : DB) : DB :=
  {| usuarios := usuarios db; grupos := grupos db;
     usuariosGrupos := l;
     configuraciones := configuraciones db; planes := planes db;
     empresas := empresas db;
     seq_grupos := seq_grupos db;
     seq_configuraciones := seq_configuraciones db;
     seq_planes := seq_planes db; reloj := reloj db |}.

Definition set_configuraciones (l : list ConfiguracionContable) (s : Z)
  (db : DB) : DB :=
  {| usuarios := usuarios db; grupos := grupos db;
     usuariosGrupos := usuariosGrupos db;
     configuraciones := l; planes := planes db;
     empresas := empresas db;
     seq_grupos := seq_grupos db; seq_configuraciones := s;
     seq_planes := seq_planes db; reloj := reloj db |}.

Definition set_planes (l : list PlanDeCuentas) (s : Z) (db : DB) : DB :=
  {| usuarios := usuarios db; grupos := grupos db;
     usuariosGrupos := usuariosGrupos db;
     configuraciones := configuraciones db; planes := l;
     empresas := empresas db;
     seq_grupos := seq_grupos db;
     seq_configuraciones := seq_configuraciones db;
     seq_planes := s; reloj := reloj db |}.

(** ** Computations over the database

    A call runs against a database state and leaves one behind, whether it
    returns or throws: a throw keeps the writes made before it. *)

Definition M (A : Type) : Type := DB -> Res A * DB.

Definition ret {A} (a : A) : M A := fun db => (Ok a, db).

Definition throw {A} (e : Thrown) : M A := fun db => (Throw e, db).

Definition bind {A B} (m : M A) (k : A -> M B) : M B :=
  fun db =>
    match m db with
    | (Ok a, db') => k a db'
    | (Throw e, db') => (Throw e, db')
    end.

Notation "x <- m ;; k" := (bind m (fun x => k))
  (at level 61, m at next level, right associativity).
Notation "m ;;; k" := (bind m (fun _ => k))
  (at level 61, right associativity).

Definition lift {A} (r : Res A) : M A := fun db => (r, db).

Definition query {A} (f : DB -> A) : M A := fun db => (Ok (f db), db).

(** [prisma.$transaction(body)]: when the body throws, the rows go back to
    what they were when it started; values drawn from the sequences are
    not given back. *)
Definition rollback (antes despues : DB) : DB :=
  {| usuarios := usuarios antes; grupos := grupos antes;
     usuariosGrupos := usuariosGrupos antes;
     configuraciones := configuraciones antes; planes := planes antes;
     empresas := empresas antes;
     seq_grupos := seq_grupos despues;
     seq_configuraciones := seq_configuraciones despues;
     seq_planes := seq_planes despues; reloj := reloj antes |}.

Definition transaction {A} (body : M A) : M A :=
  fun db =>
    match body db with
    | (Ok a, db') => (Ok a, db')
    | (Throw e, db') => (Throw e, rollback db db')
    end.

(** ** The Prisma client: the model operations the repository calls *)

Definition existe_usuario (i : Z) (db : DB) : bool :=
  existsb (fun u => us_id u =? i) (usuarios db).

Definition existe_grupo (i : Z) (db : DB) : bool :=
  existsb (fun g => id g =? i) (grupos db).

(** Modelled from the spec: the Prisma schema (schema.prisma) is not among
    the sources.  [grupoEconomico.create({ data })] draws the id from the
    table's sequence, and the columns the call leaves out take the defaults
    the spec gives them: [activo] true and the creation timestamp. *)
Definition grupoEconomico_create (n : JsString) (r : option JsString)
  (p : Pais) (m : Moneda) : M GrupoEconomico :=
  fun db =>
    let i := seq_grupos db + 1 in
    let g := {| id := i; nombre := n; rutControlador := r;
                paisPrincipal := p; monedaBase := m;
                activo := true; fechaCreacion := reloj db |} in
    (Ok g, set_grupos (grupos db ++ [g]) i db).

(** Modelled from the spec: the Prisma schema is not among the sources.
    [usuarioGrupo.create({ data })] inserts a row of the join between users
    and groups: both foreign keys must resolve (P2003) and the pair
    (usuarioId, grupoEconomicoId), the compound key the repository looks
    rows up by, is unique (P2002). *)
Definition usuarioGrupo_create (usuarioId grupoEconomicoId : Z) (rol : Rol)
  : M UsuarioGrupo :=
  fun db =>
    if negb (existe_usuario usuarioId db && existe_grupo grupoEconomicoId db)
    then (Throw (ThrowPrisma P2003), db)
    else if existsb (fun x => (ug_usuarioId x =? usuarioId)
                              && (ug_grupoEconomicoId x =? grupoEconomicoId))
                    (usuariosGrupos db)
    then (Throw (ThrowPrisma (P2002 (Some "usuarioId"))), db)
    else
      let row := {| ug_usuarioId := usuarioId;
                    ug_grupoEconomicoId := grupoEconomicoId;
                    ug_rol := rol |} in
      (Ok row, set_usuariosGrupos (usuariosGrupos db ++ [row]) db).

(** Modelled from the spec: the Prisma schema is not among the sources.
    [configuracionContable.create({ data })]: the configuration is
    one-to-one with its group, so the group must exist (P2003) and have no
    configuration yet (P2002). *)
Definition configuracionContable_create (grupoEconomicoId : Z)
  (enPeriodoCerrado aprobacionGlobal : bool) (montoMinimo : Z)
  (descuadrados : bool) (decMonto decTipoCambio : Z)
  : M ConfiguracionContable :=
  fun db =>
    let i := seq_configuraciones db + 1 in
    let db1 := set_configuraciones (configuraciones db) i db in
    if negb (existe_grupo grupoEconomicoId db)
    then (Throw (ThrowPrisma P2003), db1)
    else if existsb (fun x => cc_grupoEconomicoId x =? grupoEconomicoId)
                    (configuraciones db)
    then (Throw (ThrowPrisma (P2002 (Some "grupoEconomicoId"))), db1)
    else
      let row := {| cc_id := i; cc_grupoEconomicoId := grupoEconomicoId;
                    permitirAsientosEnPeriodoCerrado := enPeriodoCerrado;
                    requiereAprobacionGlobal := aprobacionGlobal;
                    montoMinimoAprobacion := montoMinimo;
                    permitirAsientosDescuadrados := descuadrados;
                    decimalesMonto := decMonto;
                    decimalesTipoCambio := decTipoCambio |} in
      (Ok row, set_configuraciones (configuraciones db ++ [row]) i db).

(** Modelled from the spec: the Prisma schema is not among the sources.
    [planDeCuentas.create({ data })]: the chart of accounts is one-to-one
    with its group, so the group must exist (P2003) and have no chart yet
    (P2002); a new chart is active, as the creation test reads it back. *)
Definition planDeCuentas_create (grupoEconomicoId : Z)
  (n descripcion : JsString) : M PlanDeCuentas :=
  fun db =>
    let i := seq_planes db + 1 in
    let db1 := set_planes (planes db) i db in
    if negb (existe_grupo grupoEconomicoId db)
    then (Throw (ThrowPrisma P2003), db1)
    else if existsb (fun x => pc_grupoEconomicoId x =? grupoEconomicoId)
                    (planes db)
    then (Throw (ThrowPrisma (P2002 (Some "grupoEconomicoId"))), db1)
    else
      let row := {| pc_id := i; pc_grupoEconomicoId := grupoEconomicoId;
                    pc_nombre := n; pc_descripcion := descripcion;
                    pc_activo := true |} in
      (Ok row, set_planes (planes db ++ [row]) i db).

(** [grupoEconomico.findUnique({ where: { id } })], without relations. *)
Definition grupoEconomico_findUnique (i : Z) (db : DB)
  : option GrupoEconomico :=
  find (fun g => id g =? i) (grupos db).

Fixpoint reemplazar (i : Z) (g' : GrupoEconomico)
  (l : list GrupoEconomico) : list GrupoEconomico :=
  match l with
  | [] => []
  | h :: t => if id h =? i then g' :: t else h :: reemplazar i g' t
  end.

(** [grupoEconomico.update({ where: { id }, data })]: P2025 when no row has
    the id. *)
Definition grupoEconomico_update (i : Z)
  (data : GrupoEconomico -> GrupoEconomico) : M GrupoEconomico :=
  fun db =>
    match grupoEconomico_findUnique i db with
    | None => (Throw (ThrowPrisma P2025), db)
    | Some g =>
        let g' := data g in
        (Ok g', set_grupos (reemplazar i g' (grupos db)) (seq_grupos db) db)
    end.

(** ** repositories/grupos.repository.ts *)

(** A group with the relations a query includes. *)
Record Incluye (E P C : Type) := {
  grupo : GrupoEconomico;
  con_empresas : list E;
  con_planDeCuentas : option P;
  con_configuracion : C
}.
Arguments grupo {E P C} _.
Arguments con_empresas {E P C} _.
Arguments con_planDeCuentas {E P C} _.
Arguments con_configuracion {E P C} _.

Record EmpresaResumen := {
  er_id : Z;
  er_nombre : JsString;
  er_rut : JsString;
  er_monedaFuncional : Moneda;
  er_activa : bool
}.

Record PlanResumen := {
  pr_id : Z;
  pr_nombre : JsString;
  pr_activo : bool
}.

Definition resumen_empresa (e : Empresa) : EmpresaResumen :=
  {| er_id := em_id e; er_nombre := em_nombre e; er_rut := em_rut e;
     er_monedaFuncional := em_monedaFuncional e; er_activa := em_activa e |}.

Definition resumen_plan (p : PlanDeCuentas) : PlanResumen :=
  {| pr_id := pc_id p; pr_nombre := pc_nombre p; pr_activo := pc_activo p |}.

Definition empresas_de (i : Z) (db : DB) : list Empresa :=
  filter (fun e => em_grupoEconomicoId e =? i) (empresas db).

Definition plan_de (i : Z) (db : DB) : option PlanDeCuentas :=
  find (fun p => pc_grupoEconomicoId p =? i) (planes db).

Definition configuracion_de (i : Z) (db : DB) : option ConfiguracionContable :=
  find (fun c => cc_grupoEconomicoId c =? i) (configuraciones db).

(** A row of the listing: the selected columns and [_count.empresas]. *)
Record GrupoListado := {
  l_id : Z;
  l_nombre : JsString;
  l_rutControlador : option JsString;
  l_paisPrincipal : Pais;
  l_monedaBase : Moneda;
  l_fechaCreacion : Z;
  l_activo : bool;
  _count_empresas : Z
}.

Record Pagination := {
  pg_page : JsNumber;
  pg_limit : JsNumber;
  total : Z;
  totalPages : JsNumber
}.

Record Listado := { data : list GrupoListado; pagination : Pagination }.

(** The dynamic [where] of [findMany]. *)
Definition where_ (filters : ListGruposQuery) (g : GrupoEconomico) : bool :=
  match search filters with
  | Some s =>
      if truthy s
      then contains_insensitive (nombre g) s
           || match rutControlador g with
              | Some r => contains_insensitive r s
              | None => false
              end
      else true
  | None => true
  end
  && match q_activo filters with
     | Some a => Bool.eqb (activo g) a
     | None => true
     end
  && match q_paisPrincipal filters with
     | Some p => pais_eqb (paisPrincipal g) p
     | None => true
     end.

(** [orderBy: { fechaCreacion: 'desc' }].  The query names no second key:
    the order of rows of equal timestamp is the store's to choose, and may
    differ from one query to the next.  Here they keep their table order;
    what is stated about the order of a result holds for any choice, or
    assumes that the timestamps differ. *)
Fixpoint insertar_desc (g : GrupoEconomico) (l : list GrupoEconomico)
  : list GrupoEconomico :=
  match l with
  | [] => [g]
  | h :: t =>
      if fechaCreacion h <=? fechaCreacion g then g :: l
      else h :: insertar_desc g t
  end.

Definition orderBy_fechaCreacion_desc (l : list GrupoEconomico)
  : list GrupoEconomico :=
  fold_right insertar_desc [] l.

Definition seleccionar (db : DB) (g : GrupoEconomico) : GrupoListado :=
  {| l_id := id g; l_nombre := nombre g;
     l_rutControlador := rutControlador g;
     l_paisPrincipal := paisPrincipal g; l_monedaBase := monedaBase g;
     l_fechaCreacion := fechaCreacion g; l_activo := activo g;
     _count_empresas := Z.of_nat (List.length (empresas_de (id g) db)) |}.

(** [grupoEconomico.findMany({ where, skip, take, orderBy, select })].
    [skip] and [take] are Int arguments of the client, and [skip] counts
    rows: a number that is no integer (a fraction, NaN, an infinity) and a
    negative [skip] are rejected before any row is read, with an error that
    carries none of the codes [handlePrismaError] knows.  Integers are
    unbounded here, as the ids are.  A negative [take], which reads from
    the end of the list, does not come from a query the list schema lets
    through and is not modelled: it takes no row here. *)
Definition grupoEconomico_findMany (where_ : GrupoEconomico -> bool)
  (skip take : JsNumber) : M (list GrupoListado) :=
  fun db =>
    match entero skip, entero take with
    | Some s, Some t =>
        if s <? 0 then (Throw (ThrowPrisma PrismaOther), db)
        else
          (Ok (map (seleccionar db)
                 (firstn (Z.to_nat t)
                    (skipn (Z.to_nat s)
                       (orderBy_fechaCreacion_desc
                          (filter where_ (grupos db)))))),
           db)
    | _, _ => (Throw (ThrowPrisma PrismaOther), db)
    end.

(** [grupoEconomico.count({ where })] *)
Definition grupoEconomico_count (where_ : GrupoEconomico -> bool) : M Z :=
  query (fun db => Z.of_nat (List.length (filter where_ (grupos db)))).

(** The ceiling of [a / b] for integers with [b > 0]. *)
Definition Math_ceil_div (a b : Z) : Z := - ((- a) / b).

(** [Promise.all] of the two queries rejects as soon as one of them does. *)
Definition findMany (filters : ListGruposQuery) : M Listado :=
  let skip := js_mul (js_sub (page filters) (de_Z 1)) (limit filters) in
  grupos <- grupoEconomico_findMany (where_ filters) skip (limit filters) ;;
  total <- grupoEconomico_count (where_ filters) ;;
  ret {| data := grupos;
         pagination :=
           {| pg_page := page filters; pg_limit := limit filters;
              total := total;
              totalPages := Math_ceil (js_div (de_Z total) (limit filters)) |} |}.

Definition GrupoDetalle : Type :=
  Incluye EmpresaResumen PlanResumen (option ConfiguracionContable).

Definition incluir_detalle (db : DB) (g : GrupoEconomico) : GrupoDetalle :=
  {| grupo := g;
     con_empresas := map resumen_empresa (empresas_de (id g) db);
     con_planDeCuentas := option_map resumen_plan (plan_de (id g) db);
     con_configuracion := configuracion_de (id g) db |}.

Definition findById (i : Z) : M (option GrupoDetalle) :=
  query (fun db => option_map (incluir_detalle db) (grupoEconomico_findUnique i db)).

Definition GrupoCreado : Type :=
  Incluye Empresa PlanDeCuentas (option ConfiguracionContable).

Definition incluir_creado (db : DB) (g : GrupoEconomico) : GrupoCreado :=
  {| grupo := g;
     con_empresas := empresas_de (id g) db;
     con_planDeCuentas := plan_de (id g) db;
     con_configuracion := configuracion_de (id g) db |}.

(** The body handed to [$transaction] by [create]. *)
Definition create_body (d : CreateGrupoDto) (creadoPorUsuarioId : Z)
  : M (option GrupoCreado) :=
  g <- grupoEconomico_create
         (c_nombre d)
         (match c_rutControlador d with
          | Some r => if truthy r then Some r else None
          | None => None
          end)
         (c_paisPrincipal d) (c_monedaBase d) ;;
  usuarioGrupo_create creadoPorUsuarioId (id g) ADMIN ;;;
  configuracionContable_create (id g) false false 5000000 false 2 4 ;;;
  planDeCuentas_create (id g)
    (lit "Plan de cuentas - " ++ nombre g)
    (lit "Plan de cuentas por defecto") ;;;
  query (fun db => option_map (incluir_creado db)
                     (grupoEconomico_findUnique (id g) db)).

Definition create (d : CreateGrupoDto) (creadoPorUsuarioId : Z)
  : M (option GrupoCreado) :=
  transaction (create_body d creadoPorUsuarioId).

(** The [data] object of [update]: a key is spread in only when its guard
    is truthy. *)
Definition update_data (d : UpdateGrupoDto) (g : GrupoEconomico)
  : GrupoEconomico :=
  {| id := id g;
     nombre := match u_nombre d with
               | Some n => if truthy n then n else nombre g
               | None => nombre g
               end;
     rutControlador := match u_rutControlador d with
                       | Some r => if truthy r then Some r else None
                       | None => rutControlador g
                       end;
     paisPrincipal := match u_paisPrincipal d with
                      | Some p => p
                      | None => paisPrincipal g
                      end;
     monedaBase := match u_monedaBase d with
                   | Some m => m
                   | None => monedaBase g
                   end;
     activo := match u_activo d with
               | Some a => a
               | None => activo g
               end;
     fechaCreacion := fechaCreacion g |}.

Definition GrupoActualizado : Type := Incluye EmpresaResumen PlanDeCuentas unit.

Definition update (i : Z) (d : UpdateGrupoDto) : M GrupoActualizado :=
  g <- grupoEconomico_update i (update_data d) ;;
  query (fun db =>
           {| grupo := g;
              con_empresas := map resumen_empresa (empresas_de (id g) db);
              con_planDeCuentas := plan_de (id g) db;
              con_configuracion := tt |}).

Definition delete_data (g : GrupoEconomico) : GrupoEconomico :=
  {| id := id g; nombre := nombre g; rutControlador := rutControlador g;
     paisPrincipal := paisPrincipal g; monedaBase := monedaBase g;
     activo := false; fechaCreacion := fechaCreacion g |}.

Definition delete (i : Z) : M GrupoEconomico :=
  grupoEconomico_update i delete_data.

Definition verificarAccesoUsuario (grupoId usuarioId : Z) : M bool :=
  query (fun db =>
           match find (fun x => (ug_usuarioId x =? usuarioId)
                                && (ug_grupoEconomicoId x =? grupoId))
                      (usuariosGrupos db) with
           | Some _ => true
           | None => false
           end).

Definition exists_ (i : Z) : M bool :=
  query (fun db =>
           Z.of_nat (List.length (filter (fun g => id g =? i) (grupos db))) >? 0).

(** ** services/grupos.service.ts *)

(** [Partial<CreateGrupoDto>], the argument of [validarDatosGrupo]. *)
Record PartialCreateGrupoDto := {
  p_nombre : option JsString;
  p_rutControlador : option JsString;
  p_paisPrincipal : option Pais;
  p_monedaBase : option Moneda
}.

Definition partial_of_create (d : CreateGrupoDto) : PartialCreateGrupoDto :=
  {| p_nombre := Some (c_nombre d);
     p_rutControlador := c_rutControlador d;
     p_paisPrincipal := Some (c_paisPrincipal d);
     p_monedaBase := Some (c_monedaBase d) |}.

(** [data as CreateGrupoDto]: the cast keeps the keys the patch has. *)
Definition partial_of_update (d : UpdateGrupoDto) : PartialCreateGrupoDto :=
  {| p_nombre := u_nombre d;
     p_rutControlador := u_rutControlador d;
     p_paisPrincipal := u_paisPrincipal d;
     p_monedaBase := u_monedaBase d |}.

Definition truthy_opt (o : option JsString) : bool :=
  match o with
  | Some s => truthy s
  | None => false
  end.

Definition validarDatosGrupo (d : PartialCreateGrupoDto) : Res unit :=
  if match p_nombre d with
     | Some n => truthy n && (js_length (trim n) <? 3)
     | None => false
     end
  then Throw (ThrowApp (BusinessRuleError
                          "El nombre debe tener al menos 3 caracteres" None))
  else
  if match p_rutControlador d with
     | Some r => truthy r && negb (rut_regex r)
     | None => false
     end
  then Throw (ThrowApp (BusinessRuleError
                          "El RUT debe tener 12 dígitos numéricos" None))
  else
  match p_paisPrincipal d, p_monedaBase d with
  | Some UY, Some m =>
      if negb (existsb (moneda_eqb m) [UYU; USD])
      then Throw (ThrowApp (BusinessRuleError
                              "Para Uruguay, la moneda base debe ser UYU o USD"
                              (Some "MONEDA_INVALIDA_PAIS")))
      else Ok tt
  | _, _ => Ok tt
  end.

Definition listar (filters : ListGruposQuery) (usuarioId : Z) : M Listado :=
  findMany filters.

Definition sin_acceso : Thrown :=
  ThrowApp (ForbiddenError "No tienes acceso a este grupo económico").

Definition no_encontrado (grupoId : Z) : Thrown :=
  ThrowApp (NotFoundError "Grupo Económico" (Some grupoId)).

Definition obtenerPorId (grupoId usuarioId : Z) : M GrupoDetalle :=
  g <- findById grupoId ;;
  match g with
  | None => throw (no_encontrado grupoId)
  | Some g =>
      tieneAcceso <- verificarAccesoUsuario grupoId usuarioId ;;
      if tieneAcceso then ret g else throw sin_acceso
  end.

Definition crear (d : CreateGrupoDto) (usuarioId : Z)
  : M (option GrupoCreado) :=
  lift (validarDatosGrupo (partial_of_create d)) ;;;
  create d usuarioId.

Definition actualizar (grupoId : Z) (d : UpdateGrupoDto) (usuarioId : Z)
  : M GrupoActualizado :=
  existe <- exists_ grupoId ;;
  if negb existe then throw (no_encontrado grupoId) else
  tieneAcceso <- verificarAccesoUsuario grupoId usuarioId ;;
  if negb tieneAcceso then throw sin_acceso else
  (if truthy_opt (u_nombre d)
      || match u_paisPrincipal d with Some _ => true | None => false end
      || match u_monedaBase d with Some _ => true | None => false end
   then lift (validarDatosGrupo (partial_of_update d))
   else ret tt) ;;;
  update grupoId d.

Record Eliminado := { success : bool; e_message : string }.

Definition eliminar (grupoId usuarioId : Z) : M Eliminado :=
  g <- findById grupoId ;;
  match g with
  | None => throw (no_encontrado grupoId)
  | Some g =>
      tieneAcceso <- verificarAccesoUsuario grupoId usuarioId ;;
      if negb tieneAcceso then throw sin_acceso else
      if existsb er_activa (con_empresas g)
      then throw (ThrowApp (BusinessRuleError
             "No se puede eliminar un grupo con empresas activas. Desactiva las empresas primero."
             (Some "EMPRESAS_ACTIVAS")))
      else
        delete grupoId ;;;
        ret {| success := true;
               e_message := "Grupo económico eliminado correctamente" |}
  end.

(** ** routes/grupos.routes.ts: the handlers from the service call on

    What each handler does once the authentication hook has resolved the
    caller ([request.user!.id]) and the query or the route parameter has
    been parsed into a query or an integer id.  The routes as a whole, with
    the hook and these parses, come further down.  Whatever a handler
    throws goes through [errorHandler]. *)

Inductive Reply (A : Type) :=
| Send (st : Z) (payload : A)
| SendError (r : ErrorResponse).
Arguments Send {A} st payload.
Arguments SendError {A} r.

Definition reply_status {A} (r : Reply A) : Z :=
  match r with
  | Send st _ => st
  | SendError e => status e
  end.

Definition responder {A} (st : Z) (m : M A) (db : DB) : Reply A * DB :=
  match m db with
  | (Ok a, db') => (Send st a, db')
  | (Throw e, db') => (SendError (errorHandler e), db')
  end.

(** [GET /api/grupos], on a query the list schema has parsed. *)
Definition get_grupos (filters : ListGruposQuery) (userId : Z)
  : DB -> Reply Listado * DB :=
  responder 200 (listar filters userId).

(** [GET /api/grupos/:id], on the id the params schema has produced. *)
Definition get_grupo (i userId : Z) : DB -> Reply GrupoDetalle * DB :=
  responder 200 (obtenerPorId i userId).

(** [POST /api/grupos], for the caller the hook has resolved. *)
Definition post_grupos (body : Body) (userId : Z)
  : DB -> Reply (option GrupoCreado) * DB :=
  responder 201 (d <- lift (CreateGrupoSchema body) ;; crear d userId).

(** [PUT /api/grupos/:id], on the id the params schema has produced. *)
Definition put_grupo (i : Z) (body : Body) (userId : Z)
  : DB -> Reply GrupoActualizado * DB :=
  responder 200 (d <- lift (UpdateGrupoSchema body) ;; actualizar i d userId).

(** [DELETE /api/grupos/:id], on the id the params schema has produced. *)
Definition delete_grupo (i userId : Z) : DB -> Reply Eliminado * DB :=
  responder 200 (eliminar i userId).

(** ** Sequences of service calls *)

Inductive Op :=
| OpListar (filters : ListGruposQuery) (usuarioId : Z)
| OpObtenerPorId (grupoId usuarioId : Z)
| OpCrear (d : CreateGrupoDto) (usuarioId : Z)
| OpActualizar (grupoId : Z) (d : UpdateGrupoDto) (usuarioId : Z)
| OpEliminar (grupoId usuarioId : Z).

(** The database a call leaves behind, whether it returned or threw. *)
Definition ejecutar (op : Op) (db : DB) : DB :=
  match op with
  | OpListar filters usuarioId => snd (listar filters usuarioId db)
  | OpObtenerPorId grupoId usuarioId => snd (obtenerPorId grupoId usuarioId db)
  | OpCrear d usuarioId => snd (crear d usuarioId db)
  | OpActualizar grupoId d usuarioId => snd (actualizar grupoId d usuarioId db)
  | OpEliminar grupoId usuarioId => snd (eliminar grupoId usuarioId db)
  end.

Definition ejecutar_todas (ops : list Op) (db : DB) : DB :=
  fold_left (fun s op => ejecutar op s) ops db.

(** The stored [activo] of a group, when the group exists. *)
Definition activo_de (grupoId : Z) (db : DB) : option bool :=
  option_map activo (grupoEconomico_findUnique grupoId db).

(** The country-currency rule on a stored row. *)
Definition moneda_valida_pais (g : GrupoEconomico) : bool :=
  match paisPrincipal g with
  | UY => existsb (moneda_eqb (monedaBase g)) [UYU; USD]
  | _ => true
  end.

Definition es_crear_o_actualizar (op : Op) : bool :=
  match op with
  | OpCrear _ _ | OpActualizar _ _ _ => true
  | _ => false
  end.

(** A call that asks for [activo: true]. *)
Definition reactiva (op : Op) : bool :=
  match op with
  | OpActualizar _ d _ =>
      match u_activo d with Some true => true | _ => false end
  | _ => false
  end.

(** ** Vocabulary of the statements *)

(** The error classes a result can carry. *)
Definition es_NotFound {A} (r : Res A) : Prop :=
  exists e, r = Throw (ThrowApp e) /\ name e = "NotFoundError"
            /\ statusCode e = 404 /\ code e = "NOT_FOUND".

Definition es_Forbidden {A} (r : Res A) : Prop :=
  exists e, r = Throw (ThrowApp e) /\ name e = "ForbiddenError"
            /\ statusCode e = 403 /\ code e = "FORBIDDEN".

Definition es_BusinessRule {A} (regla : option string) (r : Res A) : Prop :=
  exists e, r = Throw (ThrowApp e) /\ name e = "BusinessRuleError"
            /\ statusCode e = 422 /\ code e = "BUSINESS_RULE_VIOLATION"
            /\ rule e = regla.

(** What a successful delete returns. *)
Definition exito_eliminar : Eliminado :=
  {| success := true; e_message := "Grupo económico eliminado correctamente" |}.

(** The error details have a non-empty entry under the key [k]. *)
Definition tiene_detalle (k : string) (d : Details) : Prop :=
  exists ms, In (k, ms) d /\ ms <> [].

Definition existe_fila (grupoId : Z) (db : DB) : Prop :=
  exists g, In g (grupos db) /\ id g = grupoId.

Definition es_miembro (usuarioId grupoId : Z) (db : DB) : Prop :=
  exists x, In x (usuariosGrupos db)
            /\ ug_usuarioId x = usuarioId /\ ug_grupoEconomicoId x = grupoId.

Definition tiene_empresa_activa (grupoId : Z) (db : DB) : Prop :=
  exists e, In e (empresas db)
            /\ em_grupoEconomicoId e = grupoId /\ em_activa e = true.

(** Every table but [grupos] is the same in both states. *)
Definition mismas_otras_tablas (a b : DB) : Prop :=
  usuarios a = usuarios b /\ usuariosGrupos a = usuariosGrupos b
  /\ configuraciones a = configuraciones b /\ planes a = planes b
  /\ empresas a = empresas b.

Definition mismas_filas (a b : DB) : Prop :=
  grupos a = grupos b /\ mismas_otras_tablas a b.

(** The id the next inserted group takes is not in use yet, as a key or as
    a reference. *)
Definition id_siguiente_libre (usuarioId : Z) (db : DB) : bool :=
  let i := seq_grupos db + 1 in
  negb (existe_grupo i db)
  && negb (existsb (fun x => (ug_usuarioId x =? usuarioId)
                             && (ug_grupoEconomicoId x =? i))
                   (usuariosGrupos db))
  && negb (existsb (fun x => cc_grupoEconomicoId x =? i) (configuraciones db))
  && negb (existsb (fun x => pc_grupoEconomicoId x =? i) (planes db)).

(** The fixed defaults of a new group's configuration; the minimum approval
    amount 50000.00 is 5000000 hundredths. *)
Definition configuracion_por_defecto (c : ConfiguracionContable) : Prop :=
  permitirAsientosEnPeriodoCerrado c = false
  /\ requiereAprobacionGlobal c = false
  /\ montoMinimoAprobacion c = 5000000
  /\ permitirAsientosDescuadrados c = false
  /\ decimalesMonto c = 2
  /\ decimalesTipoCambio c = 4.

(** [s] occurs in [t]. *)
Definition contiene (t s : JsString) : Prop :=
  exists antes despues, t = antes ++ s ++ despues.

(** [db'] is [db] with exactly four rows more: the group made from the DTO,
    the creator's ADMIN membership, the default configuration and the
    chart of accounts named after the group. *)
Definition cuatro_inserciones (d : CreateGrupoDto) (usuarioId : Z)
  (db db' : DB) : Prop :=
  exists g m c p,
    grupos db' = grupos db ++ [g]
    /\ usuariosGrupos db' = usuariosGrupos db ++ [m]
    /\ configuraciones db' = configuraciones db ++ [c]
    /\ planes db' = planes db ++ [p]
    /\ usuarios db' = usuarios db /\ empresas db' = empresas db
    /\ id g = seq_grupos db + 1
    /\ nombre g = c_nombre d
    /\ paisPrincipal g = c_paisPrincipal d
    /\ monedaBase g = c_monedaBase d
    /\ activo g = true
    /\ m = {| ug_usuarioId := usuarioId; ug_grupoEconomicoId := id g;
              ug_rol := ADMIN |}
    /\ cc_grupoEconomicoId c = id g /\ configuracion_por_defecto c
    /\ pc_grupoEconomicoId p = id g
    /\ pc_nombre p = lit "Plan de cuentas - " ++ nombre g
    /\ contiene (pc_nombre p) (nombre g).

Definition desc (a b : GrupoEconomico) : Prop :=
  fechaCreacion a >= fechaCreacion b.

(** ** Sample data *)

Definition usuario_1 : Usuario :=
  {| us_id := 1; us_email := lit "admin@test.com";
     us_nombre := lit "Admin Test"; us_activo := true |}.

Definition usuario_2 : Usuario :=
  {| us_id := 2; us_email := lit "contador@test.com";
     us_nombre := lit "Contador Test"; us_activo := true |}.

Definition db_usuarios : DB :=
  {| usuarios := [usuario_1; usuario_2]; grupos := []; usuariosGrupos := [];
     configuraciones := []; planes := []; empresas := [];
     seq_grupos := 0; seq_configuraciones := 0; seq_planes := 0;
     reloj := 1000 |}.

Definition cuerpo (n : Json) (pais moneda : string) : Body :=
  {| b_nombre := n; b_rutControlador := JUndefined;
     b_paisPrincipal := JString (lit pais);
     b_monedaBase := JString (lit moneda); b_activo := JUndefined |}.

Definition dto_acme : CreateGrupoDto :=
  {| c_nombre := lit "Acme Holdings"; c_rutControlador := None;
     c_paisPrincipal := UY; c_monedaBase := UYU |}.

Definition patch_nombre (n : string) : UpdateGrupoDto :=
  {| u_nombre := Some (lit n); u_rutControlador := None;
     u_paisPrincipal := None; u_monedaBase := None; u_activo := None |}.

Definition patch_moneda (m : Moneda) : UpdateGrupoDto :=
  {| u_nombre := None; u_rutControlador := None; u_paisPrincipal := None;
     u_monedaBase := Some m; u_activo := None |}.

Definition patch_activo (a : bool) : UpdateGrupoDto :=
  {| u_nombre := None; u_rutControlador := None; u_paisPrincipal := None;
     u_monedaBase := None; u_activo := Some a |}.

(** The database after user 1 has created "Acme Holdings" (group 1). *)
Definition db_acme : DB := snd (crear dto_acme 1 db_usuarios).

(** Group 1 with one active company. *)
Definition empresa_1 : Empresa :=
  {| em_id := 1; em_grupoEconomicoId := 1;
     em_nombre := lit "Empresa Test UY S.A.";
     em_nombreComercial := lit "Empresa Test UY";
     em_rut := lit "217890120018"; em_pais := UY;
     em_monedaFuncional := UYU; em_activa := true |}.

Definition db_acme_con_empresa : DB :=
  {| usuarios := usuarios db_acme; grupos := grupos db_acme;
     usuariosGrupos := usuariosGrupos db_acme;
     configuraciones := configuraciones db_acme; planes := planes db_acme;
     empresas := [empresa_1];
     seq_grupos := seq_grupos db_acme;
     seq_configuraciones := seq_configuraciones db_acme;
     seq_planes := seq_planes db_acme; reloj := reloj db_acme |}.

(** Five more groups, created one clock tick apart. *)
Definition tictac (db : DB) : DB :=
  {| usuarios := usuarios db; grupos := grupos db;
     usuariosGrupos := usuariosGrupos db;
     configuraciones := configuraciones db; planes := planes db;
     empresas := empresas db;
     seq_grupos := seq_grupos db;
     seq_configuraciones := seq_configuraciones db;
     seq_planes := seq_planes db; reloj := reloj db + 1 |}.

Definition db_cinco : DB :=
  fold_left (fun s _ => tictac (snd (crear dto_acme 1 s)))
            [tt; tt; tt; tt; tt] db_usuarios.

(** Group 1 after its soft delete. *)
Definition db_inactivo : DB := snd (eliminar 1 1 db_acme).

Definition cuerpo_activo (a : bool) : Body :=
  {| b_nombre := JUndefined; b_rutControlador := JUndefined;
     b_paisPrincipal := JUndefined; b_monedaBase := JUndefined;
     b_activo := JBoolean a |}.

Definition cuerpo_moneda (m : string) : Body :=
  {| b_nombre := JUndefined; b_rutControlador := JUndefined;
     b_paisPrincipal := JUndefined; b_monedaBase := JString (lit m);
     b_activo := JUndefined |}.

Definition consulta (p l : Z) : ListGruposQuery :=
  {| page := de_Z p; limit := de_Z l; search := None; q_activo := None;
     q_paisPrincipal := None |}.

(** ** repositories/grupos.repository.ts and services/grupos.service.ts:
    the groups of a user *)

(** The columns [findByUsuarioId] selects. *)
Record GrupoResumen := {
  gr_id : Z;
  gr_nombre : JsString;
  gr_paisPrincipal : Pais;
  gr_monedaBase : Moneda;
  gr_activo : bool
}.

Definition resumen_grupo (g : GrupoEconomico) : GrupoResumen :=
  {| gr_id := id g; gr_nombre := nombre g;
     gr_paisPrincipal := paisPrincipal g; gr_monedaBase := monedaBase g;
     gr_activo := activo g |}.

(** [usuariosGrupos: { some: { usuarioId } }] *)
Definition tiene_usuario (usuarioId : Z) (db : DB) (g : GrupoEconomico)
  : bool :=
  existsb (fun x => (ug_usuarioId x =? usuarioId)
                    && (ug_grupoEconomicoId x =? id g))
          (usuariosGrupos db).

Section MisGrupos.

(** [orderBy: { nombre: 'asc' }] compares names with the collation of the
    store's column, which the sources do not fix: [nombre_leb a b] says that
    [a] sorts before or with [b]. *)
Variable nombre_leb : JsString -> JsString -> bool.

Fixpoint insertar_asc (g : GrupoEconomico) (l : list GrupoEconomico)
  : list GrupoEconomico :=
  match l with
  | [] => [g]
  | h :: t =>
      if nombre_leb (nombre g) (nombre h) then g :: l
      else h :: insertar_asc g t
  end.

Definition orderBy_nombre_asc (l : list GrupoEconomico)
  : list GrupoEconomico :=
  fold_right insertar_asc [] l.

Definition findByUsuarioId (usuarioId : Z) : M (list GrupoResumen) :=
  query (fun db =>
           map resumen_grupo
             (orderBy_nombre_asc
                (filter (tiene_usuario usuarioId db) (grupos db)))).

Definition obtenerGruposUsuario (usuarioId : Z) : M (list GrupoResumen) :=
  findByUsuarioId usuarioId.

(** [GET /api/grupos/mis-grupos] *)
Definition get_mis_grupos (userId : Z) : DB -> Reply (list GrupoResumen) * DB :=
  responder 200 (obtenerGruposUsuario userId).

End MisGrupos.

(** ** Sequences of requests

    The requests the handlers of [gruposRoutes] answer, after the
    authentication hook and the params schema. *)

Inductive Peticion :=
| GET_grupos (filters : ListGruposQuery) (userId : Z)
| GET_grupo (i userId : Z)
| POST_grupos (body : Body) (userId : Z)
| PUT_grupo (i : Z) (body : Body) (userId : Z)
| DELETE_grupo (i userId : Z).

(** The database a request leaves behind. *)
Definition atender (p : Peticion) (db : DB) : DB :=
  match p with
  | GET_grupos filters userId => snd (get_grupos filters userId db)
  | GET_grupo i userId => snd (get_grupo i userId db)
  | POST_grupos body userId => snd (post_grupos body userId db)
  | PUT_grupo i body userId => snd (put_grupo i body userId db)
  | DELETE_grupo i userId => snd (delete_grupo i userId db)
  end.

(** The HTTP status a request is answered with. *)
Definition estado_http (p : Peticion) (db : DB) : Z :=
  match p with
  | GET_grupos filters userId => reply_status (fst (get_grupos filters userId db))
  | GET_grupo i userId => reply_status (fst (get_grupo i userId db))
  | POST_grupos body userId => reply_status (fst (post_grupos body userId db))
  | PUT_grupo i body userId => reply_status (fst (put_grupo i body userId db))
  | DELETE_grupo i userId => reply_status (fst (delete_grupo i userId db))
  end.

Definition atender_todas (ps : list Peticion) (db : DB) : DB :=
  fold_left (fun s p => atender p s) ps db.

(** ** More vocabulary *)

(** A stored name is empty, or trimmed and of 3 to 200 code units. *)
Definition nombre_admitido (n : JsString) : Prop :=
  n = [] \/ (3 <= js_length n <= 200 /\ trim n = n).

(** A stored tax id is null or twelve decimal digits. *)
Definition rut_admitido (r : option JsString) : Prop :=
  match r with
  | None => True
  | Some s => rut_regex s = true
  end.

(** Keys and references stay below the sequence of [grupos], and group ids
    are unique. *)
Definition bien_formada (db : DB) : Prop :=
  (forall g, In g (grupos db) -> id g <= seq_grupos db)
  /\ NoDup (map id (grupos db))
  /\ (forall x, In x (usuariosGrupos db) ->
        ug_grupoEconomicoId x <= seq_grupos db)
  /\ (forall x, In x (configuraciones db) ->
        cc_grupoEconomicoId x <= seq_grupos db)
  /\ (forall x, In x (planes db) -> pc_grupoEconomicoId x <= seq_grupos db).

(** How many configurations, charts of accounts and ADMIN memberships a
    group has. *)
Definition n_configuraciones (i : Z) (db : DB) : nat :=
  List.length (filter (fun x => cc_grupoEconomicoId x =? i) (configuraciones db)).

Definition n_planes (i : Z) (db : DB) : nat :=
  List.length (filter (fun x => pc_grupoEconomicoId x =? i) (planes db)).

Definition tiene_admin (i : Z) (db : DB) : Prop :=
  exists x, In x (usuariosGrupos db)
            /\ ug_grupoEconomicoId x = i /\ ug_rol x = ADMIN.

(** Every group has one configuration, one chart of accounts and an ADMIN
    member, and no configuration or chart is shared or orphaned twice. *)
Definition integra (db : DB) : Prop :=
  bien_formada db
  /\ NoDup (map cc_grupoEconomicoId (configuraciones db))
  /\ NoDup (map pc_grupoEconomicoId (planes db))
  /\ (forall g, In g (grupos db) ->
        (exists c, In c (configuraciones db) /\ cc_grupoEconomicoId c = id g)
        /\ (exists p, In p (planes db) /\ pc_grupoEconomicoId p = id g)
        /\ tiene_admin (id g) db).

(** The messages the details keep under a key. *)
Definition mensajes_de (k : string) (d : Details) : list ZodMessage :=
  match find (fun e => String.eqb (fst e) k) d with
  | Some (_, ms) => ms
  | None => []
  end.

(** The issues each field of a body raises against the create schema. *)
Definition issues_nombre (body : Body) : list ZodMessage :=
  snd (z_string nombre_checks (b_nombre body)).

Definition issues_rutControlador (body : Body) : list ZodMessage :=
  snd (rutControlador_schema (b_rutControlador body)).

Definition issues_paisPrincipal (body : Body) : list ZodMessage :=
  snd (z_enum PAISES_VALIDOS pais_codigo (Some pais_errorMap)
         (b_paisPrincipal body)).

Definition issues_monedaBase (body : Body) : list ZodMessage :=
  snd (z_enum MONEDAS_VALIDAS moneda_codigo (Some moneda_errorMap)
         (b_monedaBase body)).

(** The same query on another page, and the rows of a page. *)
Definition con_pagina (p : Z) (f : ListGruposQuery) : ListGruposQuery :=
  {| page := de_Z p; limit := limit f; search := search f;
     q_activo := q_activo f; q_paisPrincipal := q_paisPrincipal f |}.

Definition filas_de (f : ListGruposQuery) (db : DB) : list GrupoListado :=
  match fst (findMany f db) with
  | Ok r => data r
  | Throw _ => []
  end.

Definition paginas_de (f : ListGruposQuery) (db : DB) : Z :=
  match fst (findMany f db) with
  | Ok r =>
      match entero (totalPages (pagination r)) with
      | Some k => k
      | None => 0
      end
  | Throw _ => 0
  end.

(** Pages 1 to the last, one after the other, each fetched by a query of
    its own. *)
Definition todas_las_paginas (f : ListGruposQuery) (db : DB)
  : list GrupoListado :=
  List.concat (map (fun k => filas_de (con_pagina (Z.of_nat k) f) db)
              (seq 1 (Z.to_nat (paginas_de (con_pagina 1 f) db)))).

(** A query whose page is 1.5: in range for the list schema, and no whole
    number. *)
Definition consulta_pagina_y_media : ListGruposQuery :=
  {| page := Finito 3 2; limit := de_Z 3; search := None; q_activo := None;
     q_paisPrincipal := None |}.

(** A group passes the [activo] and [paisPrincipal] filters of a query. *)
Definition pasa_filtros (f : ListGruposQuery) (g : GrupoEconomico) : Prop :=
  (forall a, q_activo f = Some a -> activo g = a)
  /\ (forall pa, q_paisPrincipal f = Some pa -> paisPrincipal g = pa).

(** The query has no search text. *)
Definition sin_busqueda (f : ListGruposQuery) : Prop :=
  search f = None \/ search f = Some [].

(** [row] is the listing row of the stored group [g]: its selected columns
    and the number of companies that refer to it. *)
Definition es_fila (db : DB) (g : GrupoEconomico) (row : GrupoListado)
  : Prop :=
  l_id row = id g /\ l_nombre row = nombre g
  /\ l_rutControlador row = rutControlador g
  /\ l_paisPrincipal row = paisPrincipal g
  /\ l_monedaBase row = monedaBase g
  /\ l_fechaCreacion row = fechaCreacion g
  /\ l_activo row = activo g
  /\ _count_empresas row =
     Z.of_nat (List.length
                 (filter (fun e => em_grupoEconomicoId e =? id g)
                         (empresas db))).

(** More sample data: a member with role OPERATIVO, and a request body with
    every field. *)
Definition db_acme_operativo : DB :=
  set_usuariosGrupos
    (usuariosGrupos db_acme
     ++ [{| ug_usuarioId := 2; ug_grupoEconomicoId := 1;
            ug_rol := OPERATIVO |}])
    db_acme.

Definition cuerpo_completo (n rut pais moneda : string) : Body :=
  {| b_nombre := JString (lit n); b_rutControlador := JString (lit rut);
     b_paisPrincipal := JString (lit pais);
     b_monedaBase := JString (lit moneda); b_activo := JUndefined |}.

(** The business validation [actualizar] runs on a patch: none when the
    patch has no name, country or currency. *)
Definition revisar_patch (d : UpdateGrupoDto) : Res unit :=
  if truthy_opt (u_nombre d)
     || match u_paisPrincipal d with Some _ => true | None => false end
     || match u_monedaBase d with Some _ => true | None => false end
  then validarDatosGrupo (partial_of_update d)
  else Ok tt.

(** All the issues a body raises against the create schema, in the order of
    its keys. *)
Definition issues_create (body : Body) : list ZodIssue :=
  at_key "nombre" (issues_nombre body)
  ++ at_key "rutControlador" (issues_rutControlador body)
  ++ at_key "paisPrincipal" (issues_paisPrincipal body)
  ++ at_key "monedaBase" (issues_monedaBase body).

(** The JSON object a client sends for a DTO. *)
Definition cuerpo_de (d : CreateGrupoDto) : Body :=
  {| b_nombre := JString (c_nombre d);
     b_rutControlador := match c_rutControlador d with
                         | Some r => JString r
                         | None => JUndefined
                         end;
     b_paisPrincipal := JString (lit (pais_codigo (c_paisPrincipal d)));
     b_monedaBase := JString (lit (moneda_codigo (c_monedaBase d)));
     b_activo := JUndefined |}.

(** The tax id of a DTO is absent, empty or twelve digits. *)
Definition rut_dto_admitido (r : option JsString) : Prop :=
  match r with
  | None => True
  | Some s => s = [] \/ rut_regex s = true
  end.

Definition fila_admitida (g : GrupoEconomico) : Prop :=
  nombre_admitido (nombre g) /\ rut_admitido (rutControlador g).

(** The empty request body and the patch it parses to. *)
Definition cuerpo_vacio : Body :=
  {| b_nombre := JUndefined; b_rutControlador := JUndefined;
     b_paisPrincipal := JUndefined; b_monedaBase := JUndefined;
     b_activo := JUndefined |}.

Definition patch_vacio : UpdateGrupoDto :=
  {| u_nombre := None; u_rutControlador := None; u_paisPrincipal := None;
     u_monedaBase := None; u_activo := None |}.

(** ** validators/grupos.schema.ts: the route parameters *)

(** [/^\d+$/.test(s)]: one or more ASCII decimal digits. *)
Definition id_regex (s : JsString) : bool :=
  truthy s && forallb is_digit s.

Section Params.

(** [Number], the built-in the schema transforms the id with, applied to
    the string the regex has let through. *)
Variable T : Type.
Variable Number : JsString -> T.

(** [GrupoParamsSchema.parse({ id })] *)
Definition GrupoParamsSchema (id_ : Json) : Res T :=
  match z_string [check_regex id_regex "El ID debe ser un número"] id_ with
  | (Some s, []) => Ok (Number s)
  | (_, issues) => Throw (ThrowZod (at_key "id" issues))
  end.

Definition validateGrupoParams (id_ : Json) : Res T := GrupoParamsSchema id_.

End Params.

(** Names in the order of their code units, a collation for the sample
    data. *)
Fixpoint lex_leb (a b : JsString) : bool :=
  match a, b with
  | [], _ => true
  | _ :: _, [] => false
  | x :: a', y :: b' => (x <? y)%N || ((x =? y)%N && lex_leb a' b')
  end.

(** The same database with the roles of the memberships rewritten. *)
Definition cambiar_roles (f : UsuarioGrupo -> Rol) (db : DB) : DB :=
  set_usuariosGrupos
    (map (fun x => {| ug_usuarioId := ug_usuarioId x;
                      ug_grupoEconomicoId := ug_grupoEconomicoId x;
                      ug_rol := f x |})
         (usuariosGrupos db))
    db.

Definition patch_pais_moneda (pa : Pais) (m : Moneda) : UpdateGrupoDto :=
  {| u_nombre := None; u_rutControlador := None;
     u_paisPrincipal := Some pa; u_monedaBase := Some m; u_activo := None |}.

(** ** middleware/auth.ts *)

(** [request.user], as the hook sets it. *)
Record RequestUser := {
  ru_id : Z;
  ru_email : JsString;
  ru_nombre : JsString;
  ru_grupoEconomicoId : Z;
  ru_rol : Rol
}.

(** The query string of a request, as the object it parses to: one value
    per key of the list schema, [JUndefined] for an absent key. *)
Record Query := {
  qs_page : Json;
  qs_limit : Json;
  qs_search : Json;
  qs_activo : Json;
  qs_paisPrincipal : Json
}.

(** [z.string().optional().transform(val => val === 'true' ? true :
    val === 'false' ? false : undefined)] *)
Definition z_activo (input : Json) : Parsed (option bool) :=
  match input with
  | JUndefined => (Some None, [])
  | JString s =>
      (Some (if js_eqb s (lit "true") then Some true
             else if js_eqb s (lit "false") then Some false
             else None),
       [])
  | _ => (None, [invalid_type "string" input])
  end.

Section Rutas.

(** [Number], the built-in that turns the [x-user-id] header, the [page]
    and [limit] of the query string and the [id] of the route into
    numbers. *)
Variable Number : JsString -> JsNumber.

(** The collation of [orderBy: { nombre: 'asc' }]. *)
Variable nombre_leb : JsString -> JsString -> bool.

(** [authenticateUser(request, reply)], on the [x-user-id] header of the
    request.  [usuario.findUnique] takes an Int for the id: any other number
    is rejected, and what it throws the [catch] turns into an
    [UnauthorizedError].  [usuario.grupos] are the user's memberships, and
    [grupos[0]] the first of them in the order the store returns them, here
    the table's. *)
Definition authenticateUser (userId : option JsString) : M RequestUser :=
  fun db =>
    match userId with
    | None =>
        (Throw (ThrowApp (UnauthorizedError "No se proporcionó autenticación")),
         db)
    | Some s =>
        if negb (truthy s)
        then (Throw (ThrowApp
                       (UnauthorizedError "No se proporcionó autenticación")),
              db)
        else
          match entero (Number s) with
          | None =>
              (Throw (ThrowApp
                        (UnauthorizedError "Error al autenticar usuario")),
               db)
          | Some i =>
              match find (fun us => us_id us =? i) (usuarios db) with
              | None =>
                  (Throw (ThrowApp (UnauthorizedError "Usuario no encontrado")),
                   db)
              | Some usuario =>
                  if negb (us_activo usuario)
                  then (Throw (ThrowApp (ForbiddenError "Usuario desactivado")),
                        db)
                  else
                    match filter (fun x => ug_usuarioId x =? us_id usuario)
                                 (usuariosGrupos db) with
                    | [] =>
                        (Throw (ThrowApp
                                  (ForbiddenError
                                     "Usuario sin grupo económico asignado")),
                         db)
                    | grupoActivo :: _ =>
                        (Ok {| ru_id := us_id usuario;
                               ru_email := us_email usuario;
                               ru_nombre := us_nombre usuario;
                               ru_grupoEconomicoId :=
                                 ug_grupoEconomicoId grupoActivo;
                               ru_rol := ug_rol grupoActivo |},
                         db)
                    end
              end
          end
    end.

(** ** validators/grupos.schema.ts: the query of the listing *)

(** [z.string().optional().default(d).transform(Number).refine(ok, msg)]:
    an absent key takes the default, the string is handed to [Number] as it
    is, and the refinement is the only check on the number. *)
Definition z_numero (d : string) (ok : JsNumber -> bool) (msg : string)
  (input : Json) : Parsed JsNumber :=
  match input with
  | JUndefined =>
      let n := Number (lit d) in (Some n, if ok n then [] else [Custom msg])
  | JString s =>
      let n := Number s in (Some n, if ok n then [] else [Custom msg])
  | _ => (None, [invalid_type "string" input])
  end.

(** [ListGruposQuerySchema.parse(data)] *)
Definition ListGruposQuerySchema (data : Query) : Res ListGruposQuery :=
  let '(pg, e1) :=
    z_numero "1" page_refine "La página debe ser mayor a 0" (qs_page data) in
  let '(lm, e2) :=
    z_numero "10" limit_refine "El límite debe estar entre 1 y 100"
      (qs_limit data) in
  let '(se, e3) := z_optional (z_string []) (qs_search data) in
  let '(ac, e4) := z_activo (qs_activo data) in
  let '(pa, e5) :=
    z_optional (z_enum PAISES_VALIDOS pais_codigo None)
      (qs_paisPrincipal data) in
  let issues :=
    at_key "page" e1 ++ at_key "limit" e2 ++ at_key "search" e3
    ++ at_key "activo" e4 ++ at_key "paisPrincipal" e5 in
  match issues, pg, lm, se, ac, pa with
  | [], Some p, Some l, Some s, Some a, Some c =>
      Ok {| page := p; limit := l; search := s; q_activo := a;
            q_paisPrincipal := c |}
  | _, _, _, _, _, _ => Throw (ThrowZod issues)
  end.

Definition validateListGruposQuery (data : Query) : Res ListGruposQuery :=
  ListGruposQuerySchema data.

(** ** routes/grupos.routes.ts: the routes *)

(** The service methods hand the id of the route to Prisma in their first
    query ([findUnique], [count]), where it is an Int: a number that is no
    integer is rejected there. *)
Definition con_id {A} (n : JsNumber) (k : Z -> M A) : M A :=
  match entero n with
  | Some i => k i
  | None => throw (ThrowPrisma PrismaOther)
  end.

(** A route of [gruposRoutes]: the [preHandler] hook runs first and the
    handler only when the hook returns; what either throws goes to
    [errorHandler]. *)
Definition ruta {A} (st : Z) (userId : option JsString)
  (handler : RequestUser -> M A) : DB -> Reply A * DB :=
  responder st (user <- authenticateUser userId ;; handler user).

(** [GET /api/grupos] *)
Definition ruta_get_grupos (userId : option JsString) (query : Query)
  : DB -> Reply Listado * DB :=
  ruta 200 userId
    (fun user =>
       filters <- lift (ListGruposQuerySchema query) ;;
       listar filters (ru_id user)).

(** [GET /api/grupos/mis-grupos] *)
Definition ruta_get_mis_grupos (userId : option JsString)
  : DB -> Reply (list GrupoResumen) * DB :=
  ruta 200 userId (fun user => obtenerGruposUsuario nombre_leb (ru_id user)).

(** [GET /api/grupos/:id] *)
Definition ruta_get_grupo (userId : option JsString) (id_ : Json)
  : DB -> Reply GrupoDetalle * DB :=
  ruta 200 userId
    (fun user =>
       n <- lift (GrupoParamsSchema JsNumber Number id_) ;;
       con_id n (fun i => obtenerPorId i (ru_id user))).

(** [POST /api/grupos] *)
Definition ruta_post_grupos (userId : option JsString) (body : Body)
  : DB -> Reply (option GrupoCreado) * DB :=
  ruta 201 userId
    (fun user =>
       d <- lift (CreateGrupoSchema body) ;;
       crear d (ru_id user)).

(** [PUT /api/grupos/:id] *)
Definition ruta_put_grupo (userId : option JsString) (id_ : Json)
  (body : Body) : DB -> Reply GrupoActualizado * DB :=
  ruta 200 userId
    (fun user =>
       n <- lift (GrupoParamsSchema JsNumber Number id_) ;;
       d <- lift (UpdateGrupoSchema body) ;;
       con_id n (fun i => actualizar i d (ru_id user))).

(** [DELETE /api/grupos/:id] *)
Definition ruta_delete_grupo (userId : option JsString) (id_ : Json)
  : DB -> Reply Eliminado * DB :=
  ruta 200 userId
    (fun user =>
       n <- lift (GrupoParamsSchema JsNumber Number id_) ;;
       con_id n (fun i => eliminar i (ru_id user))).

(** The requests of the module, with the header, query, route parameter
    and body they carry. *)
Inductive Solicitud :=
| SolListar (userId : option JsString) (query : Query)
| SolMisGrupos (userId : option JsString)
| SolObtener (userId : option JsString) (id_ : Json)
| SolCrear (userId : option JsString) (body : Body)
| SolActualizar (userId : option JsString) (id_ : Json) (body : Body)
| SolEliminar (userId : option JsString) (id_ : Json).


Definition despues_de (s : Solicitud) (db : DB) : DB :=
  match s with
  | SolListar h q => snd (ruta_get_grupos h q db)
  | SolMisGrupos h => snd (ruta_get_mis_grupos h db)
  | SolObtener h i => snd (ruta_get_grupo h i db)
  | SolCrear h b => snd (ruta_post_grupos h b db)
  | SolActualizar h i b => snd (ruta_put_grupo h i b db)
  | SolEliminar h i => snd (ruta_delete_grupo h i db)
  end.

Definition atender_solicitudes (ss : list Solicitud) (db : DB) : DB :=
  fold_left (fun st s => despues_de s st) ss db.

End Rutas.




(** No issue of the list sits under an inherited property name. *)
Definition propias (issues : list ZodIssue) : Prop :=
  existsb (fun err => heredada (join_path (path err))) issues = false.

(** * Properties *)

(** A row of a concrete table, found at its head. *)
Ltac fila_concreta := eexists; split; [left; reflexivity | repeat split].

(** ** Numbers *)

Lemma entero_de_Z (z : Z) : entero (de_Z z) = Some z.
Proof.
  unfold entero, de_Z. rewrite Z.mod_1_r, Z.div_1_r. reflexivity.
Qed.

Lemma entero_valor (n : Z) (d : positive) (z : Z) :
  entero (Finito n d) = Some z -> n = z * Zpos d.
Proof.
  unfold entero. destruct (n mod Zpos d =? 0) eqn:E; [|discriminate].
  intros H. injection H as <-. apply Z.eqb_eq in E.
  pose proof (Z.div_mod n (Zpos d) ltac:(lia)) as Hdm. lia.
Qed.

Lemma entero_multiplo (z : Z) (d : positive) :
  entero (Finito (z * Zpos d) d) = Some z.
Proof.
  unfold entero. rewrite Z.mod_mul by lia. cbn [Z.eqb].
  now rewrite Z.div_mul by lia.
Qed.

(** The [skip] of [findMany] on an integer page and an integer limit. *)
Lemma entero_skip (pg lm : JsNumber) (p l : Z) :
  entero pg = Some p -> entero lm = Some l ->
  entero (js_mul (js_sub pg (de_Z 1)) lm) = Some ((p - 1) * l).
Proof.
  destruct pg as [| |a b]; try discriminate.
  destruct lm as [| |c d]; try discriminate.
  intros Hp Hl. apply entero_valor in Hp, Hl. subst a c.
  cbn [js_sub js_mul de_Z].
  replace ((p * Zpos b * 1 - 1 * Zpos b) * (l * Zpos d))
    with ((p - 1) * l * Zpos (b * 1 * d)) by (rewrite !Pos2Z.inj_mul; ring).
  apply entero_multiplo.
Qed.

(** The [totalPages] of [findMany] on an integer limit above 0. *)
Lemma Math_ceil_total (t : Z) (lm : JsNumber) (l : Z) :
  entero lm = Some l -> 0 < l ->
  Math_ceil (js_div (de_Z t) lm) = de_Z (Math_ceil_div t l).
Proof.
  destruct lm as [| |c d]; try discriminate.
  intros Hl Hpos. apply entero_valor in Hl. subst c.
  assert (Hc : 0 < l * Zpos d) by nia.
  unfold js_div, de_Z.
  destruct (l * Zpos d =? 0) eqn:E0; [apply Z.eqb_eq in E0; lia|].
  destruct (0 <? l * Zpos d) eqn:E1; [|apply Z.ltb_ge in E1; lia].
  unfold Math_ceil, Math_ceil_div, de_Z. f_equal. f_equal.
  rewrite Pos2Z.inj_mul, Z2Pos.id by exact Hc.
  replace (- (t * Zpos d)) with (- t * Zpos d) by ring.
  replace (1 * (l * Zpos d)) with (l * Zpos d) by ring.
  apply Z.div_mul_cancel_r; lia.
Qed.

Lemma page_refine_entero (pg : JsNumber) (p : Z) :
  entero pg = Some p -> page_refine pg = (0 <? p).
Proof.
  destruct pg as [| |a b]; try discriminate.
  intros Hp. apply entero_valor in Hp. subst a.
  unfold page_refine, js_ltb, de_Z.
  destruct (0 <? p) eqn:E.
  - apply Z.ltb_lt in E. apply Z.ltb_lt. nia.
  - apply Z.ltb_ge in E. apply Z.ltb_ge. nia.
Qed.

Lemma limit_refine_entero (lm : JsNumber) (l : Z) :
  entero lm = Some l -> limit_refine lm = (0 <? l) && (l <=? 100).
Proof.
  destruct lm as [| |c d]; try discriminate.
  intros Hl. apply entero_valor in Hl. subst c.
  unfold limit_refine, js_ltb, js_leb, de_Z. f_equal.
  - destruct (0 <? l) eqn:E.
    + apply Z.ltb_lt in E. apply Z.ltb_lt. nia.
    + apply Z.ltb_ge in E. apply Z.ltb_ge. nia.
  - destruct (l <=? 100) eqn:E.
    + apply Z.leb_le in E. apply Z.leb_le. nia.
    + apply Z.leb_gt in E. apply Z.leb_gt. nia.
Qed.

(** ** Reading never writes *)

Lemma findMany_no_escribe (f : ListGruposQuery) (db : DB) :
  snd (findMany f db) = db.
Proof.
  unfold findMany, bind, grupoEconomico_findMany.
  destruct (entero (js_mul _ _)) as [s|]; [|reflexivity].
  destruct (entero (limit f)) as [t|]; [|reflexivity].
  now destruct (s <? 0).
Qed.

Lemma listar_no_escribe (f : ListGruposQuery) (u : Z) (db : DB) :
  snd (listar f u db) = db.
Proof. apply findMany_no_escribe. Qed.

Lemma responder_estado {A} (st : Z) (m : M A) (db : DB) :
  snd (responder st m db) = snd (m db).
Proof.
  unfold responder. now destruct (m db) as [[a|e] db'].
Qed.

Lemma get_grupos_no_escribe (f : ListGruposQuery) (u : Z) (db : DB) :
  snd (get_grupos f u db) = db.
Proof.
  unfold get_grupos. rewrite responder_estado. apply listar_no_escribe.
Qed.

(** ** Lookups in the tables *)

Lemma findUnique_In (i : Z) (db : DB) (g : GrupoEconomico) :
  grupoEconomico_findUnique i db = Some g ->
  In g (grupos db) /\ id g = i.
Proof.
  unfold grupoEconomico_findUnique. intros H.
  apply find_some in H. destruct H as [Hin Hid].
  split; [assumption | now apply Z.eqb_eq].
Qed.

Lemma findUnique_None (i : Z) (db : DB) :
  grupoEconomico_findUnique i db = None <->
  (forall g, In g (grupos db) -> id g <> i).
Proof.
  unfold grupoEconomico_findUnique. split.
  - intros H g Hin Hid.
    pose proof (find_none _ _ H g Hin) as Hn. cbv beta in Hn.
    apply Z.eqb_neq in Hn. contradiction.
  - intros H. destruct (find _ _) as [g|] eqn:E; [|reflexivity].
    apply find_some in E. destruct E as [Hin Hid].
    apply Z.eqb_eq in Hid. exfalso. exact (H g Hin Hid).
Qed.

Lemma existe_fila_findUnique (i : Z) (db : DB) :
  existe_fila i db <-> exists g, grupoEconomico_findUnique i db = Some g.
Proof.
  split.
  - intros [g [Hin Hid]].
    destruct (grupoEconomico_findUnique i db) as [g'|] eqn:E.
    + now exists g'.
    + exfalso. exact (proj1 (findUnique_None i db) E g Hin Hid).
  - intros [g Hg]. exists g. now apply findUnique_In.
Qed.

Lemma verificarAcceso_miembro (grupoId usuarioId : Z) (db : DB) :
  verificarAccesoUsuario grupoId usuarioId db =
    (Ok true, db) <-> es_miembro usuarioId grupoId db.
Proof.
  unfold verificarAccesoUsuario, query, es_miembro.
  destruct (find _ (usuariosGrupos db)) as [x|] eqn:E.
  - split; [intros _ | reflexivity].
    apply find_some in E. destruct E as [Hin Hx].
    apply andb_true_iff in Hx. destruct Hx as [Hu Hg].
    exists x. repeat split; [assumption | now apply Z.eqb_eq ..].
  - split; [discriminate |].
    intros [x [Hin [Hu Hg]]].
    pose proof (find_none _ _ E x Hin) as Hn. cbv beta in Hn.
    rewrite Hu, Hg, !Z.eqb_refl in Hn. discriminate.
Qed.

Lemma verificarAcceso_valor (grupoId usuarioId : Z) (db : DB) :
  exists b, verificarAccesoUsuario grupoId usuarioId db = (Ok b, db).
Proof.
  unfold verificarAccesoUsuario, query. eexists. reflexivity.
Qed.

Lemma verificarAcceso_no_miembro (grupoId usuarioId : Z) (db : DB) :
  ~ es_miembro usuarioId grupoId db ->
  verificarAccesoUsuario grupoId usuarioId db = (Ok false, db).
Proof.
  intros Hno.
  destruct (verificarAcceso_valor grupoId usuarioId db) as [[|] Hb];
    [|assumption].
  apply verificarAcceso_miembro in Hb. contradiction.
Qed.

Lemma exists_existe_fila (i : Z) (db : DB) :
  exists_ i db = (Ok true, db) <-> existe_fila i db.
Proof.
  unfold exists_, query, existe_fila. split.
  - intros H. injection H as H.
    destruct (filter _ (grupos db)) as [|g l] eqn:E; [discriminate|].
    assert (Hin : In g (filter (fun g => id g =? i) (grupos db)))
      by (rewrite E; now left).
    apply filter_In in Hin. destruct Hin as [Hin Hid].
    exists g. split; [assumption | now apply Z.eqb_eq].
  - intros [g [Hin Hid]].
    assert (Hf : In g (filter (fun g => id g =? i) (grupos db))).
    { apply filter_In. split; [assumption | now apply Z.eqb_eq]. }
    destruct (filter _ (grupos db)) as [|h l]; [contradiction|].
    assert (Hlen : (Z.of_nat (List.length (h :: l)) >? 0) = true).
    { cbn [List.length]. rewrite Nat2Z.inj_succ. apply Z.gtb_lt. lia. }
    rewrite Hlen. reflexivity.
Qed.

(** ** Listing *)

(** C9: the listing does not depend on the caller: for every filter set and
    every two user ids the service returns the same data and pagination,
    and leaves the same database, on the same state; so does the route. *)
Theorem listar_no_depende_del_usuario
  (filters : ListGruposQuery) (u1 u2 : Z) (db : DB) :
  listar filters u1 db = listar filters u2 db
  /\ get_grupos filters u1 db = get_grupos filters u2 db.
Proof.
  split; reflexivity.
Qed.

(** ** Reading one group *)

Lemma obtenerPorId_casos (grupoId usuarioId : Z) (db : DB) :
  obtenerPorId grupoId usuarioId db =
  match grupoEconomico_findUnique grupoId db with
  | None => (Throw (no_encontrado grupoId), db)
  | Some g =>
      match verificarAccesoUsuario grupoId usuarioId db with
      | (Ok true, _) => (Ok (incluir_detalle db g), db)
      | _ => (Throw sin_acceso, db)
      end
  end.
Proof.
  unfold obtenerPorId, bind, findById, verificarAccesoUsuario, query.
  destruct (grupoEconomico_findUnique grupoId db) as [g|]; cbn.
  - now destruct (find _ (usuariosGrupos db)).
  - reflexivity.
Qed.

Lemma obtenerPorId_no_escribe (grupoId usuarioId : Z) (db : DB) :
  snd (obtenerPorId grupoId usuarioId db) = db.
Proof.
  rewrite obtenerPorId_casos.
  destruct (grupoEconomico_findUnique grupoId db); [|reflexivity].
  destruct (verificarAcceso_valor grupoId usuarioId db) as [b Hb].
  rewrite Hb. now destruct b.
Qed.

Lemma no_encontrado_es_NotFound {A} (i : Z) :
  es_NotFound (@Throw A (no_encontrado i)).
Proof.
  unfold es_NotFound, no_encontrado. eexists. split; [reflexivity|].
  now cbn.
Qed.

Lemma sin_acceso_es_Forbidden {A} : es_Forbidden (@Throw A sin_acceso).
Proof.
  unfold es_Forbidden, sin_acceso. eexists. split; [reflexivity|].
  now cbn.
Qed.

(** C6: [obtenerPorId] throws NotFound (404) exactly when no group has the
    id, whoever calls; throws Forbidden (403) when the group exists and the
    caller has no membership row for it; and returns the stored group when
    both exist.  It never writes. *)
Theorem obtenerPorId_spec (grupoId usuarioId : Z) (db : DB) :
  snd (obtenerPorId grupoId usuarioId db) = db
  /\ (es_NotFound (fst (obtenerPorId grupoId usuarioId db))
      <-> ~ existe_fila grupoId db)
  /\ (existe_fila grupoId db -> ~ es_miembro usuarioId grupoId db ->
      es_Forbidden (fst (obtenerPorId grupoId usuarioId db)))
  /\ (existe_fila grupoId db -> es_miembro usuarioId grupoId db ->
      exists d, fst (obtenerPorId grupoId usuarioId db) = Ok d
                /\ grupoEconomico_findUnique grupoId db = Some (grupo d)
                /\ id (grupo d) = grupoId).
Proof.
  split; [apply obtenerPorId_no_escribe|].
  rewrite obtenerPorId_casos.
  destruct (grupoEconomico_findUnique grupoId db) as [g|] eqn:Eg.
  - assert (Hex : existe_fila grupoId db)
      by (apply existe_fila_findUnique; now exists g).
    destruct (verificarAcceso_valor grupoId usuarioId db) as [b Hb].
    rewrite Hb. destruct b; cbn.
    + apply verificarAcceso_miembro in Hb.
      repeat split.
      * intros [e [He _]]. discriminate.
      * intros Hno. contradiction.
      * intros _ Hno. contradiction.
      * intros _ _. exists (incluir_detalle db g).
        repeat split. now apply findUnique_In in Eg.
    + repeat split.
      * intros [e [He [Hn _]]]. injection He as He. subst e. discriminate.
      * intros Hno. contradiction.
      * intros _ _. apply sin_acceso_es_Forbidden.
      * intros _ Hm. apply verificarAcceso_miembro in Hm. congruence.
  - assert (Hno : ~ existe_fila grupoId db).
    { intros H. apply existe_fila_findUnique in H. destruct H. congruence. }
    cbn. repeat split.
    + intros _. assumption.
    + intros _. apply no_encontrado_es_NotFound.
    + intros H. contradiction.
    + intros H. contradiction.
Qed.

Lemma obtenerPorId_spec_witness :
  existe_fila 1 db_acme /\ es_miembro 1 1 db_acme
  /\ ~ es_miembro 2 1 db_acme /\ ~ existe_fila 9999 db_acme
  /\ es_Forbidden (fst (obtenerPorId 1 2 db_acme))
  /\ es_NotFound (fst (obtenerPorId 9999 2 db_acme))
  /\ exists d, fst (obtenerPorId 1 1 db_acme) = Ok d.
Proof.
  assert (H1 : existe_fila 1 db_acme).
  { fila_concreta. }
  assert (H2 : es_miembro 1 1 db_acme).
  { fila_concreta. }
  assert (H3 : ~ es_miembro 2 1 db_acme).
  { intros [x [[Hx|[]] [Hu _]]]. subst x. discriminate. }
  assert (H4 : ~ existe_fila 9999 db_acme).
  { intros [x [[Hx|[]] Hi]]. subst x. discriminate. }
  repeat split; try assumption.
  - exact (proj1 (proj2 (proj2 (obtenerPorId_spec 1 2 db_acme))) H1 H3).
  - exact (proj2 (proj1 (proj2 (obtenerPorId_spec 9999 2 db_acme))) H4).
  - destruct (proj2 (proj2 (proj2 (obtenerPorId_spec 1 1 db_acme))) H1 H2)
      as [d [Hd _]].
    now exists d.
Defined.

(** ** Writing one row of [grupos] *)

Lemma find_reemplazar_mismo (i : Z) (g' : GrupoEconomico)
  (l : list GrupoEconomico) (g : GrupoEconomico) :
  id g' = i ->
  find (fun x => id x =? i) l = Some g ->
  find (fun x => id x =? i) (reemplazar i g' l) = Some g'.
Proof.
  intros Hid. induction l as [|h t IH]; cbn; [discriminate|].
  destruct (id h =? i) eqn:E; cbn.
  - intros _. rewrite Hid, Z.eqb_refl. reflexivity.
  - rewrite E. exact IH.
Qed.

Lemma find_reemplazar_otro (i j : Z) (g' : GrupoEconomico)
  (l : list GrupoEconomico) :
  id g' = i -> j <> i ->
  find (fun x => id x =? j) (reemplazar i g' l) =
  find (fun x => id x =? j) l.
Proof.
  intros Hid Hne. induction l as [|h t IH]; cbn; [reflexivity|].
  destruct (id h =? i) eqn:E; cbn.
  - apply Z.eqb_eq in E.
    assert (H1 : (id g' =? j) = false) by (apply Z.eqb_neq; congruence).
    assert (H2 : (id h =? j) = false) by (apply Z.eqb_neq; congruence).
    now rewrite H1, H2.
  - destruct (id h =? j); [reflexivity | exact IH].
Qed.

Lemma reemplazar_reemplazar (i : Z) (a b : GrupoEconomico)
  (l : list GrupoEconomico) :
  id a = i ->
  reemplazar i b (reemplazar i a l) = reemplazar i b l.
Proof.
  intros Hid. induction l as [|h t IH]; cbn; [reflexivity|].
  destruct (id h =? i) eqn:E; cbn.
  - now rewrite Hid, Z.eqb_refl.
  - now rewrite E, IH.
Qed.

Lemma find_app_grupo (j : Z) (l : list GrupoEconomico) (g x : GrupoEconomico) :
  find (fun y => id y =? j) l = Some g ->
  find (fun y => id y =? j) (l ++ [x]) = Some g.
Proof.
  induction l as [|h t IH]; cbn; [discriminate|].
  destruct (id h =? j); [trivial | exact IH].
Qed.

Lemma grupoEconomico_update_ok (i : Z) (f : GrupoEconomico -> GrupoEconomico)
  (db : DB) (g : GrupoEconomico) :
  grupoEconomico_findUnique i db = Some g ->
  grupoEconomico_update i f db =
    (Ok (f g), set_grupos (reemplazar i (f g) (grupos db)) (seq_grupos db) db).
Proof.
  unfold grupoEconomico_update. now intros ->.
Qed.

Lemma delete_data_idem (g : GrupoEconomico) :
  delete_data (delete_data g) = delete_data g.
Proof. reflexivity. Qed.

(** ** Soft delete *)

Lemma sin_empresas_activas (grupoId : Z) (db : DB) :
  ~ tiene_empresa_activa grupoId db ->
  existsb er_activa (map resumen_empresa (empresas_de grupoId db)) = false.
Proof.
  intros Hno. apply not_true_is_false. intros H.
  apply existsb_exists in H. destruct H as [r [Hin Hr]].
  apply in_map_iff in Hin. destruct Hin as [e [He Hin]]. subst r.
  apply filter_In in Hin. destruct Hin as [Hin Hg].
  apply Hno. exists e. repeat split; [assumption | now apply Z.eqb_eq | exact Hr].
Qed.

Lemma con_empresas_activas (grupoId : Z) (db : DB) :
  tiene_empresa_activa grupoId db ->
  existsb er_activa (map resumen_empresa (empresas_de grupoId db)) = true.
Proof.
  intros [e [Hin [Hg Ha]]]. apply existsb_exists.
  exists (resumen_empresa e). split; [|exact Ha].
  apply in_map. apply filter_In. split; [assumption | now apply Z.eqb_eq].
Qed.

Lemma eliminar_casos (grupoId usuarioId : Z) (db : DB) (g : GrupoEconomico) :
  grupoEconomico_findUnique grupoId db = Some g ->
  es_miembro usuarioId grupoId db ->
  eliminar grupoId usuarioId db =
  if existsb er_activa (map resumen_empresa (empresas_de grupoId db))
  then (Throw (ThrowApp (BusinessRuleError
          "No se puede eliminar un grupo con empresas activas. Desactiva las empresas primero."
          (Some "EMPRESAS_ACTIVAS"))), db)
  else (Ok exito_eliminar,
        set_grupos (reemplazar grupoId (delete_data g) (grupos db))
                   (seq_grupos db) db).
Proof.
  intros Hg Hm.
  pose proof (proj2 (findUnique_In _ _ _ Hg)) as Hid.
  apply verificarAcceso_miembro in Hm.
  unfold eliminar, bind, findById. unfold query at 1. rewrite Hg. cbn [option_map].
  rewrite Hm. cbn [negb]. unfold incluir_detalle. cbn [con_empresas].
  rewrite Hid.
  destruct (existsb er_activa _); [reflexivity|].
  unfold delete. rewrite (grupoEconomico_update_ok _ _ _ _ Hg). reflexivity.
Qed.

(** C4: for a group that exists and that the caller is a member of, delete
    throws BusinessRule (422, rule EMPRESAS_ACTIVAS) and leaves the database
    as it was when some company of the group is active; when none is, it
    succeeds, the stored row gets [activo = false] and keeps every other
    field, and no other row of any table changes. *)
Theorem eliminar_spec (grupoId usuarioId : Z) (db : DB) (g : GrupoEconomico) :
  grupoEconomico_findUnique grupoId db = Some g ->
  es_miembro usuarioId grupoId db ->
  (tiene_empresa_activa grupoId db ->
     es_BusinessRule (Some "EMPRESAS_ACTIVAS")
       (fst (eliminar grupoId usuarioId db))
     /\ snd (eliminar grupoId usuarioId db) = db)
  /\ (~ tiene_empresa_activa grupoId db ->
     exists g',
       fst (eliminar grupoId usuarioId db) = Ok exito_eliminar
       /\ grupoEconomico_findUnique grupoId
            (snd (eliminar grupoId usuarioId db)) = Some g'
       /\ activo g' = false
       /\ id g' = id g /\ nombre g' = nombre g
       /\ rutControlador g' = rutControlador g
       /\ paisPrincipal g' = paisPrincipal g
       /\ monedaBase g' = monedaBase g
       /\ fechaCreacion g' = fechaCreacion g
       /\ (forall j, j <> grupoId ->
             grupoEconomico_findUnique j (snd (eliminar grupoId usuarioId db))
             = grupoEconomico_findUnique j db)
       /\ mismas_otras_tablas (snd (eliminar grupoId usuarioId db)) db).
Proof.
  intros Hg Hm. rewrite (eliminar_casos _ _ _ _ Hg Hm).
  pose proof (proj2 (findUnique_In _ _ _ Hg)) as Hid.
  split.
  - intros Ha. rewrite (con_empresas_activas _ _ Ha). cbn [fst snd].
    split; [|reflexivity].
    eexists. split; [reflexivity|]. now cbn.
  - intros Hno. rewrite (sin_empresas_activas _ _ Hno). cbn [fst snd].
    exists (delete_data g). split; [reflexivity|].
    split.
    { unfold grupoEconomico_findUnique in *. cbn [grupos set_grupos].
      now apply find_reemplazar_mismo with (g := g). }
    repeat split.
    intros j Hj. unfold grupoEconomico_findUnique. cbn [grupos set_grupos].
    now apply find_reemplazar_otro.
Qed.

Lemma eliminar_spec_witness :
  (es_BusinessRule (Some "EMPRESAS_ACTIVAS")
     (fst (eliminar 1 1 db_acme_con_empresa))
   /\ snd (eliminar 1 1 db_acme_con_empresa) = db_acme_con_empresa)
  /\ activo_de 1 (snd (eliminar 1 1 db_acme)) = Some false.
Proof.
  assert (Hm : es_miembro 1 1 db_acme).
  { fila_concreta. }
  split.
  - refine (proj1 (eliminar_spec 1 1 db_acme_con_empresa _ eq_refl Hm) _).
    fila_concreta.
  - destruct (proj2 (eliminar_spec 1 1 db_acme _ eq_refl Hm))
      as [g' [_ [Hf [Ha _]]]].
    + intros [e [[] _]].
    + unfold activo_de. rewrite Hf. cbn. now rewrite Ha.
Defined.

(** C10: soft delete is idempotent: for an existing group without active
    companies that the caller is a member of, delete succeeds, and a second
    delete on the resulting state succeeds with the same result and leaves
    that state unchanged. *)
Theorem eliminar_idempotente (grupoId usuarioId : Z) (db : DB) :
  existe_fila grupoId db ->
  es_miembro usuarioId grupoId db ->
  ~ tiene_empresa_activa grupoId db ->
  exists db1,
    eliminar grupoId usuarioId db = (Ok exito_eliminar, db1)
    /\ activo_de grupoId db1 = Some false
    /\ eliminar grupoId usuarioId db1 = (Ok exito_eliminar, db1).
Proof.
  intros Hex Hm Hno.
  apply existe_fila_findUnique in Hex. destruct Hex as [g Hg].
  pose proof (proj2 (findUnique_In _ _ _ Hg)) as Hid.
  rewrite (eliminar_casos _ _ _ _ Hg Hm), (sin_empresas_activas _ _ Hno).
  eexists. split; [reflexivity|].
  set (db1 := set_grupos _ _ db).
  assert (Hg1 : grupoEconomico_findUnique grupoId db1 = Some (delete_data g)).
  { unfold grupoEconomico_findUnique in *. subst db1. cbn [grupos set_grupos].
    now apply find_reemplazar_mismo with (g := g). }
  split; [unfold activo_de; now rewrite Hg1|].
  assert (Hm1 : es_miembro usuarioId grupoId db1) by exact Hm.
  assert (Hno1 : ~ tiene_empresa_activa grupoId db1) by exact Hno.
  rewrite (eliminar_casos _ _ _ _ Hg1 Hm1), (sin_empresas_activas _ _ Hno1).
  f_equal. subst db1. unfold set_grupos. cbn.
  rewrite delete_data_idem, reemplazar_reemplazar by exact Hid.
  reflexivity.
Qed.

Lemma eliminar_idempotente_witness :
  exists db1,
    eliminar 1 1 db_acme = (Ok exito_eliminar, db1)
    /\ activo_de 1 db1 = Some false
    /\ eliminar 1 1 db1 = (Ok exito_eliminar, db1).
Proof.
  apply (eliminar_idempotente 1 1 db_acme).
  - fila_concreta.
  - fila_concreta.
  - intros [e [[] _]].
Defined.

(** ** Partial update *)

Lemma update_ok (i : Z) (d : UpdateGrupoDto) (db : DB) (g : GrupoEconomico) :
  grupoEconomico_findUnique i db = Some g ->
  exists r,
    update i d db =
      (Ok r, set_grupos (reemplazar i (update_data d g) (grupos db))
                        (seq_grupos db) db)
    /\ grupo r = update_data d g.
Proof.
  intros Hg. unfold update, bind.
  rewrite (grupoEconomico_update_ok _ _ _ _ Hg). unfold query.
  eexists. split; reflexivity.
Qed.

(** C7: the repository update of a stored group succeeds and changes only
    fields present in the DTO: a field absent from the DTO keeps its stored
    value (so a DTO with only a name leaves country, currency, tax id and
    active flag as they were), id and creation time never change, a tax id
    given as the empty string is stored as null, and no other row of any
    table changes. *)
Theorem update_solo_campos_presentes
  (i : Z) (d : UpdateGrupoDto) (db : DB) (g : GrupoEconomico) :
  grupoEconomico_findUnique i db = Some g ->
  exists r g',
    fst (update i d db) = Ok r /\ grupo r = g'
    /\ grupoEconomico_findUnique i (snd (update i d db)) = Some g'
    /\ (u_nombre d = None -> nombre g' = nombre g)
    /\ (u_rutControlador d = None -> rutControlador g' = rutControlador g)
    /\ (u_paisPrincipal d = None -> paisPrincipal g' = paisPrincipal g)
    /\ (u_monedaBase d = None -> monedaBase g' = monedaBase g)
    /\ (u_activo d = None -> activo g' = activo g)
    /\ id g' = id g /\ fechaCreacion g' = fechaCreacion g
    /\ (u_rutControlador d = Some [] -> rutControlador g' = None)
    /\ (forall j, j <> i ->
          grupoEconomico_findUnique j (snd (update i d db))
          = grupoEconomico_findUnique j db)
    /\ mismas_otras_tablas (snd (update i d db)) db.
Proof.
  intros Hg. destruct (update_ok i d db g Hg) as [r [Hr Hgr]].
  pose proof (proj2 (findUnique_In _ _ _ Hg)) as Hid.
  exists r, (update_data d g). rewrite Hr. cbn [fst snd].
  split; [reflexivity|]. split; [assumption|].
  split.
  { unfold grupoEconomico_findUnique in *. cbn [grupos set_grupos].
    now apply find_reemplazar_mismo with (g := g). }
  unfold update_data; cbn.
  repeat split; try (intros ->; reflexivity).
  intros j Hj. unfold grupoEconomico_findUnique. cbn [grupos set_grupos].
  now apply find_reemplazar_otro.
Qed.

Lemma update_solo_campos_presentes_witness :
  exists r,
    fst (update 1 (patch_nombre "Solo Nombre Cambiado") db_acme) = Ok r
    /\ nombre (grupo r) = lit "Solo Nombre Cambiado"
    /\ rutControlador (grupo r) = None
    /\ paisPrincipal (grupo r) = UY /\ monedaBase (grupo r) = UYU
    /\ activo (grupo r) = true.
Proof.
  destruct (update_solo_campos_presentes 1
              (patch_nombre "Solo Nombre Cambiado") db_acme _ eq_refl)
    as [r [g' [Hr [Hg [_ [_ [H2 [H3 [H4 [H5 _]]]]]]]]]].
  exists r. subst g'.
  split; [exact Hr|].
  rewrite (H2 eq_refl), (H3 eq_refl), (H4 eq_refl), (H5 eq_refl).
  split; [|repeat split].
  cbn in Hr. injection Hr as Hr. now subst r.
Defined.

(** A field present in the DTO is written when its guard is truthy; a name
    that is the empty string is present and yet not written. *)
Lemma update_data_presentes (d : UpdateGrupoDto) (g : GrupoEconomico) :
  (forall n, u_nombre d = Some n -> n <> [] ->
     nombre (update_data d g) = n)
  /\ (u_nombre d = Some [] -> nombre (update_data d g) = nombre g)
  /\ (forall r, u_rutControlador d = Some r -> r <> [] ->
        rutControlador (update_data d g) = Some r)
  /\ (forall p, u_paisPrincipal d = Some p ->
        paisPrincipal (update_data d g) = p)
  /\ (forall m, u_monedaBase d = Some m -> monedaBase (update_data d g) = m)
  /\ (forall a, u_activo d = Some a -> activo (update_data d g) = a).
Proof.
  unfold update_data; cbn.
  repeat split; intros; try (rewrite H; reflexivity).
  - rewrite H. destruct n; [contradiction | reflexivity].
  - rewrite H. destruct r; [contradiction | reflexivity].
Qed.

(** ** Creation *)

Lemma transaction_throw {A} (body : M A) (db db' : DB) (e : Thrown) :
  transaction body db = (Throw e, db') -> mismas_filas db' db.
Proof.
  unfold transaction. destruct (body db) as [[a|e'] db1]; [discriminate|].
  intros H. injection H as _ H. subst db'.
  unfold mismas_filas, mismas_otras_tablas, rollback; cbn. tauto.
Qed.

Lemma create_body_ok (d : CreateGrupoDto) (usuarioId : Z) (db db' : DB)
  (r : option GrupoCreado) :
  create_body d usuarioId db = (Ok r, db') ->
  cuatro_inserciones d usuarioId db db'.
Proof.
  unfold create_body, bind, grupoEconomico_create, usuarioGrupo_create,
    configuracionContable_create, planDeCuentas_create, query.
  cbn [id nombre].
  repeat match goal with
         | |- context [if ?c then _ else _] => destruct c; cbn
         end; try discriminate.
  intros H. injection H as _ H. subst db'.
  unfold cuatro_inserciones. do 4 eexists. cbn.
  repeat split.
  exists (lit "Plan de cuentas - "), []. now rewrite app_nil_r.
Qed.

Lemma create_resultado (d : CreateGrupoDto) (usuarioId : Z) (db : DB) :
  match create d usuarioId db with
  | (Ok _, db') => cuatro_inserciones d usuarioId db db'
  | (Throw _, db') => mismas_filas db' db
  end.
Proof.
  destruct (create d usuarioId db) as [[r|e] db'] eqn:E.
  - unfold create, transaction in E.
    destruct (create_body d usuarioId db) as [[r1|e1] db1] eqn:E1;
      [|discriminate].
    injection E as _ E. subst db'. exact (create_body_ok _ _ _ _ _ E1).
  - exact (transaction_throw _ _ _ _ E).
Qed.

Lemma find_app_nuevo {A} (p : A -> bool) (l : list A) (x : A) :
  existsb p l = false -> p x = true -> find p (l ++ [x]) = Some x.
Proof.
  intros Hl Hx. induction l as [|h t IH]; cbn in *.
  - now rewrite Hx.
  - apply orb_false_iff in Hl. destruct Hl as [Hh Ht].
    rewrite Hh. now apply IH.
Qed.

Lemma existsb_app_nuevo {A} (p : A -> bool) (l : list A) (x : A) :
  p x = true -> existsb p (l ++ [x]) = true.
Proof.
  intros Hx. rewrite existsb_app. cbn. rewrite Hx. now rewrite orb_true_r.
Qed.

Lemma create_exito (d : CreateGrupoDto) (usuarioId : Z) (db : DB) :
  existe_usuario usuarioId db = true ->
  id_siguiente_libre usuarioId db = true ->
  exists r db',
    create d usuarioId db = (Ok (Some r), db')
    /\ id (grupo r) = seq_grupos db + 1
    /\ nombre (grupo r) = c_nombre d
    /\ activo (grupo r) = true
    /\ (exists c, con_configuracion r = Some c
                  /\ cc_grupoEconomicoId c = id (grupo r)
                  /\ configuracion_por_defecto c)
    /\ (exists p, con_planDeCuentas r = Some p
                  /\ pc_grupoEconomicoId p = id (grupo r)
                  /\ contiene (pc_nombre p) (nombre (grupo r))).
Proof.
  intros Hu Hl. unfold id_siguiente_libre in Hl. cbv zeta in Hl.
  repeat (apply andb_true_iff in Hl; destruct Hl as [Hl ?]).
  repeat match goal with
         | H : negb _ = true |- _ => apply negb_true_iff in H
         end.
  set (i := seq_grupos db + 1) in *.
  unfold create, transaction, create_body, bind, grupoEconomico_create.
  fold i. cbn [id nombre].
  set (g := {| id := i; nombre := c_nombre d |}).
  unfold usuarioGrupo_create.
  assert (Hg : forall s, existe_grupo i (set_grupos (grupos db ++ [g]) s db) = true).
  { intros s. unfold existe_grupo. cbn [grupos set_grupos].
    apply existsb_app_nuevo. cbn. apply Z.eqb_refl. }
  replace (existe_usuario usuarioId (set_grupos (grupos db ++ [g]) i db))
    with true by (symmetry; exact Hu).
  rewrite Hg. cbn [andb negb usuariosGrupos set_grupos].
  match goal with
  | H : existsb _ (usuariosGrupos db) = false |- _ => rewrite H
  end.
  unfold configuracionContable_create.
  replace (existe_grupo i (set_usuariosGrupos _ _)) with true
    by (symmetry; apply (Hg i)).
  cbn [negb configuraciones set_usuariosGrupos set_grupos].
  match goal with
  | H : existsb _ (configuraciones db) = false |- _ => rewrite H
  end.
  unfold planDeCuentas_create.
  replace (existe_grupo i (set_configuraciones _ _ _)) with true
    by (symmetry; apply (Hg i)).
  cbn [negb planes set_configuraciones set_usuariosGrupos set_grupos].
  match goal with
  | H : existsb _ (planes db) = false |- _ => rewrite H
  end.
  unfold query, grupoEconomico_findUnique.
  cbn [grupos set_planes set_configuraciones set_usuariosGrupos set_grupos].
  rewrite (find_app_nuevo (fun x => id x =? i) (grupos db) g)
    by (assumption || apply Z.eqb_refl).
  cbn [option_map]. do 2 eexists. split; [reflexivity|].
  unfold incluir_creado, configuracion_de, plan_de.
  cbn [grupo con_configuracion con_planDeCuentas id nombre activo g
       configuraciones planes set_planes set_configuraciones
       set_usuariosGrupos set_grupos].
  repeat split.
  - eexists. split.
    + apply find_app_nuevo; [assumption | apply Z.eqb_refl].
    + cbn. repeat split.
  - eexists. split.
    + apply find_app_nuevo; [assumption | apply Z.eqb_refl].
    + cbn. split; [reflexivity|].
      exists (lit "Plan de cuentas - "), []. now rewrite app_nil_r.
Qed.

(** C3: [create] is atomic.  When it returns, the database has exactly four
    rows more than before: the group row made from the DTO, the membership
    row binding the creator with role ADMIN, the configuration row with the
    fixed defaults (false, false, 50000.00, false, 2, 4) and the chart of
    accounts whose name contains the group's name.  When it throws, at
    whichever insert, every table has the rows it had before.  And it does
    return, with the configuration and the chart attached to the new group,
    whenever the creator exists and the next group id is unused. *)
Theorem create_atomico (d : CreateGrupoDto) (usuarioId : Z) (db : DB) :
  match create d usuarioId db with
  | (Ok _, db') => cuatro_inserciones d usuarioId db db'
  | (Throw _, db') => mismas_filas db' db
  end
  /\ (existe_usuario usuarioId db = true ->
      id_siguiente_libre usuarioId db = true ->
      exists r db',
        create d usuarioId db = (Ok (Some r), db')
        /\ id (grupo r) = seq_grupos db + 1
        /\ nombre (grupo r) = c_nombre d
        /\ activo (grupo r) = true
        /\ (exists c, con_configuracion r = Some c
                      /\ cc_grupoEconomicoId c = id (grupo r)
                      /\ configuracion_por_defecto c)
        /\ (exists p, con_planDeCuentas r = Some p
                      /\ pc_grupoEconomicoId p = id (grupo r)
                      /\ contiene (pc_nombre p) (nombre (grupo r)))).
Proof.
  split.
  - apply create_resultado.
  - apply create_exito.
Qed.

Lemma create_atomico_witness :
  exists r db',
    create dto_acme 1 db_usuarios = (Ok (Some r), db')
    /\ cuatro_inserciones dto_acme 1 db_usuarios db'
    /\ nombre (grupo r) = lit "Acme Holdings".
Proof.
  destruct (proj2 (create_atomico dto_acme 1 db_usuarios) eq_refl eq_refl)
    as [r [db' [Hc [_ [Hn _]]]]].
  exists r, db'. split; [exact Hc|]. split; [|exact Hn].
  change (match (Ok (Some r), db') with
          | (Ok _, db2) => cuatro_inserciones dto_acme 1 db_usuarios db2
          | (Throw _, db2) => mismas_filas db2 db_usuarios
          end).
  rewrite <- Hc. exact (proj1 (create_atomico dto_acme 1 db_usuarios)).
Defined.

(** A creator that is no user makes the second insert fail: the group row
    the body had inserted is gone after the rollback, and only the
    sequence has moved. *)
Lemma create_sin_usuario_revierte :
  exists db1,
    create_body dto_acme 7 db_usuarios = (Throw (ThrowPrisma P2003), db1)
    /\ List.length (grupos db1) = 1%nat
    /\ exists db2,
         create dto_acme 7 db_usuarios = (Throw (ThrowPrisma P2003), db2)
         /\ grupos db2 = [] /\ usuariosGrupos db2 = []
         /\ configuraciones db2 = [] /\ planes db2 = []
         /\ seq_grupos db2 = 1.
Proof.
  eexists. split; [reflexivity|]. split; [reflexivity|].
  eexists. split; [reflexivity|]. repeat split.
Qed.

(** ** The active flag along sequences of calls *)

Lemma activo_de_reemplazar (i j s : Z) (g g' : GrupoEconomico) (db : DB) :
  grupoEconomico_findUnique i db = Some g ->
  id g' = i ->
  (activo g = false -> activo g' = false) ->
  activo_de j db = Some false ->
  activo_de j (set_grupos (reemplazar i g' (grupos db)) s db) = Some false.
Proof.
  intros Hg Hid Hact Hj. unfold activo_de, grupoEconomico_findUnique in *.
  cbn [grupos set_grupos].
  destruct (Z.eq_dec j i) as [->|Hne].
  - rewrite (find_reemplazar_mismo i g' _ g Hid Hg). cbn.
    rewrite Hg in Hj. cbn in Hj. injection Hj as Hj. now rewrite Hact.
  - now rewrite find_reemplazar_otro.
Qed.

Lemma exists_valor (i : Z) (db : DB) :
  exists b, exists_ i db = (Ok b, db).
Proof.
  unfold exists_, query. eexists. reflexivity.
Qed.

Lemma update_estado (i : Z) (d : UpdateGrupoDto) (db : DB) :
  snd (update i d db) = db
  \/ exists g, grupoEconomico_findUnique i db = Some g
               /\ snd (update i d db) =
                  set_grupos (reemplazar i (update_data d g) (grupos db))
                             (seq_grupos db) db.
Proof.
  destruct (grupoEconomico_findUnique i db) as [g|] eqn:Eg.
  - right. exists g. split; [reflexivity|].
    destruct (update_ok i d db g Eg) as [r [Hr _]]. now rewrite Hr.
  - left. unfold update, bind, grupoEconomico_update. now rewrite Eg.
Qed.

Lemma actualizar_estado (i : Z) (d : UpdateGrupoDto) (u : Z) (db : DB) :
  snd (actualizar i d u db) = db
  \/ exists g, grupoEconomico_findUnique i db = Some g
               /\ snd (actualizar i d u db) =
                  set_grupos (reemplazar i (update_data d g) (grupos db))
                             (seq_grupos db) db.
Proof.
  destruct (exists_valor i db) as [b0 H0].
  destruct (verificarAcceso_valor i u db) as [b Hb].
  remember (actualizar i d u db) as res eqn:E.
  unfold actualizar, bind in E. rewrite H0 in E.
  destruct b0; cbn [negb] in E; [|subst res; now left].
  rewrite Hb in E.
  destruct b; cbn [negb] in E; [|subst res; now left].
  destruct (_ || _) in E.
  - unfold lift in E.
    destruct (validarDatosGrupo _) as [[]|e] in E; subst res;
      [apply update_estado | now left].
  - unfold ret in E. subst res. apply update_estado.
Qed.

Lemma eliminar_estado (i u : Z) (db : DB) :
  snd (eliminar i u db) = db
  \/ exists g, grupoEconomico_findUnique i db = Some g
               /\ snd (eliminar i u db) =
                  set_grupos (reemplazar i (delete_data g) (grupos db))
                             (seq_grupos db) db.
Proof.
  destruct (verificarAcceso_valor i u db) as [b Hb].
  remember (eliminar i u db) as res eqn:E.
  unfold eliminar, bind, findById in E. unfold query at 1 in E.
  destruct (grupoEconomico_findUnique i db) as [g|] eqn:Eg;
    cbn [option_map] in E; [|subst res; now left].
  rewrite Hb in E.
  destruct b; cbn [negb] in E; [|subst res; now left].
  destruct (existsb er_activa _) in E; [subst res; now left|].
  right. exists g. split; [reflexivity|].
  unfold delete in E. rewrite (grupoEconomico_update_ok _ _ _ _ Eg) in E.
  now subst res.
Qed.

Lemma crear_estado (d : CreateGrupoDto) (u : Z) (db : DB) :
  grupos (snd (crear d u db)) = grupos db
  \/ exists g, grupos (snd (crear d u db)) = grupos db ++ [g]
               /\ nombre g = c_nombre d
               /\ paisPrincipal g = c_paisPrincipal d
               /\ monedaBase g = c_monedaBase d
               /\ validarDatosGrupo (partial_of_create d) = Ok tt.
Proof.
  unfold crear, bind, lift.
  destruct (validarDatosGrupo (partial_of_create d)) as [[]|e]; [|now left].
  pose proof (create_resultado d u db) as H.
  destruct (create d u db) as [[r|e] db']; cbn [snd].
  - right. destruct H as [g [m [c [p H]]]]. exists g. tauto.
  - left. apply H.
Qed.

Lemma ejecutar_conserva_inactivo (op : Op) (db : DB) (j : Z) :
  reactiva op = false ->
  activo_de j db = Some false ->
  activo_de j (ejecutar op db) = Some false.
Proof.
  intros Hop Hj. destruct op as [f u | i u | d u | i d u | i u]; cbn [ejecutar].
  - now rewrite listar_no_escribe.
  - now rewrite obtenerPorId_no_escribe.
  - unfold activo_de, grupoEconomico_findUnique in *.
    destruct (crear_estado d u db) as [H | [g [H _]]]; rewrite H.
    + exact Hj.
    + destruct (find _ (grupos db)) as [x|] eqn:E; [|discriminate].
      now rewrite (find_app_grupo _ _ _ g E).
  - destruct (actualizar_estado i d u db) as [H | [g [Hg H]]]; rewrite H.
    + exact Hj.
    + apply activo_de_reemplazar with (g := g); try assumption.
      * cbn. now apply findUnique_In in Hg.
      * intros Ha. cbn in Hop |- *.
        destruct (u_activo d) as [[|]|]; [discriminate | reflexivity | exact Ha].
  - destruct (eliminar_estado i u db) as [H | [g [Hg H]]]; rewrite H.
    + exact Hj.
    + apply activo_de_reemplazar with (g := g); try assumption.
      * cbn. now apply findUnique_In in Hg.
      * reflexivity.
Qed.

(** C2 as amended: once a group's [activo] is false it stays false along
    every sequence of list, getById, create, update and delete calls in
    which no update carries [activo: true]. *)
Theorem inactivo_se_conserva (ops : list Op) (db : DB) (grupoId : Z) :
  activo_de grupoId db = Some false ->
  forallb (fun op => negb (reactiva op)) ops = true ->
  activo_de grupoId (ejecutar_todas ops db) = Some false.
Proof.
  revert db. induction ops as [|op ops IH]; intros db Hj Hops.
  - exact Hj.
  - cbn in Hops. apply andb_true_iff in Hops. destruct Hops as [Hop Hops].
    apply negb_true_iff in Hop. cbn [ejecutar_todas fold_left].
    apply IH; [|exact Hops].
    now apply ejecutar_conserva_inactivo.
Qed.

Lemma inactivo_se_conserva_witness :
  activo_de 1 db_inactivo = Some false
  /\ activo_de 1
       (ejecutar_todas
          [OpObtenerPorId 1 1;
           OpActualizar 1 (patch_nombre "Grupo Persistido") 1;
           OpActualizar 1 (patch_activo false) 1;
           OpEliminar 1 1;
           OpCrear dto_acme 2;
           OpListar (consulta 1 10) 2]
          db_inactivo) = Some false.
Proof.
  split; [reflexivity|].
  apply inactivo_se_conserva; reflexivity.
Defined.

(** C2 as stated fails: [UpdateGrupoSchema] accepts [{ activo: true }] and
    the repository writes it, so one update by a member brings the
    soft-deleted group 1 back to active. *)
Lemma update_reactiva_grupo :
  UpdateGrupoSchema (cuerpo_activo true) = Ok (patch_activo true)
  /\ activo_de 1 db_inactivo = Some false
  /\ activo_de 1
       (ejecutar_todas [OpActualizar 1 (patch_activo true) 1] db_inactivo)
     = Some true
  /\ exists r db',
       put_grupo 1 (cuerpo_activo true) 1 db_inactivo = (Send 200 r, db')
       /\ activo (grupo r) = true.
Proof.
  repeat split. do 2 eexists. split; reflexivity.
Qed.

(** ** The country-currency rule *)

(** C1: the rule is checked on the patch alone, not on the row the patch
    produces.  From a database where every group satisfies it, the sequence
    "create group 1 with country UY and currency UYU, update group 1 with
    [{ monedaBase: 'ARS' }]" consists of a create and an update only, the
    patch passes the schema and the service, and the stored row ends with
    country UY and currency ARS; the request is answered 200, not 422. *)
Theorem actualizar_moneda_rompe_regla :
  Forall (fun g => moneda_valida_pais g = true) (grupos db_usuarios)
  /\ forallb es_crear_o_actualizar
       [OpCrear dto_acme 1; OpActualizar 1 (patch_moneda ARS) 1] = true
  /\ UpdateGrupoSchema (cuerpo_moneda "ARS") = Ok (patch_moneda ARS)
  /\ exists r db',
       actualizar 1 (patch_moneda ARS) 1 db_acme = (Ok r, db')
       /\ db' = ejecutar_todas
                  [OpCrear dto_acme 1; OpActualizar 1 (patch_moneda ARS) 1]
                  db_usuarios
       /\ grupoEconomico_findUnique 1 db' = Some (grupo r)
       /\ paisPrincipal (grupo r) = UY /\ monedaBase (grupo r) = ARS
       /\ moneda_valida_pais (grupo r) = false
       /\ reply_status (fst (put_grupo 1 (cuerpo_moneda "ARS") 1 db_acme)) = 200.
Proof.
  split; [constructor|]. split; [reflexivity|]. split; [reflexivity|].
  do 2 eexists. split; [reflexivity|]. repeat split.
Qed.

(** The creation path does enforce the rule: a group [crear] stores
    satisfies it. *)
Lemma crear_moneda_valida (d : CreateGrupoDto) (u : Z) (db : DB) :
  Forall (fun g => moneda_valida_pais g = true) (grupos db) ->
  Forall (fun g => moneda_valida_pais g = true) (grupos (snd (crear d u db))).
Proof.
  intros Hdb.
  destruct (crear_estado d u db) as [H | [g [H [_ [Hp [Hm Hv]]]]]]; rewrite H.
  - exact Hdb.
  - apply Forall_app. split; [exact Hdb|]. constructor; [|constructor].
    unfold moneda_valida_pais. rewrite Hp, Hm.
    unfold validarDatosGrupo, partial_of_create in Hv.
    cbn [p_nombre p_rutControlador p_paisPrincipal p_monedaBase] in Hv.
    destruct (_ && _) in Hv; [discriminate|].
    destruct (match c_rutControlador d with Some _ => _ | None => _ end) in Hv;
      [discriminate|].
    destruct (c_paisPrincipal d); try reflexivity.
    destruct (c_monedaBase d); try reflexivity; discriminate.
Qed.

(** So does an update whose patch carries both the country UY and a
    currency: it is rejected with rule MONEDA_INVALIDA_PAIS unless the
    currency is UYU or USD. *)
Lemma validarDatosGrupo_uy (n : option JsString) (m : Moneda) :
  existsb (moneda_eqb m) [UYU; USD] = false ->
  match n with Some s => truthy s && (js_length (trim s) <? 3) | None => false end
    = false ->
  es_BusinessRule (Some "MONEDA_INVALIDA_PAIS")
    (validarDatosGrupo {| p_nombre := n; p_rutControlador := None;
                          p_paisPrincipal := Some UY; p_monedaBase := Some m |}).
Proof.
  intros Hm Hn. unfold validarDatosGrupo.
  cbn [p_nombre p_rutControlador p_paisPrincipal p_monedaBase].
  rewrite Hn, Hm. cbn [negb].
  eexists. split; [reflexivity|]. now cbn.
Qed.

(** ** The name of a new group *)

Lemma run_checks_nombre (s : JsString) :
  run_checks nombre_checks s =
  (trim s,
   if js_length s <? 3
   then Custom "El nombre debe tener al menos 3 caracteres"
        :: (if js_length s >? 200
            then [Custom "El nombre no puede exceder 200 caracteres"]
            else [])
   else if js_length s >? 200
        then [Custom "El nombre no puede exceder 200 caracteres"]
        else []).
Proof.
  unfold nombre_checks. cbn [run_checks].
  destruct (js_length s <? 3); reflexivity.
Qed.

(** What the schema does accept: the length bounds are checked on the name
    as sent, and the name returned is the trimmed one. *)
Lemma validateCreate_nombre (body : Body) (d : CreateGrupoDto) :
  validateCreateGrupo body = Ok d ->
  exists s, b_nombre body = JString s
            /\ 3 <= js_length s <= 200
            /\ c_nombre d = trim s.
Proof.
  unfold validateCreateGrupo, CreateGrupoSchema, z_string.
  destruct (b_nombre body) as [| |b|n|s| |];
    destruct (rutControlador_schema _) as [rut e2];
    destruct (z_enum PAISES_VALIDOS _ _ _) as [pais e3];
    destruct (z_enum MONEDAS_VALIDAS _ _ _) as [moneda e4];
    try (cbn; discriminate).
  rewrite run_checks_nombre.
  destruct (js_length s <? 3) eqn:E3; [cbn; discriminate|].
  destruct (js_length s >? 200) eqn:E200; [cbn; discriminate|].
  cbn [at_key map app].
  destruct (at_key _ e2 ++ _); [|discriminate].
  destruct rut; [|discriminate]. destruct pais; [|discriminate].
  destruct moneda; [|discriminate].
  intros H. injection H as H. subst d. cbn.
  exists s. repeat split.
  - now apply Z.ltb_ge in E3.
  - rewrite Z.gtb_ltb in E200. now apply Z.ltb_ge in E200.
Qed.

Lemma details_push_conserva (k k' : string) (m : ZodMessage) (d : Details) :
  tiene_detalle k d -> tiene_detalle k (details_push d k' m).
Proof.
  intros [ms [Hin Hne]]. induction d as [|[k0 ms0] r IH]; [contradiction|].
  cbn. destruct (String.eqb k0 k') eqn:E.
  - destruct Hin as [Heq | Hin].
    + injection Heq as -> ->. exists (ms ++ [m]). split; [now left|].
      now destruct ms.
    + exists ms. split; [now right | assumption].
  - destruct Hin as [Heq | Hin].
    + exists ms. split; [now left | assumption].
    + destruct (IH Hin) as [ms' [Hin' Hne']].
      exists ms'. split; [now right | assumption].
Qed.

Lemma details_fold_conserva (k : string) (errors : list ZodIssue) (d : Details) :
  tiene_detalle k d ->
  tiene_detalle k
    (fold_left
       (fun d err => details_push d (join_path (path err)) (issue_message err))
       errors d).
Proof.
  revert d. induction errors as [|e r IH]; intros d Hd; [exact Hd|].
  cbn [fold_left]. apply IH. now apply details_push_conserva.
Qed.

Lemma handleZodError_primero (k : string) (m : ZodMessage)
  (resto : list ZodIssue) :
  exists det,
    details
      (validationError_de ({| path := [k]; issue_message := m |} :: resto))
    = Some det /\ tiene_detalle k det.
Proof.
  unfold validationError_de, agrupar, ValidationError.
  cbn [details fold_left].
  eexists. split; [reflexivity|].
  apply details_fold_conserva. cbn.
  exists [m]. split; [now left | discriminate].
Qed.

(** A name shorter than 3 or longer than 200 code units, as sent, is
    answered 400 VALIDATION_ERROR with an entry for [nombre] in the
    details, and nothing is written. *)
Lemma post_grupos_nombre_fuera_de_rango
  (body : Body) (userId : Z) (db : DB) (s : JsString) :
  b_nombre body = JString s ->
  js_length s < 3 \/ js_length s > 200 ->
  exists r det,
    post_grupos body userId db = (SendError r, db)
    /\ status r = 400 /\ eb_code (error r) = "VALIDATION_ERROR"
    /\ eb_details (error r) = Some det /\ tiene_detalle "nombre" det.
Proof.
  intros Hn Hlen.
  assert (Hz : exists m resto,
             CreateGrupoSchema body =
             Throw (ThrowZod ({| path := ["nombre"]; issue_message := m |}
                              :: resto))).
  { unfold CreateGrupoSchema, z_string. rewrite Hn, run_checks_nombre.
    destruct (rutControlador_schema _) as [rut e2].
    destruct (z_enum PAISES_VALIDOS _ _ _) as [pais e3].
    destruct (z_enum MONEDAS_VALIDAS _ _ _) as [moneda e4].
    destruct (js_length s <? 3) eqn:E3.
    - do 2 eexists. cbn [at_key map app]. reflexivity.
    - destruct (js_length s >? 200) eqn:E200.
      + do 2 eexists. cbn [at_key map app]. reflexivity.
      + apply Z.ltb_ge in E3. rewrite Z.gtb_ltb in E200.
        apply Z.ltb_ge in E200. lia. }
  destruct Hz as [m [resto Hz]].
  destruct (handleZodError_primero "nombre" m resto) as [det [Hdet Ht]].
  unfold post_grupos, responder, bind, lift. rewrite Hz.
  exists (errorHandler
            (ThrowZod ({| path := ["nombre"]; issue_message := m |} :: resto))),
         det.
  split; [reflexivity|].
  cbn [errorHandler status error eb_code eb_details].
  split; [reflexivity|]. split; [reflexivity|].
  split; [exact Hdet | exact Ht].
Qed.

(** C5: the length bounds of [nombre] are checked before the value is
    trimmed.  The name "  a  " (5 code units, 1 after trimming) passes
    [validateCreateGrupo], which returns the trimmed name "a"; the request
    then fails in the service with 422 BUSINESS_RULE_VIOLATION rather than
    400.  The name of three spaces passes too, is trimmed to the empty
    string, skips the service's check, and the group is created without a
    name (201). *)
Theorem validateCreate_acepta_nombre_corto_tras_trim :
  js_length (trim (lit "  a  ")) = 1
  /\ validateCreateGrupo (cuerpo (JString (lit "  a  ")) "UY" "UYU")
     = Ok {| c_nombre := lit "a"; c_rutControlador := None;
             c_paisPrincipal := UY; c_monedaBase := UYU |}
  /\ (exists r,
        post_grupos (cuerpo (JString (lit "  a  ")) "UY" "UYU") 1 db_usuarios
        = (SendError r, db_usuarios)
        /\ status r = 422 /\ eb_code (error r) = "BUSINESS_RULE_VIOLATION"
        /\ eb_details (error r) = None)
  /\ validateCreateGrupo (cuerpo (JString (lit "   ")) "UY" "UYU")
     = Ok {| c_nombre := []; c_rutControlador := None;
             c_paisPrincipal := UY; c_monedaBase := UYU |}
  /\ (exists r db',
        post_grupos (cuerpo (JString (lit "   ")) "UY" "UYU") 1 db_usuarios
        = (Send 201 (Some r), db')
        /\ nombre (grupo r) = []
        /\ grupoEconomico_findUnique 1 db' = Some (grupo r)).
Proof.
  split; [reflexivity|]. split; [reflexivity|].
  split; [eexists; split; [reflexivity | repeat split]|].
  split; [reflexivity|].
  do 2 eexists. split; [reflexivity | split; reflexivity].
Qed.

(** ** Pagination *)

Lemma insertar_desc_perm (g : GrupoEconomico) (l : list GrupoEconomico) :
  Permutation (insertar_desc g l) (g :: l).
Proof.
  induction l as [|h t IH]; cbn; [reflexivity|].
  destruct (fechaCreacion h <=? fechaCreacion g); [reflexivity|].
  rewrite IH. apply perm_swap.
Qed.

Lemma orderBy_perm (l : list GrupoEconomico) :
  Permutation (orderBy_fechaCreacion_desc l) l.
Proof.
  induction l as [|h t IH]; cbn; [reflexivity|].
  rewrite insertar_desc_perm. now constructor.
Qed.

Lemma insertar_desc_sorted (g : GrupoEconomico) (l : list GrupoEconomico) :
  StronglySorted desc l -> StronglySorted desc (insertar_desc g l).
Proof.
  induction l as [|h t IH]; cbn; intros Hs.
  - constructor; [constructor | constructor].
  - inversion Hs as [|h' t' Ht Hh]; subst.
    destruct (fechaCreacion h <=? fechaCreacion g) eqn:E.
    + apply Z.leb_le in E. constructor; [exact Hs|].
      constructor; [unfold desc; lia|].
      eapply Forall_impl; [|exact Hh]. unfold desc. intros x Hx. lia.
    + apply Z.leb_gt in E. constructor; [now apply IH|].
      eapply Permutation_Forall;
        [symmetry; apply insertar_desc_perm|].
      constructor; [unfold desc; lia | exact Hh].
Qed.

Lemma orderBy_sorted (l : list GrupoEconomico) :
  StronglySorted desc (orderBy_fechaCreacion_desc l).
Proof.
  induction l as [|h t IH]; cbn; [constructor|].
  now apply insertar_desc_sorted.
Qed.

Lemma Math_ceil_div_spec (a b : Z) :
  0 < b -> a <= Math_ceil_div a b * b < a + b.
Proof.
  intros Hb. unfold Math_ceil_div.
  pose proof (Z.div_mod (- a) b ltac:(lia)) as Hdm.
  pose proof (Z.mod_pos_bound (- a) b Hb) as Hm.
  nia.
Qed.

Lemma Math_ceil_div_unico (a b k : Z) :
  0 < b -> a <= k * b < a + b -> Math_ceil_div a b = k.
Proof.
  intros Hb Hk. pose proof (Math_ceil_div_spec a b Hb) as Hc. nia.
Qed.

(** What [findMany] does, by what Prisma makes of [skip] and [take]. *)
Lemma findMany_casos (f : ListGruposQuery) (db : DB) :
  findMany f db =
  match entero (js_mul (js_sub (page f) (de_Z 1)) (limit f)),
        entero (limit f) with
  | Some s, Some t =>
      if s <? 0 then (Throw (ThrowPrisma PrismaOther), db)
      else
        (Ok {| data :=
                 map (seleccionar db)
                   (firstn (Z.to_nat t)
                      (skipn (Z.to_nat s)
                         (orderBy_fechaCreacion_desc
                            (filter (where_ f) (grupos db)))));
               pagination :=
                 {| pg_page := page f; pg_limit := limit f;
                    total := Z.of_nat
                               (List.length (filter (where_ f) (grupos db)));
                    totalPages :=
                      Math_ceil
                        (js_div
                           (de_Z (Z.of_nat
                                    (List.length
                                       (filter (where_ f) (grupos db)))))
                           (limit f)) |} |},
         db)
  | _, _ => (Throw (ThrowPrisma PrismaOther), db)
  end.
Proof.
  unfold findMany, bind, grupoEconomico_findMany.
  destruct (entero (js_mul _ _)) as [s|]; [|reflexivity].
  destruct (entero (limit f)) as [t|]; [|reflexivity].
  now destruct (s <? 0).
Qed.

(** C8: a query the list schema lets through need not have a whole page
    or limit, and on one that has not the code does not do what the claim
    says.  Page 1.5 with limit 3 passes both refinements of the schema and
    is at least 1; [findMany] computes [skip = (1.5 - 1) * 3 = 1.5], which
    is no integer, and hands it to Prisma, which takes an Int there.  On
    every database the call is rejected: [findMany] throws, no row and no
    pagination are returned, and [GET /api/grupos] answers 500. *)
Theorem findMany_pagina_fraccionaria (u : Z) (db : DB) :
  page_refine (page consulta_pagina_y_media) = true
  /\ limit_refine (limit consulta_pagina_y_media) = true
  /\ js_leb (de_Z 1) (page consulta_pagina_y_media) = true
  /\ js_mul (js_sub (page consulta_pagina_y_media) (de_Z 1))
            (limit consulta_pagina_y_media) = Finito 3 2
  /\ entero (Finito 3 2) = None
  /\ findMany consulta_pagina_y_media db
     = (Throw (ThrowPrisma PrismaOther), db)
  /\ exists r,
       get_grupos consulta_pagina_y_media u db = (SendError r, db)
       /\ status r = 500.
Proof.
  assert (Hf : findMany consulta_pagina_y_media db
               = (Throw (ThrowPrisma PrismaOther), db))
    by (rewrite findMany_casos; reflexivity).
  do 5 (split; [reflexivity|]). split; [exact Hf|].
  eexists. unfold get_grupos, responder, listar. rewrite Hf.
  split; reflexivity.
Qed.

(** * Further properties *)

(** ** Who may update and delete *)

Lemma validarDatosGrupo_error (p : PartialCreateGrupoDto) (e : Thrown) :
  validarDatosGrupo p = Throw e ->
  exists regla, es_BusinessRule regla (@Throw GrupoActualizado e).
Proof.
  unfold validarDatosGrupo.
  destruct (match p_nombre p with Some _ => _ | None => _ end).
  { intros H. injection H as <-. eexists. eexists.
    split; [reflexivity | now cbn]. }
  destruct (match p_rutControlador p with Some _ => _ | None => _ end).
  { intros H. injection H as <-. eexists. eexists.
    split; [reflexivity | now cbn]. }
  destruct (p_paisPrincipal p) as [[]|]; try discriminate.
  destruct (p_monedaBase p) as [m|]; try discriminate.
  destruct (negb _); [|discriminate].
  intros H. injection H as <-. eexists. eexists.
  split; [reflexivity | now cbn].
Qed.

Lemma actualizar_casos (i : Z) (d : UpdateGrupoDto) (u : Z) (db : DB)
  (b0 b : bool) :
  exists_ i db = (Ok b0, db) ->
  verificarAccesoUsuario i u db = (Ok b, db) ->
  actualizar i d u db =
  if negb b0 then (Throw (no_encontrado i), db)
  else if negb b then (Throw sin_acceso, db)
  else match revisar_patch d with
       | Ok _ => update i d db
       | Throw e => (Throw e, db)
       end.
Proof.
  intros H0 Hb. unfold actualizar, revisar_patch, bind. rewrite H0.
  destruct b0; cbn [negb]; [|reflexivity].
  rewrite Hb. destruct b; cbn [negb]; [|reflexivity].
  destruct (_ || _).
  - unfold lift. now destruct (validarDatosGrupo _).
  - reflexivity.
Qed.

Lemma exists_no_fila (i : Z) (db : DB) :
  ~ existe_fila i db -> exists_ i db = (Ok false, db).
Proof.
  intros Hno. destruct (exists_valor i db) as [[|] Hb]; [|assumption].
  apply exists_existe_fila in Hb. contradiction.
Qed.

(** X1: [actualizar] answers NotFound exactly when no group has the id,
    whatever the caller and the patch; Forbidden when the group exists and
    the caller is no member of it, whatever the patch; for a member it
    either returns the updated group or throws a BusinessRule error.
    Whenever it does not return, and whenever the caller is no member, the
    database is left as it was. *)
Theorem actualizar_autorizacion
  (i : Z) (d : UpdateGrupoDto) (u : Z) (db : DB) :
  (es_NotFound (fst (actualizar i d u db)) <-> ~ existe_fila i db)
  /\ (existe_fila i db -> ~ es_miembro u i db ->
      es_Forbidden (fst (actualizar i d u db)))
  /\ (existe_fila i db -> es_miembro u i db ->
      (exists r, fst (actualizar i d u db) = Ok r)
      \/ (exists regla, es_BusinessRule regla (fst (actualizar i d u db))))
  /\ ((forall r, fst (actualizar i d u db) <> Ok r) ->
      snd (actualizar i d u db) = db)
  /\ (~ es_miembro u i db -> snd (actualizar i d u db) = db).
Proof.
  destruct (exists_valor i db) as [b0 H0].
  destruct (verificarAcceso_valor i u db) as [b Hb].
  rewrite (actualizar_casos i d u db b0 b H0 Hb).
  destruct b0; cbn [negb].
  - assert (Hex : existe_fila i db) by now apply exists_existe_fila.
    destruct b; cbn [negb].
    + assert (Hm : es_miembro u i db) by now apply verificarAcceso_miembro.
      destruct (proj1 (existe_fila_findUnique i db) Hex) as [g Hg].
      destruct (update_ok i d db g Hg) as [r [Hr _]].
      destruct (revisar_patch d) as [[]|e] eqn:Ev.
      * rewrite Hr. cbn [fst snd]. repeat split.
        -- intros [e [He _]]. discriminate.
        -- intros Hno. contradiction.
        -- intros _ Hno. contradiction.
        -- intros _ _. left. now exists r.
        -- intros Hr'. exfalso. exact (Hr' r eq_refl).
        -- intros Hno. contradiction.
      * assert (Hbr : exists regla,
                   es_BusinessRule regla (@Throw GrupoActualizado e)).
        { unfold revisar_patch in Ev.
          destruct (_ || _) in Ev; [|discriminate].
          exact (validarDatosGrupo_error _ _ Ev). }
        cbn [fst snd]. repeat split.
        -- intros [e' [He [Hn _]]]. destruct Hbr as [regla [e2 [H2 [Hn2 _]]]].
           rewrite He in H2. injection H2 as <-. rewrite Hn in Hn2.
           discriminate.
        -- intros Hno. contradiction.
        -- intros _ Hno. contradiction.
        -- intros _ _. right. exact Hbr.
    + assert (Hm : ~ es_miembro u i db).
      { intros Hm. apply verificarAcceso_miembro in Hm. congruence. }
      cbn [fst snd]. repeat split.
      * intros [e [He [Hn _]]]. injection He as <-. discriminate.
      * intros Hno. contradiction.
      * intros _ _. apply sin_acceso_es_Forbidden.
      * intros _ Hm'. contradiction.
  - assert (Hex : ~ existe_fila i db).
    { intros Hex. apply exists_existe_fila in Hex. congruence. }
    cbn [fst snd]. repeat split.
    + intros _. exact Hex.
    + intros _. apply no_encontrado_es_NotFound.
    + intros H. contradiction.
    + intros H. contradiction.
Qed.

Lemma actualizar_autorizacion_witness :
  es_Forbidden (fst (actualizar 1 (patch_nombre "Otro Nombre") 2 db_acme))
  /\ snd (actualizar 1 (patch_nombre "Otro Nombre") 2 db_acme) = db_acme
  /\ es_NotFound (fst (actualizar 9999 (patch_nombre "AB") 2 db_acme)).
Proof.
  assert (H1 : existe_fila 1 db_acme) by fila_concreta.
  assert (H3 : ~ es_miembro 2 1 db_acme).
  { intros [x [[Hx|[]] [Hu _]]]. subst x. discriminate. }
  assert (H4 : ~ existe_fila 9999 db_acme).
  { intros [x [[Hx|[]] Hi]]. subst x. discriminate. }
  pose proof (actualizar_autorizacion 1 (patch_nombre "Otro Nombre") 2 db_acme)
    as [_ [Hf [_ [_ Hs]]]].
  split; [exact (Hf H1 H3)|]. split; [exact (Hs H3)|].
  exact (proj2 (proj1 (actualizar_autorizacion 9999 (patch_nombre "AB") 2
                         db_acme)) H4).
Defined.

Lemma eliminar_precedencia (i u : Z) (db : DB) :
  eliminar i u db =
  match grupoEconomico_findUnique i db with
  | None => (Throw (no_encontrado i), db)
  | Some g =>
      match verificarAccesoUsuario i u db with
      | (Ok true, _) =>
          if existsb er_activa (map resumen_empresa (empresas_de (id g) db))
          then (Throw (ThrowApp (BusinessRuleError
                  "No se puede eliminar un grupo con empresas activas. Desactiva las empresas primero."
                  (Some "EMPRESAS_ACTIVAS"))), db)
          else (Ok exito_eliminar,
                set_grupos (reemplazar i (delete_data g) (grupos db))
                           (seq_grupos db) db)
      | _ => (Throw sin_acceso, db)
      end
  end.
Proof.
  destruct (verificarAcceso_valor i u db) as [b Hb].
  unfold eliminar, bind, findById. unfold query at 1.
  destruct (grupoEconomico_findUnique i db) as [g|] eqn:Eg;
    cbn [option_map]; [|reflexivity].
  rewrite Hb. destruct b; cbn [negb]; [|reflexivity].
  unfold incluir_detalle. cbn [con_empresas].
  destruct (existsb er_activa _); [reflexivity|].
  unfold delete. now rewrite (grupoEconomico_update_ok _ _ _ _ Eg).
Qed.

(** X2: [eliminar] answers NotFound exactly when no group has the id and
    Forbidden when the group exists and the caller is no member of it, even
    if the group has active companies; whenever it does not return, and
    whenever the caller is no member, the database is left as it was. *)
Theorem eliminar_autorizacion (i u : Z) (db : DB) :
  (es_NotFound (fst (eliminar i u db)) <-> ~ existe_fila i db)
  /\ (existe_fila i db -> ~ es_miembro u i db ->
      es_Forbidden (fst (eliminar i u db)))
  /\ ((forall r, fst (eliminar i u db) <> Ok r) -> snd (eliminar i u db) = db)
  /\ (~ es_miembro u i db -> snd (eliminar i u db) = db).
Proof.
  rewrite eliminar_precedencia.
  destruct (grupoEconomico_findUnique i db) as [g|] eqn:Eg.
  - assert (Hex : existe_fila i db)
      by (apply existe_fila_findUnique; now exists g).
    destruct (verificarAcceso_valor i u db) as [b Hb]. rewrite Hb.
    destruct b.
    + assert (Hm : es_miembro u i db) by now apply verificarAcceso_miembro.
      destruct (existsb er_activa _); cbn [fst snd]; repeat split.
      * intros [e [He [Hn _]]]. injection He as <-. discriminate.
      * intros Hno. contradiction.
      * intros _ Hno. contradiction.
      * intros [e [He _]]. discriminate.
      * intros Hno. contradiction.
      * intros _ Hno. contradiction.
      * intros Hr. exfalso. exact (Hr _ eq_refl).
      * intros Hno. contradiction.
    + assert (Hm : ~ es_miembro u i db).
      { intros Hm. apply verificarAcceso_miembro in Hm. congruence. }
      cbn [fst snd]. repeat split.
      * intros [e [He [Hn _]]]. injection He as <-. discriminate.
      * intros Hno. contradiction.
      * intros _ _. apply sin_acceso_es_Forbidden.
  - assert (Hex : ~ existe_fila i db).
    { intros H. apply existe_fila_findUnique in H. destruct H. congruence. }
    cbn [fst snd]. repeat split.
    + intros _. exact Hex.
    + intros _. apply no_encontrado_es_NotFound.
    + intros H. contradiction.
Qed.

Lemma eliminar_autorizacion_witness :
  tiene_empresa_activa 1 db_acme_con_empresa
  /\ es_Forbidden (fst (eliminar 1 2 db_acme_con_empresa))
  /\ snd (eliminar 1 2 db_acme_con_empresa) = db_acme_con_empresa.
Proof.
  assert (H1 : existe_fila 1 db_acme_con_empresa) by fila_concreta.
  assert (H3 : ~ es_miembro 2 1 db_acme_con_empresa).
  { intros [x [[Hx|[]] [Hu _]]]. subst x. discriminate. }
  split; [fila_concreta|].
  pose proof (eliminar_autorizacion 1 2 db_acme_con_empresa)
    as [_ [Hf [_ Hs]]].
  split; [exact (Hf H1 H3) | exact (Hs H3)].
Defined.

(** ** What no call removes *)

Lemma create_seq (d : CreateGrupoDto) (u : Z) (db : DB) :
  seq_grupos (snd (create d u db)) = seq_grupos db + 1.
Proof.
  unfold create, transaction, create_body, bind, grupoEconomico_create,
    usuarioGrupo_create, configuracionContable_create, planDeCuentas_create,
    query.
  cbn [id nombre].
  repeat match goal with
         | |- context [if ?c then _ else _] => destruct c; cbn
         end; reflexivity.
Qed.

(** What [crear] leaves behind: the database as it was; or, the sequence
    having advanced, the same rows or four rows more. *)
Lemma crear_efecto (d : CreateGrupoDto) (u : Z) (db : DB) :
  snd (crear d u db) = db
  \/ (validarDatosGrupo (partial_of_create d) = Ok tt
      /\ seq_grupos (snd (crear d u db)) = seq_grupos db + 1
      /\ (mismas_filas (snd (crear d u db)) db
          \/ cuatro_inserciones d u db (snd (crear d u db)))).
Proof.
  unfold crear, bind, lift.
  destruct (validarDatosGrupo (partial_of_create d)) as [[]|e]; [|now left].
  right. split; [reflexivity|]. split; [apply create_seq|].
  pose proof (create_resultado d u db) as H.
  destruct (create d u db) as [[r|e] db']; cbn [snd]; [now right | now left].
Qed.

Lemma ejecutar_conserva_fila (op : Op) (db : DB) (i : Z) (g : GrupoEconomico) :
  grupoEconomico_findUnique i db = Some g ->
  exists g', grupoEconomico_findUnique i (ejecutar op db) = Some g'
             /\ id g' = id g /\ fechaCreacion g' = fechaCreacion g.
Proof.
  intros Hg.
  assert (Hre : forall j g0 f s,
             grupoEconomico_findUnique j db = Some g0 ->
             id (f g0) = id g0 -> fechaCreacion (f g0) = fechaCreacion g0 ->
             exists g',
               grupoEconomico_findUnique i
                 (set_grupos (reemplazar j (f g0) (grupos db)) s db) = Some g'
               /\ id g' = id g /\ fechaCreacion g' = fechaCreacion g).
  { intros j g0 f s Hj Hid Hfe.
    pose proof (proj2 (findUnique_In _ _ _ Hj)) as Hj0.
    unfold grupoEconomico_findUnique in *. cbn [grupos set_grupos].
    destruct (Z.eq_dec i j) as [->|Hne].
    - rewrite Hg in Hj. injection Hj as Heq. subst g0.
      rewrite (find_reemplazar_mismo j (f g) _ g);
        [|now rewrite Hid | exact Hg].
      now exists (f g).
    - rewrite find_reemplazar_otro;
        [now exists g | now rewrite Hid | exact Hne]. }
  destruct op as [f u | j u | d u | j d u | j u]; cbn [ejecutar];
    rewrite ?listar_no_escribe.
  - now exists g.
  - rewrite obtenerPorId_no_escribe. now exists g.
  - unfold grupoEconomico_findUnique in *.
    destruct (crear_estado d u db) as [H | [g1 [H _]]]; rewrite H.
    + now exists g.
    + rewrite (find_app_grupo _ _ _ g1 Hg). now exists g.
  - destruct (actualizar_estado j d u db) as [H | [g0 [Hg0 H]]]; rewrite H.
    + now exists g.
    + now apply Hre.
  - destruct (eliminar_estado j u db) as [H | [g0 [Hg0 H]]]; rewrite H.
    + now exists g.
    + now apply Hre.
Qed.

Lemma ejecutar_usuariosGrupos (op : Op) (db : DB) :
  exists extra, usuariosGrupos (ejecutar op db) = usuariosGrupos db ++ extra.
Proof.
  destruct op as [f u | j u | d u | j d u | j u]; cbn [ejecutar];
    rewrite ?listar_no_escribe.
  - exists []. now rewrite app_nil_r.
  - rewrite obtenerPorId_no_escribe. exists []. now rewrite app_nil_r.
  - destruct (crear_efecto d u db) as [H | [_ [_ [H | H]]]].
    + rewrite H. exists []. now rewrite app_nil_r.
    + destruct H as [_ [_ [H _]]]. rewrite H. exists []. now rewrite app_nil_r.
    + destruct H as [g [m [c [p [_ [H _]]]]]]. now exists [m].
  - destruct (actualizar_estado j d u db) as [H | [g0 [_ H]]]; rewrite H;
      exists []; now rewrite app_nil_r.
  - destruct (eliminar_estado j u db) as [H | [g0 [_ H]]]; rewrite H;
      exists []; now rewrite app_nil_r.
Qed.

(** X3: no call of the service removes anything.  Along every sequence of
    list, getById, create, update and delete calls, a group that exists
    keeps existing under the same id with the same creation time (there is
    no hard delete), and a user who is a member of a group stays a member
    (access is never revoked). *)
Theorem nada_se_borra (ops : list Op) (db : DB) :
  (forall i g, grupoEconomico_findUnique i db = Some g ->
     exists g', grupoEconomico_findUnique i (ejecutar_todas ops db) = Some g'
                /\ id g' = id g /\ fechaCreacion g' = fechaCreacion g)
  /\ (forall u i, es_miembro u i db -> es_miembro u i (ejecutar_todas ops db)).
Proof.
  revert db. induction ops as [|op ops IH]; intros db.
  - split; [intros i g Hg; now exists g | trivial].
  - cbn [ejecutar_todas fold_left]. destruct (IH (ejecutar op db)) as [IH1 IH2].
    split.
    + intros i g Hg.
      destruct (ejecutar_conserva_fila op db i g Hg) as [g1 [H1 [Hid Hfe]]].
      destruct (IH1 i g1 H1) as [g2 [H2 [Hid2 Hfe2]]].
      exists g2. split; [exact H2 | split; congruence].
    + intros u i [x [Hin Hx]]. apply IH2.
      destruct (ejecutar_usuariosGrupos op db) as [extra He].
      exists x. split; [|exact Hx]. rewrite He. apply in_or_app. now left.
Qed.

(** ** Keys and references *)

Lemma map_id_reemplazar (i : Z) (g' : GrupoEconomico)
  (l : list GrupoEconomico) :
  id g' = i -> map id (reemplazar i g' l) = map id l.
Proof.
  intros Hid. induction l as [|h t IH]; cbn; [reflexivity|].
  destruct (id h =? i) eqn:E; cbn.
  - apply Z.eqb_eq in E. congruence.
  - now rewrite IH.
Qed.

Lemma In_reemplazar (i : Z) (g' x : GrupoEconomico)
  (l : list GrupoEconomico) :
  In x (reemplazar i g' l) -> x = g' \/ In x l.
Proof.
  induction l as [|h t IH]; cbn; [tauto|].
  destruct (id h =? i); cbn.
  - intros [H | H]; [left; congruence | right; now right].
  - intros [H | H]; [right; now left|].
    destruct (IH H); [now left | right; now right].
Qed.

Lemma bien_formada_reemplazar (i : Z) (f : GrupoEconomico -> GrupoEconomico)
  (g : GrupoEconomico) (db : DB) :
  grupoEconomico_findUnique i db = Some g ->
  id (f g) = id g ->
  bien_formada db ->
  bien_formada
    (set_grupos (reemplazar i (f g) (grupos db)) (seq_grupos db) db).
Proof.
  intros Hg Hid [Hb [Hn Hr]].
  destruct (findUnique_In _ _ _ Hg) as [Hin Hi].
  unfold bien_formada. cbn [grupos seq_grupos usuariosGrupos configuraciones
                            planes set_grupos].
  split; [|split; [|exact Hr]].
  - intros x Hx. apply In_reemplazar in Hx. destruct Hx as [-> | Hx].
    + rewrite Hid. now apply Hb.
    + now apply Hb.
  - rewrite map_id_reemplazar; [exact Hn | congruence].
Qed.

Lemma ejecutar_bien_formada (op : Op) (db : DB) :
  bien_formada db -> bien_formada (ejecutar op db).
Proof.
  intros Hbf. destruct op as [f u | j u | d u | j d u | j u]; cbn [ejecutar];
    rewrite ?listar_no_escribe.
  - exact Hbf.
  - now rewrite obtenerPorId_no_escribe.
  - destruct Hbf as [Hb [Hn [Hu [Hc Hp]]]].
    destruct (crear_efecto d u db) as [H | [_ [Hs [H | H]]]].
    + rewrite H. repeat split; assumption.
    + destruct H as [Hg [Hu' [Hu2 [Hc' [Hp' _]]]]].
      unfold bien_formada. rewrite Hs, Hg, Hu2, Hc', Hp'.
      repeat split; try assumption; intros x Hx.
      * specialize (Hb x Hx). lia.
      * specialize (Hu x Hx). lia.
      * specialize (Hc x Hx). lia.
      * specialize (Hp x Hx). lia.
    + destruct H as [g [m [c [p [Hg [Hm [Hcc [Hpp [_ [_ [Hid [_ [_ [_ [_
                    [Hmm [Hci [_ [Hpi _]]]]]]]]]]]]]]]]]]].
      unfold bien_formada. rewrite Hs, Hg, Hm, Hcc, Hpp.
      split; [|split; [|split; [|split]]].
      * intros x Hx. apply in_app_or in Hx. destruct Hx as [Hx | [<- | []]].
        -- specialize (Hb x Hx). lia.
        -- lia.
      * rewrite map_app. apply NoDup_app; [exact Hn | repeat constructor; tauto |].
        intros a Ha [<- | []]. apply in_map_iff in Ha.
        destruct Ha as [x [Hx1 Hx2]]. specialize (Hb x Hx2). lia.
      * intros x Hx. apply in_app_or in Hx. destruct Hx as [Hx | [<- | []]].
        -- specialize (Hu x Hx). lia.
        -- rewrite Hmm. cbn. lia.
      * intros x Hx. apply in_app_or in Hx. destruct Hx as [Hx | [<- | []]].
        -- specialize (Hc x Hx). lia.
        -- lia.
      * intros x Hx. apply in_app_or in Hx. destruct Hx as [Hx | [<- | []]].
        -- specialize (Hp x Hx). lia.
        -- lia.
  - destruct (actualizar_estado j d u db) as [H | [g0 [Hg0 H]]]; rewrite H.
    + exact Hbf.
    + now apply (bien_formada_reemplazar j (update_data d)).
  - destruct (eliminar_estado j u db) as [H | [g0 [Hg0 H]]]; rewrite H.
    + exact Hbf.
    + now apply (bien_formada_reemplazar j delete_data).
Qed.

(** X4: the service keeps the keys of [grupos] sound.  From a database in
    which group ids are unique and no row refers to a group id above the
    sequence, every sequence of list, getById, create, update and delete
    calls leads to a database with the same two properties, whether the
    calls return or throw. *)
Theorem bien_formada_se_conserva (ops : list Op) (db : DB) :
  bien_formada db -> bien_formada (ejecutar_todas ops db).
Proof.
  revert db. induction ops as [|op ops IH]; intros db Hbf; [exact Hbf|].
  cbn [ejecutar_todas fold_left]. apply IH. now apply ejecutar_bien_formada.
Qed.

Lemma db_usuarios_bien_formada : bien_formada db_usuarios.
Proof.
  unfold bien_formada. cbn. repeat split; try (intros x []). constructor.
Qed.

Lemma db_acme_bien_formada : bien_formada db_acme.
Proof.
  exact (ejecutar_bien_formada (OpCrear dto_acme 1) db_usuarios
           db_usuarios_bien_formada).
Qed.

Lemma bien_formada_se_conserva_witness :
  bien_formada
    (ejecutar_todas
       [OpCrear dto_acme 1; OpCrear dto_acme 7;
        OpActualizar 1 (patch_nombre "Grupo Persistido") 1;
        OpCrear dto_acme 2; OpEliminar 1 1]
       db_usuarios).
Proof.
  apply bien_formada_se_conserva. exact db_usuarios_bien_formada.
Defined.

Lemma existsb_fuera {A} (f : A -> Z) (l : list A) (i s : Z) :
  (forall x, In x l -> f x <= s) -> s < i ->
  existsb (fun x => f x =? i) l = false.
Proof.
  intros Hb Hs. apply not_true_is_false. intros H.
  apply existsb_exists in H. destruct H as [x [Hx Hi]].
  apply Z.eqb_eq in Hi. specialize (Hb x Hx). lia.
Qed.

Lemma bien_formada_libre (u : Z) (db : DB) :
  bien_formada db -> id_siguiente_libre u db = true.
Proof.
  intros [Hb [_ [Hu [Hc Hp]]]]. unfold id_siguiente_libre, existe_grupo.
  cbv zeta.
  rewrite (existsb_fuera id _ _ _ Hb), (existsb_fuera _ _ _ _ Hc),
    (existsb_fuera _ _ _ _ Hp) by lia.
  assert (Hug : existsb (fun x => (ug_usuarioId x =? u)
                                  && (ug_grupoEconomicoId x =? seq_grupos db + 1))
                        (usuariosGrupos db) = false).
  { apply not_true_is_false. intros H. apply existsb_exists in H.
    destruct H as [x [Hx Hi]]. apply andb_true_iff in Hi.
    destruct Hi as [_ Hi]. apply Z.eqb_eq in Hi. specialize (Hu x Hx). lia. }
  now rewrite Hug.
Qed.

Lemma find_app_some {A} (p : A -> bool) (l : list A) (x : A) :
  p x = true -> exists y, find p (l ++ [x]) = Some y.
Proof.
  intros Hx. induction l as [|h t IH]; cbn.
  - rewrite Hx. now exists x.
  - destruct (p h); [now exists h | exact IH].
Qed.

(** What [create] returns is the row it reads back, with its relations. *)
Lemma create_retorno (d : CreateGrupoDto) (u : Z) (db db' : DB)
  (r : option GrupoCreado) :
  create d u db = (Ok r, db') ->
  exists g0,
    r = Some (incluir_creado db' g0)
    /\ grupoEconomico_findUnique (seq_grupos db + 1) db' = Some g0.
Proof.
  unfold create, transaction.
  destruct (create_body d u db) as [[r1|e1] db1] eqn:E; [|discriminate].
  intros H. injection H as -> ->. revert E.
  unfold create_body, bind, grupoEconomico_create, usuarioGrupo_create,
    configuracionContable_create, planDeCuentas_create, query.
  cbn [id nombre].
  repeat match goal with
         | |- context [if ?c then _ else _] => destruct c; cbn
         end; try discriminate.
  intros H. injection H as <- <-.
  unfold grupoEconomico_findUnique.
  cbn [grupos set_planes set_configuraciones set_usuariosGrupos set_grupos].
  match goal with
  | |- context [find ?p (grupos db ++ [?g])] =>
      destruct (find_app_some p (grupos db) g (Z.eqb_refl _)) as [y Hy];
      rewrite Hy
  end.
  exists y. split; reflexivity.
Qed.

(** X5: in a database with sound keys, [crear] by an existing user with
    data that passes the business validation always succeeds.  The group it
    returns is the new row: its id is the next value of the sequence, above
    every id in use; its name, country and currency are those of the DTO;
    it is active; and it carries the default configuration and a chart of
    accounts named after it. *)
Theorem crear_exito (d : CreateGrupoDto) (u : Z) (db : DB) :
  bien_formada db ->
  existe_usuario u db = true ->
  validarDatosGrupo (partial_of_create d) = Ok tt ->
  exists c db',
    crear d u db = (Ok (Some c), db')
    /\ cuatro_inserciones d u db db'
    /\ In (grupo c) (grupos db')
    /\ id (grupo c) = seq_grupos db + 1
    /\ (forall g, In g (grupos db) -> id g < id (grupo c))
    /\ nombre (grupo c) = c_nombre d
    /\ paisPrincipal (grupo c) = c_paisPrincipal d
    /\ monedaBase (grupo c) = c_monedaBase d
    /\ activo (grupo c) = true
    /\ (exists x, con_configuracion c = Some x
                  /\ cc_grupoEconomicoId x = id (grupo c)
                  /\ configuracion_por_defecto x)
    /\ (exists p, con_planDeCuentas c = Some p
                  /\ pc_grupoEconomicoId p = id (grupo c)
                  /\ contiene (pc_nombre p) (nombre (grupo c))).
Proof.
  intros Hbf Hu Hv.
  destruct (create_exito d u db Hu (bien_formada_libre u db Hbf))
    as [c [db' [Hc [Hid [Hn [Ha [Hx Hp]]]]]]].
  exists c, db'. unfold crear, bind, lift. rewrite Hv, Hc.
  split; [reflexivity|].
  pose proof (create_resultado d u db) as H4. rewrite Hc in H4.
  split; [exact H4|].
  destruct (create_retorno _ _ _ _ _ Hc) as [g0 [Hr Hg0]].
  injection Hr as ->. cbn [grupo incluir_creado] in *.
  destruct H4 as [g [m [x [p [Hg [_ [_ [_ [_ [_ [Hgi [_ [Hgp [Hgm _]]]]]]]]]]]]]].
  assert (Heq : g0 = g).
  { unfold grupoEconomico_findUnique in Hg0. rewrite Hg in Hg0.
    rewrite find_app_nuevo in Hg0.
    - now injection Hg0.
    - apply (existsb_fuera id _ _ (seq_grupos db)); [apply Hbf | lia].
    - now apply Z.eqb_eq. }
  subst g0.
  split; [rewrite Hg; apply in_or_app; right; now left|].
  split; [exact Hid|].
  split; [intros y Hy; destruct Hbf as [Hb _]; specialize (Hb y Hy); lia|].
  repeat split; assumption.
Qed.

Lemma crear_exito_witness :
  exists c db',
    crear dto_acme 2 db_acme = (Ok (Some c), db')
    /\ id (grupo c) = 2 /\ activo (grupo c) = true.
Proof.
  pose proof db_acme_bien_formada as Hbf.
  destruct (crear_exito dto_acme 2 db_acme Hbf eq_refl eq_refl)
    as [c [db' [Hc [_ [_ [Hid [_ [_ [_ [_ [Ha _]]]]]]]]]]].
  exists c, db'. repeat split; assumption.
Defined.

(** ** One configuration and one chart of accounts per group *)

Lemma cuenta_unica {A} (f : A -> Z) (l : list A) (x : A) :
  NoDup (map f l) -> In x l ->
  List.length (filter (fun y => f y =? f x) l) = 1%nat.
Proof.
  induction l as [|h t IH]; cbn; [intros _ []|].
  intros Hn Hin. inversion Hn as [|a l' Hnot Hn']; subst.
  destruct Hin as [-> | Hin].
  - rewrite Z.eqb_refl. cbn. f_equal.
    rewrite (proj2 (length_zero_iff_nil _)); [reflexivity|].
    destruct (filter _ t) as [|y r] eqn:E; [reflexivity|].
    exfalso. assert (Hy : In y (filter (fun y => f y =? f x) t))
      by (rewrite E; now left).
    apply filter_In in Hy. destruct Hy as [Hy Hfy]. apply Z.eqb_eq in Hfy.
    apply Hnot. rewrite <- Hfy. now apply in_map.
  - destruct (f h =? f x) eqn:E.
    + exfalso. apply Z.eqb_eq in E. apply Hnot. rewrite E. now apply in_map.
    + now apply IH.
Qed.

Lemma NoDup_map_nuevo {A} (f : A -> Z) (l : list A) (x : A) (s : Z) :
  NoDup (map f l) -> (forall y, In y l -> f y <= s) -> s < f x ->
  NoDup (map f (l ++ [x])).
Proof.
  intros Hn Hb Hx. rewrite map_app.
  apply NoDup_app; [exact Hn | repeat constructor; tauto|].
  intros a Ha [<- | []]. apply in_map_iff in Ha.
  destruct Ha as [y [Hy1 Hy2]]. specialize (Hb y Hy2). lia.
Qed.

Lemma ejecutar_integra (op : Op) (db : DB) :
  integra db -> integra (ejecutar op db).
Proof.
  intros Hi. pose proof Hi as [Hbf [Hnc [Hnp Hco]]].
  pose proof (ejecutar_bien_formada op db Hbf) as Hbf'.
  assert (Hre : forall j g0 f s,
             grupoEconomico_findUnique j db = Some g0 ->
             id (f g0) = id g0 ->
             bien_formada
               (set_grupos (reemplazar j (f g0) (grupos db)) s db) ->
             integra (set_grupos (reemplazar j (f g0) (grupos db)) s db)).
  { intros j g0 f s Hj Hid Hb'.
    destruct (findUnique_In _ _ _ Hj) as [Hin0 Hj0].
    split; [exact Hb'|]. split; [exact Hnc|]. split; [exact Hnp|].
    cbn [grupos set_grupos]. intros g Hg.
    assert (Hold : exists g1, In g1 (grupos db) /\ id g1 = id g).
    { apply In_reemplazar in Hg. destruct Hg as [-> | Hg].
      - exists g0. split; [exact Hin0 | now rewrite Hid].
      - now exists g. }
    destruct Hold as [g1 [Hg1 <-]]. exact (Hco g1 Hg1). }
  destruct op as [f u | j u | d u | j d u | j u]; cbn [ejecutar] in *;
    rewrite ?listar_no_escribe in *.
  - exact Hi.
  - rewrite obtenerPorId_no_escribe. exact Hi.
  - destruct (crear_efecto d u db) as [H | [_ [Hs [H | H]]]].
    + rewrite H. exact Hi.
    + split; [exact Hbf'|].
      destruct H as [Hg [Hu' [Hu2 [Hc' [Hp' _]]]]].
      unfold tiene_admin. rewrite Hg, Hu2, Hc', Hp'.
      repeat split; try assumption; now apply Hco.
    + split; [exact Hbf'|].
      destruct H as [g [m [c [p [Hg [Hm [Hcc [Hpp [_ [_ [Hid [_ [_ [_ [_
                    [Hmm [Hci [_ [Hpi _]]]]]]]]]]]]]]]]]]].
      destruct Hbf as [Hb [Hn [Hu [Hc Hp]]]].
      unfold tiene_admin. rewrite Hg, Hm, Hcc, Hpp.
      split; [apply (NoDup_map_nuevo _ _ _ (seq_grupos db)); [assumption.. | lia]|].
      split; [apply (NoDup_map_nuevo _ _ _ (seq_grupos db)); [assumption.. | lia]|].
      intros y Hy. apply in_app_or in Hy. destruct Hy as [Hy | [<- | []]].
      * destruct (Hco y Hy) as [[c0 [Hc0 Hc1]] [[p0 [Hp0 Hp1]] [m0 [Hm0 Hm1]]]].
        split; [exists c0; split; [apply in_or_app; now left | exact Hc1]|].
        split; [exists p0; split; [apply in_or_app; now left | exact Hp1]|].
        exists m0. split; [apply in_or_app; now left | exact Hm1].
      * split; [exists c; split; [apply in_or_app; right; now left | exact Hci]|].
        split; [exists p; split; [apply in_or_app; right; now left | exact Hpi]|].
        exists m. split; [apply in_or_app; right; now left|].
        rewrite Hmm. now cbn.
  - destruct (actualizar_estado j d u db) as [H | [g0 [Hg0 H]]];
      rewrite H in Hbf' |- *.
    + exact Hi.
    + now apply (Hre j g0 (update_data d)).
  - destruct (eliminar_estado j u db) as [H | [g0 [Hg0 H]]];
      rewrite H in Hbf' |- *.
    + exact Hi.
    + now apply (Hre j g0 delete_data).
Qed.

Lemma integra_uno (db : DB) (g : GrupoEconomico) :
  integra db -> In g (grupos db) ->
  n_configuraciones (id g) db = 1%nat /\ n_planes (id g) db = 1%nat
  /\ tiene_admin (id g) db.
Proof.
  intros [_ [Hnc [Hnp Hco]]] Hg.
  destruct (Hco g Hg) as [[c [Hc Hci]] [[p [Hp Hpi]] Hm]].
  unfold n_configuraciones, n_planes.
  split; [rewrite <- Hci; now apply cuenta_unica|].
  split; [rewrite <- Hpi; now apply cuenta_unica | exact Hm].
Qed.

(** X6: a group never exists without its configuration and its chart of
    accounts.  From a database in which keys are sound and every group has
    a configuration, a chart of accounts and an ADMIN member, none of them
    shared, every sequence of list, getById, create, update and delete
    calls leads to a database in which every group has exactly one
    configuration row, exactly one chart-of-accounts row and at least one
    ADMIN member. *)
Theorem grupo_con_configuracion_y_plan (ops : list Op) (db : DB) :
  integra db ->
  integra (ejecutar_todas ops db)
  /\ forall g, In g (grupos (ejecutar_todas ops db)) ->
       n_configuraciones (id g) (ejecutar_todas ops db) = 1%nat
       /\ n_planes (id g) (ejecutar_todas ops db) = 1%nat
       /\ tiene_admin (id g) (ejecutar_todas ops db).
Proof.
  intros Hi.
  assert (H : integra (ejecutar_todas ops db)).
  { revert db Hi. induction ops as [|op ops IH]; intros db Hi; [exact Hi|].
    cbn [ejecutar_todas fold_left]. apply IH. now apply ejecutar_integra. }
  split; [exact H|]. intros g Hg. now apply integra_uno.
Qed.

Lemma db_usuarios_integra : integra db_usuarios.
Proof.
  split; [exact db_usuarios_bien_formada|].
  split; [constructor|]. split; [constructor|]. intros g [].
Qed.

Lemma grupo_con_configuracion_y_plan_witness :
  integra db_usuarios
  /\ integra (ejecutar_todas
                [OpCrear dto_acme 1; OpCrear dto_acme 2; OpEliminar 1 1]
                db_usuarios).
Proof.
  split; [exact db_usuarios_integra|].
  exact (proj1 (grupo_con_configuracion_y_plan
                  [OpCrear dto_acme 1; OpCrear dto_acme 2; OpEliminar 1 1]
                  db_usuarios db_usuarios_integra)).
Defined.

(** ** Creating, then reading *)

(** X7: a group can be read back by its creator at once.  When [crear]
    returns, [obtenerPorId] with the returned id and the creator's id
    returns the same group row with the same configuration and, in their
    summary form, the same chart of accounts and companies; and when the
    keys of the database were sound, every other user gets Forbidden. *)
Theorem crear_y_obtener (d : CreateGrupoDto) (u : Z) (db db' : DB)
  (r : option GrupoCreado) :
  crear d u db = (Ok r, db') ->
  exists c det,
    r = Some c
    /\ obtenerPorId (id (grupo c)) u db' = (Ok det, db')
    /\ grupo det = grupo c
    /\ con_configuracion det = con_configuracion c
    /\ con_planDeCuentas det = option_map resumen_plan (con_planDeCuentas c)
    /\ con_empresas det = map resumen_empresa (con_empresas c)
    /\ (bien_formada db -> forall u2, u2 <> u ->
        es_Forbidden (fst (obtenerPorId (id (grupo c)) u2 db'))).
Proof.
  unfold crear, bind, lift.
  destruct (validarDatosGrupo (partial_of_create d)) as [[]|e]; [|discriminate].
  intros Hc.
  destruct (create_retorno _ _ _ _ _ Hc) as [g0 [-> Hg0]].
  pose proof (create_resultado d u db) as H4. rewrite Hc in H4.
  destruct H4 as [g [m [x [p [_ [Hm [_ [_ [_ [_ [Hgi [_ [_ [_ [_ [Hmm _]]]]]]]]]]]]]]]].
  pose proof (proj2 (findUnique_In _ _ _ Hg0)) as Hid0.
  assert (Hmi : es_miembro u (seq_grupos db + 1) db').
  { exists m. split; [rewrite Hm; apply in_or_app; right; now left|].
    rewrite Hmm. cbn. split; [reflexivity | exact Hgi]. }
  exists (incluir_creado db' g0), (incluir_detalle db' g0).
  cbn [grupo incluir_creado]. rewrite Hid0.
  split; [reflexivity|]. split.
  { rewrite obtenerPorId_casos, Hg0.
    now rewrite (proj2 (verificarAcceso_miembro _ _ _) Hmi). }
  repeat split.
  intros [_ [_ [Hu _]]] u2 Hne.
  rewrite obtenerPorId_casos, Hg0.
  rewrite verificarAcceso_no_miembro; [apply sin_acceso_es_Forbidden|].
  intros [y [Hy [Hy1 Hy2]]]. rewrite Hm in Hy. apply in_app_or in Hy.
  destruct Hy as [Hy | [<- | []]].
  - specialize (Hu y Hy). lia.
  - rewrite Hmm in Hy1. cbn in Hy1. congruence.
Qed.

Lemma crear_y_obtener_witness :
  exists (c : GrupoCreado) (det : GrupoDetalle),
    obtenerPorId (id (grupo c)) 1 db_acme = (Ok det, db_acme)
    /\ nombre (grupo det) = lit "Acme Holdings"
    /\ es_Forbidden (fst (obtenerPorId (id (grupo c)) 2 db_acme)).
Proof.
  destruct (crear_y_obtener dto_acme 1 db_usuarios db_acme _ eq_refl)
    as [c [det [Hr [Ho [Hg [_ [_ [_ Hf]]]]]]]].
  exists c, det. split; [exact Ho|]. split.
  - rewrite Hg. cbn in Hr. injection Hr as <-. reflexivity.
  - apply (Hf db_usuarios_bien_formada). discriminate.
Defined.

(** ** More on the listing *)

Lemma In_firstn_skipn {A} (n k : nat) (l : list A) (x : A) :
  In x (firstn n (skipn k l)) -> In x l.
Proof.
  intros H.
  rewrite <- (firstn_skipn k l). apply in_or_app. right.
  rewrite <- (firstn_skipn n (skipn k l)). apply in_or_app. now left.
Qed.

Lemma pais_eqb_eq (a b : Pais) : pais_eqb a b = true -> a = b.
Proof.
  destruct a, b; cbn; intros H; try reflexivity; discriminate.
Qed.

Lemma pais_eqb_refl (a : Pais) : pais_eqb a a = true.
Proof. now destruct a. Qed.

Lemma filas_de_origen (f : ListGruposQuery) (db : DB) (row : GrupoListado) :
  In row (filas_de f db) ->
  exists g, In g (grupos db) /\ where_ f g = true /\ row = seleccionar db g.
Proof.
  unfold filas_de. rewrite findMany_casos.
  destruct (entero (js_mul _ _)) as [s|]; [|intros []].
  destruct (entero (limit f)) as [t|]; [|intros []].
  destruct (s <? 0); [intros []|]. cbn [fst data].
  intros H. apply in_map_iff in H.
  destruct H as [g [<- Hg]]. apply In_firstn_skipn in Hg.
  apply (Permutation_in _ (orderBy_perm _)) in Hg.
  apply filter_In in Hg. exists g. tauto.
Qed.

(** X8: [findMany] never writes, and every row it returns is a stored
    group that passes the filters of the query: its [activo] is the one
    asked for, its country is the one asked for, and its [_count.empresas]
    is the number of companies that refer to it. *)
Theorem findMany_respeta_filtros (f : ListGruposQuery) (db : DB) :
  snd (findMany f db) = db
  /\ forall row, In row (filas_de f db) ->
       (exists g, In g (grupos db) /\ where_ f g = true
                  /\ row = seleccionar db g)
       /\ (forall a, q_activo f = Some a -> l_activo row = a)
       /\ (forall p, q_paisPrincipal f = Some p -> l_paisPrincipal row = p)
       /\ _count_empresas row =
          Z.of_nat (List.length
                      (filter (fun e => em_grupoEconomicoId e =? l_id row)
                              (empresas db))).
Proof.
  split; [apply findMany_no_escribe|]. intros row Hrow.
  destruct (filas_de_origen f db row Hrow) as [g [Hg [Hw ->]]].
  split; [now exists g|].
  unfold where_ in Hw. apply andb_true_iff in Hw. destruct Hw as [Hw Hp].
  apply andb_true_iff in Hw. destruct Hw as [_ Ha].
  cbn [seleccionar l_activo l_paisPrincipal l_id _count_empresas].
  repeat split.
  - intros a Hq. rewrite Hq in Ha. now apply eqb_prop in Ha.
  - intros p Hq. rewrite Hq in Hp. now apply pais_eqb_eq.
Qed.

(** *** Whole pages and limits *)

Lemma findMany_enteros (f : ListGruposQuery) (p l : Z) (db : DB) :
  entero (page f) = Some p -> entero (limit f) = Some l ->
  p >= 1 -> 1 <= l ->
  findMany f db =
  (Ok {| data :=
           map (seleccionar db)
             (firstn (Z.to_nat l)
                (skipn (Z.to_nat ((p - 1) * l))
                   (orderBy_fechaCreacion_desc
                      (filter (where_ f) (grupos db)))));
         pagination :=
           {| pg_page := page f; pg_limit := limit f;
              total := Z.of_nat (List.length (filter (where_ f) (grupos db)));
              totalPages :=
                de_Z (Math_ceil_div
                        (Z.of_nat
                           (List.length (filter (where_ f) (grupos db))))
                        l) |} |},
   db).
Proof.
  intros Hp Hl Hp1 Hl1.
  rewrite findMany_casos, (entero_skip _ _ p l Hp Hl), Hl.
  destruct ((p - 1) * l <? 0) eqn:E; [apply Z.ltb_lt in E; nia|].
  now rewrite (Math_ceil_total _ _ l Hl) by lia.
Qed.

Lemma filas_de_eq (f : ListGruposQuery) (p l : Z) (db : DB) :
  entero (page f) = Some p -> entero (limit f) = Some l ->
  p >= 1 -> 1 <= l ->
  filas_de f db =
  map (seleccionar db)
    (firstn (Z.to_nat l)
       (skipn (Z.to_nat ((p - 1) * l))
          (orderBy_fechaCreacion_desc (filter (where_ f) (grupos db))))).
Proof.
  intros Hp Hl Hp1 Hl1. unfold filas_de.
  now rewrite (findMany_enteros f p l db Hp Hl Hp1 Hl1).
Qed.

Lemma paginas_de_eq (f : ListGruposQuery) (p l : Z) (db : DB) :
  entero (page f) = Some p -> entero (limit f) = Some l ->
  p >= 1 -> 1 <= l ->
  paginas_de f db =
  Math_ceil_div (Z.of_nat (List.length (filter (where_ f) (grupos db)))) l.
Proof.
  intros Hp Hl Hp1 Hl1. unfold paginas_de.
  rewrite (findMany_enteros f p l db Hp Hl Hp1 Hl1).
  cbn [fst pagination totalPages]. now rewrite entero_de_Z.
Qed.

Lemma where_pasa (f : ListGruposQuery) (g : GrupoEconomico) :
  where_ f g = true -> pasa_filtros f g.
Proof.
  unfold where_. intros Hw.
  apply andb_true_iff in Hw. destruct Hw as [Hw Hp].
  apply andb_true_iff in Hw. destruct Hw as [_ Ha]. split.
  - intros a Hq. rewrite Hq in Ha. now apply eqb_prop in Ha.
  - intros pa Hq. rewrite Hq in Hp. now apply pais_eqb_eq.
Qed.

Lemma where_sin_busqueda (f : ListGruposQuery) (g : GrupoEconomico) :
  sin_busqueda f -> (where_ f g = true <-> pasa_filtros f g).
Proof.
  intros Hs. split; [apply where_pasa|].
  intros [Ha Hp]. unfold where_.
  assert (Hb : match search f with
               | Some s =>
                   if truthy s
                   then contains_insensitive (nombre g) s
                        || match rutControlador g with
                           | Some r => contains_insensitive r s
                           | None => false
                           end
                   else true
               | None => true
               end = true)
    by (destruct Hs as [-> | ->]; reflexivity).
  rewrite Hb. cbn [andb].
  apply andb_true_iff. split.
  - destruct (q_activo f) as [a|]; [|reflexivity].
    rewrite (Ha a eq_refl). apply eqb_reflx.
  - destruct (q_paisPrincipal f) as [pa|]; [|reflexivity].
    rewrite (Hp pa eq_refl). apply pais_eqb_refl.
Qed.

Lemma seleccionar_es_fila (db : DB) (g : GrupoEconomico) :
  es_fila db g (seleccionar db g).
Proof. repeat split. Qed.

Lemma Forall2_seleccionar (db : DB) (l : list GrupoEconomico) :
  Forall2 (es_fila db) l (map (seleccionar db) l).
Proof.
  induction l as [|g l IH]; cbn; constructor;
    [apply seleccionar_es_fila | exact IH].
Qed.

(** X25: the listing on a whole page and a whole limit.  For a query whose
    page is an integer from 1 up and whose limit is an integer from 1 to
    100, with [page * limit] a safe integer, [findMany] returns without
    writing.  Its rows come from a list of
    stored groups, in descending order of creation time, all of which pass
    the [activo] and [paisPrincipal] filters, and which is every such group
    once when the query has no search text: they are the rows of that list
    after its first [(page - 1) * limit], at most [limit] of them, each with
    the selected columns of its group and the count of its companies.
    [total] is the length of the list and [totalPages] the ceiling of
    [total / limit], the one integer [k] with
    [total <= k * limit < total + limit].  With [limit = 2] and a total of
    5, [totalPages] is 3 and page 3 has one row; with a total of 0,
    [totalPages] is 0 and there is no row. *)
Theorem findMany_paginacion
  (filters : ListGruposQuery) (p l : Z) (db : DB) :
  entero (page filters) = Some p ->
  entero (limit filters) = Some l ->
  p >= 1 ->
  1 <= l <= 100 ->
  p * l <= MAX_SAFE_INTEGER ->
  exists ordenadas r k,
    (forall g, In g ordenadas -> In g (grupos db) /\ pasa_filtros filters g)
    /\ (sin_busqueda filters ->
        exists b, (forall g, b g = true <-> pasa_filtros filters g)
                  /\ Permutation ordenadas (filter b (grupos db)))
    /\ StronglySorted desc ordenadas
    /\ findMany filters db = (Ok r, db)
    /\ Forall2 (es_fila db)
         (firstn (Z.to_nat l) (skipn (Z.to_nat ((p - 1) * l)) ordenadas))
         (data r)
    /\ Z.of_nat (List.length (data r)) <= l
    /\ pg_page (pagination r) = page filters
    /\ pg_limit (pagination r) = limit filters
    /\ total (pagination r) = Z.of_nat (List.length ordenadas)
    /\ totalPages (pagination r) = de_Z k
    /\ total (pagination r) <= k * l < total (pagination r) + l
    /\ (l = 2 -> total (pagination r) = 5 ->
        k = 3 /\ (p = 3 -> List.length (data r) = 1%nat))
    /\ (total (pagination r) = 0 -> k = 0 /\ data r = []).
Proof.
  intros Hp Hl Hp1 Hl1 _.
  set (coinciden := filter (where_ filters) (grupos db)).
  assert (Hlen : List.length (orderBy_fechaCreacion_desc coinciden)
                 = List.length coinciden)
    by (apply Permutation_length, orderBy_perm).
  exists (orderBy_fechaCreacion_desc coinciden). eexists.
  exists (Math_ceil_div (Z.of_nat (List.length coinciden)) l).
  split.
  { intros g Hg. apply (Permutation_in _ (orderBy_perm _)) in Hg.
    apply filter_In in Hg. destruct Hg as [Hin Hw].
    split; [exact Hin | now apply where_pasa]. }
  split.
  { intros Hs. exists (where_ filters). split.
    - intros g. now apply where_sin_busqueda.
    - apply orderBy_perm. }
  split; [apply orderBy_sorted|].
  split; [apply (findMany_enteros filters p l db Hp Hl Hp1); lia|].
  cbn [data pagination pg_page pg_limit total totalPages]. fold coinciden.
  split; [apply Forall2_seleccionar|].
  split.
  { rewrite length_map, length_firstn. lia. }
  split; [reflexivity|]. split; [reflexivity|].
  split; [now rewrite Hlen|]. split; [reflexivity|].
  split; [apply Math_ceil_div_spec; lia|].
  split.
  - intros H2 H5. subst l. rewrite H5.
    split; [reflexivity|].
    intros H3. subst p. rewrite length_map, length_firstn, length_skipn, Hlen.
    change (Z.to_nat ((3 - 1) * 2)) with 4%nat.
    change (Z.to_nat 2) with 2%nat. lia.
  - intros H0. rewrite H0. split.
    + apply Math_ceil_div_unico; lia.
    + assert (Hnil : coinciden = [])
        by (destruct coinciden; [reflexivity | cbn in H0; lia]).
      rewrite Hnil. cbn. now rewrite skipn_nil, firstn_nil.
Qed.

Lemma findMany_paginacion_witness :
  exists r,
    findMany (consulta 3 2) db_cinco = (Ok r, db_cinco)
    /\ total (pagination r) = 5 /\ totalPages (pagination r) = de_Z 3
    /\ List.length (data r) = 1%nat.
Proof.
  destruct (findMany_paginacion (consulta 3 2) 3 2 db_cinco) as
    [o [r [k [_ [_ [_ [Hf [_ [_ [_ [_ [Ht [Hk [_ [H25 _]]]]]]]]]]]]]]].
  - reflexivity.
  - reflexivity.
  - lia.
  - lia.
  - vm_compute. discriminate.
  - exists r. split; [exact Hf|].
    assert (H5 : total (pagination r) = 5).
    { rewrite findMany_casos in Hf. vm_compute in Hf.
      injection Hf as <-. reflexivity. }
    destruct (H25 eq_refl H5) as [H3 H1].
    split; [exact H5|]. split; [now rewrite Hk, H3 | exact (H1 eq_refl)].
Defined.

(** X9: the size of every page.  For a query whose page is an integer from
    1 up and whose limit is an integer from 1 to 100, with [page * limit] a
    safe integer, [findMany] returns a page of [min(limit, total - (page - 1) * limit)] rows, or none when that
    is negative, where [total] is the total it reports: every page before
    the last is full, every page up to [totalPages] has at least one row,
    and every page after [totalPages] is empty. *)
Theorem findMany_tamano_de_pagina (f : ListGruposQuery) (p l : Z) (db : DB) :
  entero (page f) = Some p ->
  entero (limit f) = Some l ->
  p >= 1 ->
  1 <= l <= 100 ->
  p * l <= MAX_SAFE_INTEGER ->
  exists r k,
    findMany f db = (Ok r, db)
    /\ totalPages (pagination r) = de_Z k
    /\ Z.of_nat (List.length (data r)) =
       Z.max 0 (Z.min l (total (pagination r) - (p - 1) * l))
    /\ (p < k -> Z.of_nat (List.length (data r)) = l)
    /\ (p <= k -> data r <> [])
    /\ (p > k -> data r = []).
Proof.
  intros Hp Hl Hp1 Hl1 _.
  do 2 eexists.
  split; [apply (findMany_enteros f p l db Hp Hl Hp1); lia|].
  cbn [data pagination total totalPages].
  split; [reflexivity|].
  pose proof (Math_ceil_div_spec
                (Z.of_nat (List.length (filter (where_ f) (grupos db))))
                l ltac:(lia)) as Hc.
  set (t := Z.of_nat (List.length (filter (where_ f) (grupos db)))) in *.
  set (k := Math_ceil_div t l) in *.
  assert (Hlen : Z.of_nat
                   (List.length
                      (map (seleccionar db)
                         (firstn (Z.to_nat l)
                            (skipn (Z.to_nat ((p - 1) * l))
                               (orderBy_fechaCreacion_desc
                                  (filter (where_ f) (grupos db)))))))
                 = Z.max 0 (Z.min l (t - (p - 1) * l))).
  { rewrite length_map, length_firstn, length_skipn.
    rewrite (Permutation_length (orderBy_perm _)).
    assert (Hs : 0 <= (p - 1) * l) by nia.
    subst t. set (s := (p - 1) * l) in *.
    set (n := List.length (filter (where_ f) (grupos db))). lia. }
  split; [exact Hlen|]. split; [|split].
  - intros Hlt. rewrite Hlen. nia.
  - intros Hle Hnil. rewrite Hnil in Hlen. cbn in Hlen. nia.
  - intros Hgt.
    destruct (map _ _) as [|x xs]; [reflexivity|].
    cbn [List.length] in Hlen. nia.
Qed.

Lemma findMany_tamano_de_pagina_witness :
  List.length (filas_de (consulta 2 2) db_cinco) = 2%nat
  /\ filas_de (consulta 3 2) db_cinco <> []
  /\ filas_de (consulta 4 2) db_cinco = [].
Proof.
  destruct (findMany_tamano_de_pagina (consulta 2 2) 2 2 db_cinco)
    as [r2 [k2 [Hf2 [Hk2 [_ [H2 _]]]]]];
    [reflexivity | reflexivity | lia | lia | vm_compute; discriminate |].
  destruct (findMany_tamano_de_pagina (consulta 3 2) 3 2 db_cinco)
    as [r3 [k3 [Hf3 [Hk3 [_ [_ [H3 _]]]]]]];
    [reflexivity | reflexivity | lia | lia | vm_compute; discriminate |].
  destruct (findMany_tamano_de_pagina (consulta 4 2) 4 2 db_cinco)
    as [r4 [k4 [Hf4 [Hk4 [_ [_ [_ H4]]]]]]];
    [reflexivity | reflexivity | lia | lia | vm_compute; discriminate |].
  unfold filas_de. rewrite Hf2, Hf3, Hf4. cbn [fst].
  assert (E2 : k2 = 3).
  { rewrite findMany_casos in Hf2. vm_compute in Hf2. injection Hf2 as <-.
    vm_compute in Hk2. now injection Hk2 as <-. }
  assert (E3 : k3 = 3).
  { rewrite findMany_casos in Hf3. vm_compute in Hf3. injection Hf3 as <-.
    vm_compute in Hk3. now injection Hk3 as <-. }
  assert (E4 : k4 = 3).
  { rewrite findMany_casos in Hf4. vm_compute in Hf4. injection Hf4 as <-.
    vm_compute in Hk4. now injection Hk4 as <-. }
  split; [|split].
  - apply Nat2Z.inj. rewrite H2; [reflexivity | lia].
  - apply H3. lia.
  - apply H4. lia.
Defined.

Lemma firstn_suma {A} (a b : nat) (l : list A) :
  firstn (a + b) l = firstn a l ++ firstn b (skipn a l).
Proof.
  revert l. induction a as [|a IH]; intros l; [reflexivity|].
  destruct l as [|x l]; cbn.
  - now rewrite firstn_nil.
  - now rewrite IH.
Qed.

Lemma concat_trozos {A} (k n : nat) (l : list A) :
  List.concat (map (fun i => firstn k (skipn ((i - 1) * k) l)) (seq 1 n))
  = firstn (n * k) l.
Proof.
  induction n as [|n IH]; [reflexivity|].
  rewrite seq_S, map_app, concat_app, IH. cbn [map List.concat].
  rewrite app_nil_r.
  replace (1 + n - 1)%nat with n by lia.
  replace (S n * k)%nat with (n * k + k)%nat by lia.
  now rewrite firstn_suma.
Qed.

Lemma todas_las_paginas_eq (f : ListGruposQuery) (l : Z) (db : DB) :
  entero (limit f) = Some l -> 1 <= l ->
  todas_las_paginas f db =
  map (seleccionar db)
    (orderBy_fechaCreacion_desc (filter (where_ f) (grupos db))).
Proof.
  intros Hl Hl1. unfold todas_las_paginas.
  assert (Hw : forall q, where_ (con_pagina q f) = where_ f) by reflexivity.
  rewrite (paginas_de_eq (con_pagina 1 f) 1 l db (entero_de_Z 1) Hl)
    by lia.
  rewrite Hw.
  set (ord := orderBy_fechaCreacion_desc (filter (where_ f) (grupos db))).
  set (k := Z.to_nat l).
  set (t := Z.of_nat (List.length (filter (where_ f) (grupos db)))).
  set (n := Z.to_nat (Math_ceil_div t l)).
  rewrite (map_ext_in _ (fun i => map (seleccionar db)
                                    (firstn k (skipn ((i - 1) * k) ord)))).
  - rewrite <- (map_map (fun i => firstn k (skipn ((i - 1) * k) ord))
                        (map (seleccionar db))).
    rewrite <- concat_map. f_equal.
    rewrite concat_trozos. apply firstn_all2.
    pose proof (Math_ceil_div_spec t l ltac:(lia)) as Hc.
    assert (Hlen : List.length ord
                   = List.length (filter (where_ f) (grupos db)))
      by (apply Permutation_length, orderBy_perm).
    subst n k t. rewrite Hlen. nia.
  - intros i Hi. apply in_seq in Hi.
    rewrite (filas_de_eq (con_pagina (Z.of_nat i) f) (Z.of_nat i) l db
               (entero_de_Z _) Hl) by lia.
    rewrite Hw. fold ord. fold k.
    replace (Z.to_nat ((Z.of_nat i - 1) * l)) with ((i - 1) * k)%nat
      by (subst k; nia).
    reflexivity.
Qed.

(** With pairwise distinct timestamps there is one descending order. *)
Lemma NoDup_map_iny {A B} (h : A -> B) (l : list A) (x y : A) :
  NoDup (map h l) -> In x l -> In y l -> h x = h y -> x = y.
Proof.
  induction l as [|a l IH]; cbn; [intros _ []|].
  intros Hn Hx Hy Hxy. inversion Hn as [|b m Hnot Hn']; subst.
  destruct Hx as [-> | Hx], Hy as [-> | Hy].
  - reflexivity.
  - exfalso. apply Hnot. rewrite Hxy. now apply in_map.
  - exfalso. apply Hnot. rewrite <- Hxy. now apply in_map.
  - now apply IH.
Qed.

Lemma orden_unico (l1 l2 : list GrupoEconomico) :
  NoDup (map fechaCreacion l1) ->
  Permutation l1 l2 ->
  StronglySorted desc l1 -> StronglySorted desc l2 ->
  l1 = l2.
Proof.
  revert l2. induction l1 as [|a t1 IH]; intros l2 Hn Hp H1 H2.
  - now apply Permutation_nil in Hp.
  - destruct l2 as [|b t2];
      [apply Permutation_sym, Permutation_nil in Hp; discriminate|].
    inversion H1 as [|a' t1' Hs1 Ha]; subst.
    inversion H2 as [|b' t2' Hs2 Hb]; subst.
    assert (Hab : a = b).
    { assert (Hina : In a (b :: t2))
        by (apply (Permutation_in _ Hp); now left).
      assert (Hinb : In b (a :: t1))
        by (apply (Permutation_in _ (Permutation_sym Hp)); now left).
      apply (NoDup_map_iny fechaCreacion (a :: t1));
        [exact Hn | now left | exact Hinb|].
      rewrite Forall_forall in Ha, Hb. unfold desc in Ha, Hb.
      destruct Hina as [<- | Hina]; [reflexivity|].
      destruct Hinb as [<- | Hinb]; [reflexivity|].
      specialize (Ha b Hinb). specialize (Hb a Hina). lia. }
    subst b. f_equal. apply IH.
    + now inversion Hn.
    + now apply Permutation_cons_inv in Hp.
    + exact Hs1.
    + exact Hs2.
Qed.

(** X10: the pages of a listing cover it exactly, when creation times
    differ.  For a query whose limit is an integer from 1 to 100 and whose
    matching groups have pairwise distinct creation times, the rows of
    pages 1 to [totalPages], each fetched by its own query and put one
    after the other, are the rows of the matching groups in descending
    order of creation time, each once, whatever descending order one
    takes: no row is skipped or repeated between pages. *)
Theorem paginas_cubren_el_listado (f : ListGruposQuery) (l : Z) (db : DB) :
  entero (limit f) = Some l ->
  1 <= l <= 100 ->
  NoDup (map fechaCreacion (filter (where_ f) (grupos db))) ->
  forall ordenadas,
    Permutation ordenadas (filter (where_ f) (grupos db)) ->
    StronglySorted desc ordenadas ->
    Forall2 (es_fila db) ordenadas (todas_las_paginas f db)
    /\ List.length (todas_las_paginas f db)
       = List.length (filter (where_ f) (grupos db)).
Proof.
  intros Hl Hl1 Hn ordenadas Hperm Hsort.
  rewrite (todas_las_paginas_eq f l db Hl) by lia.
  assert (Heq : orderBy_fechaCreacion_desc (filter (where_ f) (grupos db))
                = ordenadas).
  { apply orden_unico.
    - eapply Permutation_NoDup; [|exact Hn].
      apply Permutation_map, Permutation_sym, orderBy_perm.
    - etransitivity; [apply orderBy_perm | now apply Permutation_sym].
    - apply orderBy_sorted.
    - exact Hsort. }
  rewrite Heq. split; [apply Forall2_seleccionar|].
  rewrite length_map. now apply Permutation_length.
Qed.

Lemma paginas_cubren_el_listado_witness :
  List.length (todas_las_paginas (consulta 1 2) db_cinco) = 5%nat.
Proof.
  destruct (paginas_cubren_el_listado (consulta 1 2) 2 db_cinco
              eq_refl ltac:(lia)) with
    (ordenadas := orderBy_fechaCreacion_desc
                    (filter (where_ (consulta 1 2)) (grupos db_cinco)))
    as [_ Hlen].
  - vm_compute. repeat (constructor; [cbn; lia|]). constructor.
  - apply orderBy_perm.
  - apply orderBy_sorted.
  - rewrite Hlen. vm_compute. reflexivity.
Defined.

Lemma NoDup_find (l : list GrupoEconomico) (x : GrupoEconomico) :
  NoDup (map id l) -> In x l -> find (fun g => id g =? id x) l = Some x.
Proof.
  induction l as [|h t IH]; cbn; [intros _ []|].
  intros Hn Hin. inversion Hn as [|a l' Hnot Hn']; subst.
  destruct Hin as [-> | Hin].
  - now rewrite Z.eqb_refl.
  - destruct (id h =? id x) eqn:E.
    + exfalso. apply Z.eqb_eq in E. apply Hnot. rewrite E. now apply in_map.
    + now apply IH.
Qed.

Lemma map_fecha_reemplazar (i : Z) (g g' : GrupoEconomico)
  (l : list GrupoEconomico) :
  find (fun x => id x =? i) l = Some g ->
  fechaCreacion g' = fechaCreacion g ->
  map fechaCreacion (reemplazar i g' l) = map fechaCreacion l.
Proof.
  intros Hf Hfe. induction l as [|h t IH]; [reflexivity|].
  cbn in Hf |- *. destruct (id h =? i).
  - injection Hf as ->. cbn. now rewrite Hfe.
  - cbn. now rewrite IH.
Qed.

Lemma NoDup_map_filter {A B} (h : A -> B) (b : A -> bool) (l : list A) :
  NoDup (map h l) -> NoDup (map h (filter b l)).
Proof.
  induction l as [|a l IH]; cbn; [trivial|].
  intros Hn. inversion Hn as [|x m Hnot Hn']; subst.
  destruct (b a); [|now apply IH].
  cbn. constructor; [|now apply IH].
  intros Hin. apply Hnot. apply in_map_iff in Hin.
  destruct Hin as [y [Hy Hin]]. apply filter_In in Hin.
  apply in_map_iff. exists y. tauto.
Qed.

(** X11: a soft-deleted group stays visible.  After a successful delete of
    a group in a database with sound keys, the same member still reads the
    group by id, now with [activo = false], and no listing filtered by
    [activo = true] shows it, whatever its page and limit.  A listing
    filtered by [activo = false] alone, with an integer limit from 1 to
    100, shows it on page 1 when the limit is at least the total; and when
    the creation times of the groups are pairwise distinct, it shows it on
    one of its pages. *)
Theorem eliminado_sigue_visible (i u : Z) (db : DB) :
  bien_formada db ->
  existe_fila i db ->
  es_miembro u i db ->
  ~ tiene_empresa_activa i db ->
  (exists det,
     obtenerPorId i u (snd (eliminar i u db))
     = (Ok det, snd (eliminar i u db))
     /\ id (grupo det) = i /\ activo (grupo det) = false)
  /\ (forall f row, q_activo f = Some true ->
        In row (filas_de f (snd (eliminar i u db))) -> l_id row <> i)
  /\ (forall f l, q_activo f = Some false -> search f = None ->
        q_paisPrincipal f = None ->
        entero (limit f) = Some l -> 1 <= l <= 100 ->
        (forall r, findMany (con_pagina 1 f) (snd (eliminar i u db))
                   = (Ok r, snd (eliminar i u db)) ->
           total (pagination r) <= l ->
           exists row, In row (data r)
                       /\ l_id row = i /\ l_activo row = false)
        /\ (NoDup (map fechaCreacion (grupos db)) ->
            exists row, In row (todas_las_paginas f (snd (eliminar i u db)))
                        /\ l_id row = i /\ l_activo row = false)).
Proof.
  intros Hbf Hex Hm Hno.
  apply existe_fila_findUnique in Hex. destruct Hex as [g Hg].
  pose proof (proj2 (findUnique_In _ _ _ Hg)) as Hid.
  rewrite (eliminar_casos _ _ _ _ Hg Hm), (sin_empresas_activas _ _ Hno).
  cbn [snd].
  pose proof (bien_formada_reemplazar i delete_data g db Hg eq_refl Hbf)
    as Hbf1.
  set (db1 := set_grupos _ _ db) in *.
  assert (Hg1 : grupoEconomico_findUnique i db1 = Some (delete_data g)).
  { unfold grupoEconomico_findUnique in *. subst db1. cbn [grupos set_grupos].
    now apply find_reemplazar_mismo with (g := g). }
  assert (Hin1 : In (delete_data g) (grupos db1))
    by now apply findUnique_In in Hg1.
  split; [|split].
  - exists (incluir_detalle db1 (delete_data g)).
    rewrite obtenerPorId_casos, Hg1.
    assert (Hm1 : es_miembro u i db1) by exact Hm.
    rewrite (proj2 (verificarAcceso_miembro _ _ _) Hm1).
    repeat split. exact Hid.
  - intros f row Hq Hrow Hri.
    destruct (filas_de_origen f db1 row Hrow) as [g' [Hg' [Hw ->]]].
    cbn [seleccionar l_id] in Hri.
    assert (Heq : g' = delete_data g).
    { destruct Hbf1 as [_ [Hn _]].
      pose proof (NoDup_find _ _ Hn Hg') as Hf. rewrite Hri in Hf.
      unfold grupoEconomico_findUnique in Hg1. congruence. }
    subst g'. unfold where_ in Hw. rewrite Hq in Hw.
    cbn [activo delete_data] in Hw.
    apply andb_true_iff in Hw. destruct Hw as [Hw _].
    apply andb_true_iff in Hw. destruct Hw as [_ Hw]. discriminate.
  - intros f l Hq Hs Hp Hl Hl1.
    assert (Hcoin : In (delete_data g) (filter (where_ f) (grupos db1))).
    { apply filter_In. split; [exact Hin1|].
      unfold where_. now rewrite Hq, Hs, Hp. }
    assert (Hord : In (delete_data g)
                     (orderBy_fechaCreacion_desc
                        (filter (where_ f) (grupos db1))))
      by (apply (Permutation_in _ (Permutation_sym (orderBy_perm _)));
          exact Hcoin).
    split.
    + intros r Hr Htot.
      rewrite (findMany_enteros (con_pagina 1 f) 1 l db1
                 (entero_de_Z 1) Hl) in Hr by lia.
      injection Hr as <-. cbn [data pagination total] in *.
      change (where_ (con_pagina 1 f)) with (where_ f) in *.
      exists (seleccionar db1 (delete_data g)).
      split; [|split; [exact Hid | reflexivity]].
      apply in_map. change (Z.to_nat ((1 - 1) * l)) with 0%nat.
      cbn [skipn]. rewrite firstn_all2; [exact Hord|].
      rewrite (Permutation_length (orderBy_perm _)). lia.
    + intros Hnd.
      exists (seleccionar db1 (delete_data g)).
      split; [|split; [exact Hid | reflexivity]].
      rewrite (todas_las_paginas_eq f l db1 Hl) by lia.
      now apply in_map.
Qed.

Lemma eliminado_sigue_visible_witness :
  exists det,
    obtenerPorId 1 1 (snd (eliminar 1 1 db_acme))
    = (Ok det, snd (eliminar 1 1 db_acme))
    /\ activo (grupo det) = false.
Proof.
  pose proof db_acme_bien_formada as Hbf.
  destruct (eliminado_sigue_visible 1 1 db_acme Hbf) as [[det [Hd [_ Ha]]] _].
  - fila_concreta.
  - fila_concreta.
  - intros [e [[] _]].
  - now exists det.
Defined.

(** ** Validation errors *)

Lemma mensajes_de_push (k k' : string) (m : ZodMessage) (d : Details) :
  mensajes_de k (details_push d k' m) =
  mensajes_de k d ++ (if String.eqb k' k then [m] else []).
Proof.
  unfold mensajes_de. induction d as [|[k0 ms] r IH]; cbn.
  - now destruct (String.eqb k' k).
  - destruct (String.eqb k0 k') eqn:E0; cbn.
    + apply String.eqb_eq in E0. subst k0.
      destruct (String.eqb k' k); [reflexivity | now rewrite app_nil_r].
    + destruct (String.eqb k0 k) eqn:E1; [|exact IH].
      apply String.eqb_eq in E1. subst k0. rewrite String.eqb_sym, E0.
      now rewrite app_nil_r.
Qed.

Lemma claves_push (k' : string) (m : ZodMessage) (d : Details) :
  NoDup (map fst d) ->
  (forall k ms, In (k, ms) d -> ms <> []) ->
  NoDup (map fst (details_push d k' m))
  /\ (forall k ms, In (k, ms) (details_push d k' m) -> ms <> []).
Proof.
  intros Hn Hne.
  induction d as [|[k0 ms] r IH]; cbn.
  - split; [repeat constructor; tauto|].
    intros k ms [H | []]. injection H as _ <-. discriminate.
  - inversion Hn as [|a l Hnot Hn']; subst.
    assert (Hne' : forall k ms0, In (k, ms0) r -> ms0 <> [])
      by (intros k ms0 H; apply (Hne k ms0); now right).
    destruct (String.eqb k0 k') eqn:E0; cbn.
    + split; [exact Hn|].
      intros k ms0 [H | H].
      * injection H as _ <-. now destruct ms.
      * now apply (Hne' k ms0).
    + destruct (IH Hn' Hne') as [IH1 IH2]. split.
      * constructor; [|exact IH1]. intros Hin. apply Hnot.
        clear -Hin E0. induction r as [|[k1 ms1] r IHr]; cbn in *.
        -- destruct Hin as [H | []]. subst k0.
           rewrite String.eqb_refl in E0. discriminate.
        -- destruct (String.eqb k1 k'); cbn in *; [exact Hin|].
           destruct Hin as [H | H]; [now left | right; now apply IHr].
      * intros k ms0 [H | H].
        -- injection H as <- <-. apply (Hne k0 ms). now left.
        -- now apply (IH2 k ms0).
Qed.

Lemma detalles_fold (errors : list ZodIssue) (d : Details) :
  NoDup (map fst d) ->
  (forall k ms, In (k, ms) d -> ms <> []) ->
  let det := fold_left
               (fun d err =>
                  details_push d (join_path (path err)) (issue_message err))
               errors d in
  NoDup (map fst det)
  /\ (forall k ms, In (k, ms) det -> ms <> [])
  /\ (forall k, mensajes_de k det =
                mensajes_de k d
                ++ map issue_message
                     (filter (fun e => String.eqb (join_path (path e)) k)
                             errors)).
Proof.
  revert d. induction errors as [|e r IH]; intros d Hn Hne; cbn [fold_left].
  - cbn. repeat split; try assumption. intros k. now rewrite app_nil_r.
  - destruct (claves_push (join_path (path e)) (issue_message e) d Hn Hne)
      as [Hn1 Hne1].
    destruct (IH _ Hn1 Hne1) as [H1 [H2 H3]].
    split; [exact H1|]. split; [exact H2|].
    intros k. rewrite H3, mensajes_de_push. cbn [filter].
    destruct (String.eqb (join_path (path e)) k); cbn [map].
    + now rewrite <- app_assoc.
    + now rewrite app_nil_r.
Qed.

Lemma heredada_In (k : string) :
  heredada k = true <-> In k Object_prototype.
Proof.
  unfold heredada. rewrite existsb_exists. split.
  - intros [x [Hin Hx]]. apply String.eqb_eq in Hx. now subst x.
  - intros Hin. exists k. split; [exact Hin | apply String.eqb_refl].
Qed.

(** X12: [handleZodError] groups the issues by field without losing any,
    unless a path names a property every object inherits.  It throws a
    TypeError exactly when the path of some issue, joined with dots, is one
    of the twelve property names of [Object.prototype].  Otherwise it
    returns a 400 VALIDATION_ERROR whose details have one entry per
    distinct path, each non-empty, holding exactly the messages of the
    issues with that path, in their order. *)
Theorem handleZodError_agrupa (errors : list ZodIssue) :
  (handleZodError errors = None <->
   exists e, In e errors
             /\ In (join_path (path e))
                  [ "constructor"; "__defineGetter__"; "__defineSetter__";
                    "hasOwnProperty"; "__lookupGetter__"; "__lookupSetter__";
                    "isPrototypeOf"; "propertyIsEnumerable"; "toString";
                    "valueOf"; "__proto__"; "toLocaleString" ])
  /\ forall v, handleZodError errors = Some v ->
       statusCode v = 400
       /\ code v = "VALIDATION_ERROR"
       /\ exists det,
            details v = Some det
            /\ NoDup (map fst det)
            /\ (forall k ms, In (k, ms) det -> ms <> [])
            /\ (forall k, mensajes_de k det =
                          map issue_message
                            (filter (fun e => String.eqb (join_path (path e)) k)
                                    errors)).
Proof.
  unfold handleZodError.
  destruct (existsb (fun err => heredada (join_path (path err))) errors)
    eqn:E.
  - split; [|discriminate].
    split; [|reflexivity]. intros _.
    apply existsb_exists in E. destruct E as [e [Hin He]].
    exists e. split; [exact Hin | now apply heredada_In].
  - split.
    + split; [discriminate|]. intros [e [Hin He]].
      assert (Ht : existsb (fun err => heredada (join_path (path err))) errors
                   = true).
      { apply existsb_exists. exists e. split; [exact Hin|].
        now apply heredada_In. }
      congruence.
    + intros v Hv. injection Hv as <-.
      split; [reflexivity|]. split; [reflexivity|].
      exists (agrupar errors). split; [reflexivity|].
      destruct (detalles_fold errors [] (NoDup_nil _)) as [H1 [H2 H3]].
      * intros k ms [].
      * split; [exact H1|]. split; [exact H2|].
        intros k. unfold agrupar. now rewrite H3.
Qed.

(** The issues of the schemas sit under keys of the schemas, none of which
    is inherited: [handleZodError] returns on them what the error handler
    sends. *)
Lemma propias_nil : propias [].
Proof. reflexivity. Qed.

Lemma propias_app (a b : list ZodIssue) :
  propias a -> propias b -> propias (a ++ b).
Proof.
  unfold propias. intros Ha Hb. now rewrite existsb_app, Ha, Hb.
Qed.

Lemma propias_at_key (k : string) (msgs : list ZodMessage) :
  heredada k = false -> propias (at_key k msgs).
Proof.
  intros Hk. unfold propias, at_key.
  induction msgs as [|m ms IH]; [reflexivity|].
  cbn [map existsb path join_path]. now rewrite Hk.
Qed.

Lemma handleZodError_propias (issues : list ZodIssue) :
  propias issues -> handleZodError issues = Some (validationError_de issues).
Proof.
  unfold propias, handleZodError. now intros ->.
Qed.

Ltac claves_propias :=
  repeat first [ apply propias_nil
               | apply propias_app
               | apply propias_at_key; reflexivity ].

Lemma CreateGrupoSchema_propias (body : Body) (issues : list ZodIssue) :
  CreateGrupoSchema body = Throw (ThrowZod issues) -> propias issues.
Proof.
  unfold CreateGrupoSchema.
  destruct (z_string _ _) as [n e1], (rutControlador_schema _) as [r e2],
    (z_enum PAISES_VALIDOS _ _ _) as [pa e3],
    (z_enum MONEDAS_VALIDAS _ _ _) as [m e4].
  assert (Hp : propias (at_key "nombre" e1 ++ at_key "rutControlador" e2
                        ++ at_key "paisPrincipal" e3
                        ++ at_key "monedaBase" e4)) by claves_propias.
  destruct (at_key "nombre" e1 ++ _), n, r, pa, m;
    try discriminate; intros H; injection H as <-; exact Hp.
Qed.

Lemma UpdateGrupoSchema_propias (body : Body) (issues : list ZodIssue) :
  UpdateGrupoSchema body = Throw (ThrowZod issues) -> propias issues.
Proof.
  unfold UpdateGrupoSchema.
  destruct (z_optional (z_string _) _) as [n e1],
    (rutControlador_schema _) as [r e2],
    (z_optional (z_enum PAISES_VALIDOS _ _) _) as [pa e3],
    (z_optional (z_enum MONEDAS_VALIDAS _ _) _) as [m e4],
    (z_optional z_boolean _) as [a e5].
  assert (Hp : propias (at_key "nombre" e1 ++ at_key "rutControlador" e2
                        ++ at_key "paisPrincipal" e3
                        ++ at_key "monedaBase" e4 ++ at_key "activo" e5))
    by claves_propias.
  destruct (at_key "nombre" e1 ++ _), n, r, pa, m, a;
    try discriminate; intros H; injection H as <-; exact Hp.
Qed.

Lemma GrupoParamsSchema_propias (T : Type) (Number : JsString -> T)
  (id_ : Json) (issues : list ZodIssue) :
  GrupoParamsSchema T Number id_ = Throw (ThrowZod issues) -> propias issues.
Proof.
  unfold GrupoParamsSchema.
  destruct (z_string _ id_) as [[v|] [|m ms]]; try discriminate;
    intros H; injection H as <-; claves_propias.
Qed.

Lemma ListGruposQuerySchema_propias (Number : JsString -> JsNumber)
  (q : Query) (issues : list ZodIssue) :
  ListGruposQuerySchema Number q = Throw (ThrowZod issues) -> propias issues.
Proof.
  unfold ListGruposQuerySchema.
  destruct (z_numero Number "1" _ _ (qs_page q)) as [pg e1],
    (z_numero Number "10" _ _ (qs_limit q)) as [lm e2],
    (z_optional (z_string []) (qs_search q)) as [se e3],
    (z_activo (qs_activo q)) as [ac e4],
    (z_optional _ (qs_paisPrincipal q)) as [pa e5].
  assert (Hp : propias (at_key "page" e1 ++ at_key "limit" e2
                        ++ at_key "search" e3 ++ at_key "activo" e4
                        ++ at_key "paisPrincipal" e5)) by claves_propias.
  destruct (at_key "page" e1 ++ _), pg, lm, se, ac, pa;
    try discriminate; intros H; injection H as <-; exact Hp.
Qed.

(** ** The create schema *)

Lemma z_or_valor {A} (a b : Json -> Parsed A) (input : Json) :
  snd (z_or a b input) = [] -> exists v, z_or a b input = (Some v, []).
Proof.
  unfold z_or.
  destruct (a input) as [[va|] [|ia0 ia]], (b input) as [[vb|] [|ib0 ib]];
    cbn; intros H; try discriminate; eexists; reflexivity.
Qed.

Lemma z_enum_valor {A} (values : list A) (codigo : A -> string)
  (errorMap : option string) (input : Json) :
  snd (z_enum values codigo errorMap input) = [] ->
  exists v, z_enum values codigo errorMap input = (Some v, [])
            /\ input = JString (lit (codigo v)) /\ In v values.
Proof.
  unfold z_enum. destruct input as [| |b|n|s| |]; cbn; try discriminate.
  destruct (find _ values) as [v|] eqn:E; cbn; [|discriminate].
  intros _. exists v. apply find_some in E. destruct E as [Hin Hs].
  unfold js_eqb in Hs. destruct (list_eq_dec N.eq_dec s (lit (codigo v)));
    [|discriminate].
  subst s. repeat split. exact Hin.
Qed.

Lemma z_string_nombre_valor (input : Json) :
  snd (z_string nombre_checks input) = [] ->
  exists s, input = JString s /\ 3 <= js_length s <= 200
            /\ z_string nombre_checks input = (Some (trim s), []).
Proof.
  unfold z_string. destruct input as [| |b|n|s| |]; try (cbn; discriminate).
  rewrite run_checks_nombre.
  destruct (js_length s <? 3) eqn:E3; [cbn; discriminate|].
  destruct (js_length s >? 200) eqn:E200; [cbn; discriminate|].
  intros _. exists s. split; [reflexivity|]. split; [|reflexivity].
  apply Z.ltb_ge in E3. rewrite Z.gtb_ltb in E200. apply Z.ltb_ge in E200.
  lia.
Qed.

Lemma rutControlador_schema_valor (input : Json) :
  snd (rutControlador_schema input) = [] ->
  exists r, rutControlador_schema input = (Some r, [])
            /\ rut_dto_admitido r
            /\ input = match r with Some s => JString s | None => JUndefined end.
Proof.
  unfold rutControlador_schema, z_or, z_optional, z_string, z_literal_empty.
  destruct input as [| |b|n|s| |]; cbn; try discriminate.
  - intros _. exists None. repeat split.
  - destruct (rut_regex s) eqn:E; cbn.
    + intros _. exists (Some s). repeat split. now right.
    + destruct s as [|c s]; cbn; [|discriminate].
      intros _. exists (Some []). repeat split. now left.
Qed.

Lemma app_nil_4 {A} (a b c d : list A) :
  a ++ b ++ c ++ d = [] <-> a = [] /\ b = [] /\ c = [] /\ d = [].
Proof.
  split.
  - intros H. apply app_eq_nil in H. destruct H as [-> H].
    apply app_eq_nil in H. destruct H as [-> H].
    apply app_eq_nil in H. destruct H as [-> ->]. tauto.
  - now intros [-> [-> [-> ->]]].
Qed.

Lemma at_key_nil (k : string) (msgs : list ZodMessage) :
  at_key k msgs = [] <-> msgs = [].
Proof.
  unfold at_key. split; [apply map_eq_nil | now intros ->].
Qed.

Lemma CreateGrupoSchema_casos (body : Body) :
  (issues_create body = [] /\ exists d, CreateGrupoSchema body = Ok d)
  \/ (issues_create body <> []
      /\ CreateGrupoSchema body = Throw (ThrowZod (issues_create body))).
Proof.
  unfold issues_create, issues_nombre, issues_rutControlador,
    issues_paisPrincipal, issues_monedaBase, CreateGrupoSchema.
  pose proof (z_string_nombre_valor (b_nombre body)) as H1.
  pose proof (rutControlador_schema_valor (b_rutControlador body)) as H2.
  pose proof (z_enum_valor PAISES_VALIDOS pais_codigo (Some pais_errorMap)
                (b_paisPrincipal body)) as H3.
  pose proof (z_enum_valor MONEDAS_VALIDAS moneda_codigo (Some moneda_errorMap)
                (b_monedaBase body)) as H4.
  destruct (z_string nombre_checks (b_nombre body)) as [n e1].
  destruct (rutControlador_schema (b_rutControlador body)) as [r e2].
  destruct (z_enum PAISES_VALIDOS _ _ _) as [p e3].
  destruct (z_enum MONEDAS_VALIDAS _ _ _) as [m e4].
  cbn [snd] in *.
  destruct (at_key "nombre" e1 ++ at_key "rutControlador" e2
            ++ at_key "paisPrincipal" e3 ++ at_key "monedaBase" e4)
    as [|i0 resto] eqn:E.
  - left. split; [reflexivity|].
    apply app_nil_4 in E. destruct E as [E1 [E2 [E3 E4]]].
    apply at_key_nil in E1, E2, E3, E4. subst.
    destruct (H1 eq_refl) as [s [_ [_ Hn]]]. injection Hn as ->.
    destruct (H2 eq_refl) as [r0 [Hr _]]. injection Hr as ->.
    destruct (H3 eq_refl) as [p0 [Hp _]]. injection Hp as ->.
    destruct (H4 eq_refl) as [m0 [Hm _]]. injection Hm as ->.
    eexists. reflexivity.
  - right. split; [discriminate|].
    now destruct n, r, p, m.
Qed.

Lemma mensajes_at_key (k k' : string) (msgs : list ZodMessage) :
  map issue_message
    (filter (fun e => String.eqb (join_path (path e)) k) (at_key k' msgs))
  = if String.eqb k' k then msgs else [].
Proof.
  unfold at_key. induction msgs as [|m r IH]; cbn.
  - now destruct (String.eqb k' k).
  - destruct (String.eqb k' k) eqn:E; cbn; now rewrite IH.
Qed.

(** X13: the create schema validates all fields together.  A body is
    rejected exactly when some field raises an issue; the request is then
    answered 400 VALIDATION_ERROR without reaching the service or the
    database, and the details list, under each field's name, all of that
    field's messages, whatever the other fields are. *)
Theorem post_grupos_valida_todos_los_campos
  (body : Body) (userId : Z) (db : DB) :
  (issues_create body = [] /\ exists d, CreateGrupoSchema body = Ok d)
  \/ (issues_create body <> []
      /\ exists r det,
           post_grupos body userId db = (SendError r, db)
           /\ status r = 400 /\ eb_code (error r) = "VALIDATION_ERROR"
           /\ eb_details (error r) = Some det
           /\ mensajes_de "nombre" det = issues_nombre body
           /\ mensajes_de "rutControlador" det = issues_rutControlador body
           /\ mensajes_de "paisPrincipal" det = issues_paisPrincipal body
           /\ mensajes_de "monedaBase" det = issues_monedaBase body).
Proof.
  destruct (CreateGrupoSchema_casos body) as [H | [Hne Ht]]; [now left|].
  right. split; [exact Hne|].
  destruct (detalles_fold (issues_create body) [] (NoDup_nil _))
    as [_ [_ H3]]; [intros k ms []|].
  unfold post_grupos, responder, bind, lift. rewrite Ht.
  do 2 eexists. split; [reflexivity|].
  cbn [errorHandler status error eb_code eb_details handleZodError
       ValidationError details].
  split; [reflexivity|]. split; [reflexivity|]. split; [reflexivity|].
  rewrite !H3. unfold issues_create.
  rewrite !filter_app, !map_app, !mensajes_at_key. cbn.
  rewrite !app_nil_r. repeat split.
Qed.

Lemma CreateGrupoSchema_ok (body : Body) (d : CreateGrupoDto) :
  CreateGrupoSchema body = Ok d ->
  z_string nombre_checks (b_nombre body) = (Some (c_nombre d), [])
  /\ rutControlador_schema (b_rutControlador body)
     = (Some (c_rutControlador d), [])
  /\ z_enum PAISES_VALIDOS pais_codigo (Some pais_errorMap)
       (b_paisPrincipal body) = (Some (c_paisPrincipal d), [])
  /\ z_enum MONEDAS_VALIDAS moneda_codigo (Some moneda_errorMap)
       (b_monedaBase body) = (Some (c_monedaBase d), []).
Proof.
  unfold CreateGrupoSchema.
  destruct (z_string nombre_checks (b_nombre body)) as [n e1].
  destruct (rutControlador_schema (b_rutControlador body)) as [r e2].
  destruct (z_enum PAISES_VALIDOS _ _ _) as [p e3].
  destruct (z_enum MONEDAS_VALIDAS _ _ _) as [m e4].
  destruct (at_key "nombre" e1 ++ at_key "rutControlador" e2
            ++ at_key "paisPrincipal" e3 ++ at_key "monedaBase" e4)
    as [|i0 resto] eqn:E; [|discriminate].
  apply app_nil_4 in E. destruct E as [E1 [E2 [E3 E4]]].
  apply at_key_nil in E1, E2, E3, E4. subst.
  destruct n, r, p, m; try discriminate.
  intros H. injection H as <-. cbn. repeat split.
Qed.

Lemma trimStart_longitud (s : JsString) :
  (List.length (trimStart s) <= List.length s)%nat.
Proof.
  induction s as [|c r IH]; cbn; [lia|].
  destruct (is_white_space c); cbn; lia.
Qed.

Lemma trim_longitud (s : JsString) : js_length (trim s) <= js_length s.
Proof.
  unfold js_length, trim, trimEnd. rewrite length_rev.
  pose proof (trimStart_longitud (rev (trimStart s))) as H1.
  rewrite length_rev in H1.
  pose proof (trimStart_longitud s). lia.
Qed.

Lemma CreateGrupoSchema_decodifica_aux (body : Body) (d : CreateGrupoDto) :
  CreateGrupoSchema body = Ok d ->
  exists s, 3 <= js_length s <= 200 /\ c_nombre d = trim s
            /\ rut_dto_admitido (c_rutControlador d).
Proof.
  intros H. destruct (CreateGrupoSchema_ok body d H) as [H1 [H2 _]].
  destruct (z_string_nombre_valor (b_nombre body)) as [s [_ [Hl Hn]]];
    [now rewrite H1|].
  rewrite H1 in Hn. injection Hn as Hn.
  destruct (rutControlador_schema_valor (b_rutControlador body))
    as [r [Hr [Hra _]]]; [now rewrite H2|].
  rewrite H2 in Hr. injection Hr as <-.
  now exists s.
Qed.

(** X14: what the create schema accepts, it decodes faithfully.  When
    [CreateGrupoSchema] returns a DTO, the body's name is a string of 3 to
    200 code units and the DTO's name is that string trimmed (so at most
    200 code units long); the tax id is the one sent, and is absent, empty
    or twelve decimal digits; country and currency are the enum members
    whose codes were sent. *)
Theorem CreateGrupoSchema_decodifica (body : Body) (d : CreateGrupoDto) :
  CreateGrupoSchema body = Ok d ->
  (exists s, b_nombre body = JString s /\ 3 <= js_length s <= 200
             /\ c_nombre d = trim s)
  /\ js_length (c_nombre d) <= 200
  /\ rut_dto_admitido (c_rutControlador d)
  /\ b_rutControlador body = match c_rutControlador d with
                             | Some s => JString s
                             | None => JUndefined
                             end
  /\ b_paisPrincipal body = JString (lit (pais_codigo (c_paisPrincipal d)))
  /\ b_monedaBase body = JString (lit (moneda_codigo (c_monedaBase d))).
Proof.
  intros H. destruct (CreateGrupoSchema_ok body d H) as [H1 [H2 [H3 H4]]].
  destruct (z_string_nombre_valor (b_nombre body)) as [s [Hs [Hl Hn]]];
    [now rewrite H1|].
  rewrite H1 in Hn. injection Hn as Hn.
  destruct (rutControlador_schema_valor (b_rutControlador body))
    as [r [Hr [Hra Hrb]]]; [now rewrite H2|].
  rewrite H2 in Hr. injection Hr as <-.
  destruct (z_enum_valor PAISES_VALIDOS pais_codigo (Some pais_errorMap)
              (b_paisPrincipal body)) as [p [Hp [Hpb _]]]; [now rewrite H3|].
  rewrite H3 in Hp. injection Hp as <-.
  destruct (z_enum_valor MONEDAS_VALIDAS moneda_codigo (Some moneda_errorMap)
              (b_monedaBase body)) as [m [Hm [Hmb _]]]; [now rewrite H4|].
  rewrite H4 in Hm. injection Hm as <-.
  split; [now exists s|].
  split; [rewrite Hn; pose proof (trim_longitud s); lia|].
  repeat split; assumption.
Qed.

Lemma CreateGrupoSchema_decodifica_witness :
  js_length (c_nombre dto_acme) <= 200
  /\ rut_dto_admitido (c_rutControlador dto_acme).
Proof.
  destruct (CreateGrupoSchema_decodifica
              (cuerpo (JString (lit "  Acme Holdings ")) "UY" "UYU")
              dto_acme eq_refl) as [_ [H1 [H2 _]]].
  split; assumption.
Defined.

(** X15: every well-formed DTO goes through the create schema unchanged.
    A DTO whose name is trimmed and 3 to 200 code units long and whose tax
    id is absent, empty or twelve decimal digits, sent as a JSON body, is
    accepted by [CreateGrupoSchema] and parsed back to itself, for every
    country and currency of the enums. *)
Theorem CreateGrupoSchema_ida_y_vuelta (d : CreateGrupoDto) :
  3 <= js_length (c_nombre d) <= 200 ->
  trim (c_nombre d) = c_nombre d ->
  rut_dto_admitido (c_rutControlador d) ->
  CreateGrupoSchema (cuerpo_de d) = Ok d.
Proof.
  destruct d as [n r p m]. cbn [c_nombre c_rutControlador].
  intros Hl Ht Hr.
  unfold CreateGrupoSchema, cuerpo_de, z_string.
  cbn [b_nombre b_rutControlador b_paisPrincipal b_monedaBase
       c_nombre c_rutControlador c_paisPrincipal c_monedaBase].
  rewrite run_checks_nombre, Ht.
  replace (js_length n <? 3) with false by (symmetry; apply Z.ltb_ge; lia).
  replace (js_length n >? 200) with false
    by (symmetry; rewrite Z.gtb_ltb; apply Z.ltb_ge; lia).
  assert (Hrut : rutControlador_schema
                   match r with Some s => JString s | None => JUndefined end
                 = (Some r, [])).
  { unfold rutControlador_schema, z_or, z_optional, z_string, z_literal_empty.
    destruct r as [s|]; [|reflexivity]. cbn.
    destruct Hr as [-> | Hr]; [reflexivity|]. now rewrite Hr. }
  rewrite Hrut.
  assert (Hp : z_enum PAISES_VALIDOS pais_codigo (Some pais_errorMap)
                 (JString (lit (pais_codigo p))) = (Some p, []))
    by (destruct p; reflexivity).
  assert (Hm : z_enum MONEDAS_VALIDAS moneda_codigo (Some moneda_errorMap)
                 (JString (lit (moneda_codigo m))) = (Some m, []))
    by (destruct m; reflexivity).
  rewrite Hp, Hm. reflexivity.
Qed.

Lemma CreateGrupoSchema_ida_y_vuelta_witness :
  CreateGrupoSchema (cuerpo_de dto_acme) = Ok dto_acme.
Proof.
  apply CreateGrupoSchema_ida_y_vuelta.
  - cbn. lia.
  - reflexivity.
  - exact I.
Defined.

(** ** What the routes let into the table *)

Lemma trimStart_idem (s : JsString) : trimStart (trimStart s) = trimStart s.
Proof.
  induction s as [|c r IH]; [reflexivity|]. cbn.
  destruct (is_white_space c) eqn:E; [exact IH|]. cbn. now rewrite E.
Qed.

Lemma trimStart_cabeza (s : JsString) :
  trimStart s = []
  \/ exists c r, trimStart s = c :: r /\ is_white_space c = false.
Proof.
  induction s as [|c r IH]; [now left|]. cbn.
  destruct (is_white_space c) eqn:E; [exact IH|].
  right. now exists c, r.
Qed.

Lemma trimStart_final (l : JsString) (c : N) :
  is_white_space c = false -> trimStart (l ++ [c]) = trimStart l ++ [c].
Proof.
  intros Hc. induction l as [|h t IH]; cbn.
  - now rewrite Hc.
  - destruct (is_white_space h); [exact IH | reflexivity].
Qed.

Lemma trim_idem (s : JsString) : trim (trim s) = trim s.
Proof.
  unfold trim.
  assert (H4 : trimStart (trimEnd (trimStart s)) = trimEnd (trimStart s)).
  { destruct (trimStart_cabeza s) as [-> | [c [r [-> Hc]]]]; [reflexivity|].
    unfold trimEnd. cbn [rev]. rewrite (trimStart_final _ _ Hc).
    rewrite rev_unit. cbn. now rewrite Hc. }
  rewrite H4. unfold trimEnd. now rewrite rev_involutive, trimStart_idem.
Qed.

Lemma z_optional_nombre_valor (input : Json) :
  snd (z_optional (z_string nombre_checks) input) = [] ->
  exists v,
    z_optional (z_string nombre_checks) input = (Some v, [])
    /\ (v = None
        \/ exists s, v = Some (trim s) /\ 3 <= js_length s <= 200).
Proof.
  pose proof (z_string_nombre_valor input) as H1.
  unfold z_optional.
  destruct input as [| |b|n|s| |];
    try (destruct (z_string nombre_checks _) as [v e1]; cbn [snd] in *;
         intros He; subst e1; destruct (H1 eq_refl) as [s0 [Hs [Hl Hz]]];
         injection Hz as ->; exists (Some (trim s0));
         split; [reflexivity | right; now exists s0]).
  intros _. exists None. split; [reflexivity | now left].
Qed.

Lemma UpdateGrupoSchema_ok (body : Body) (d : UpdateGrupoDto) :
  UpdateGrupoSchema body = Ok d ->
  (u_nombre d = None
   \/ exists s, u_nombre d = Some (trim s) /\ 3 <= js_length s <= 200)
  /\ rut_dto_admitido (u_rutControlador d).
Proof.
  unfold UpdateGrupoSchema.
  pose proof (z_optional_nombre_valor (b_nombre body)) as H1.
  pose proof (rutControlador_schema_valor (b_rutControlador body)) as H2.
  destruct (z_optional (z_string nombre_checks) (b_nombre body)) as [n e1].
  destruct (rutControlador_schema (b_rutControlador body)) as [r e2].
  destruct (z_optional (z_enum PAISES_VALIDOS _ _) _) as [p e3].
  destruct (z_optional (z_enum MONEDAS_VALIDAS _ _) _) as [m e4].
  destruct (z_optional z_boolean _) as [a e5].
  cbn [snd] in H1, H2.
  destruct (at_key "nombre" e1 ++ _) as [|i0 resto] eqn:E; [|discriminate].
  apply app_eq_nil in E. destruct E as [E1 E].
  apply app_eq_nil in E. destruct E as [E2 _].
  apply at_key_nil in E1, E2. subst e1 e2.
  destruct n, r, p, m, a; try discriminate.
  intros H. injection H as <-. cbn [u_nombre u_rutControlador].
  destruct (H1 eq_refl) as [v [Hv Hn]]. injection Hv as <-.
  destruct (H2 eq_refl) as [r0 [Hr [Hra _]]]. injection Hr as <-.
  split; assumption.
Qed.

Lemma create_fila (d : CreateGrupoDto) (u : Z) (db : DB) :
  grupos (snd (create d u db)) = grupos db
  \/ exists g,
       grupos (snd (create d u db)) = grupos db ++ [g]
       /\ nombre g = c_nombre d
       /\ rutControlador g = match c_rutControlador d with
                             | Some r => if truthy r then Some r else None
                             | None => None
                             end.
Proof.
  unfold create, transaction, create_body, bind, grupoEconomico_create,
    usuarioGrupo_create, configuracionContable_create, planDeCuentas_create,
    query.
  cbn [id nombre].
  repeat match goal with
         | |- context [if ?c then _ else _] => destruct c; cbn
         end; try (now left).
  right. eexists. split; [reflexivity|]. split; reflexivity.
Qed.

Lemma actualizar_estado_valido (i : Z) (d : UpdateGrupoDto) (u : Z) (db : DB) :
  snd (actualizar i d u db) = db
  \/ exists g, grupoEconomico_findUnique i db = Some g
               /\ revisar_patch d = Ok tt
               /\ snd (actualizar i d u db) =
                  set_grupos (reemplazar i (update_data d g) (grupos db))
                             (seq_grupos db) db.
Proof.
  destruct (exists_valor i db) as [b0 H0].
  destruct (verificarAcceso_valor i u db) as [b Hb].
  rewrite (actualizar_casos i d u db b0 b H0 Hb).
  destruct b0; cbn [negb]; [|now left].
  destruct b; cbn [negb]; [|now left].
  destruct (revisar_patch d) as [[]|e]; [|now left].
  destruct (update_estado i d db) as [H | [g [Hg H]]]; [now left|].
  right. now exists g.
Qed.

Lemma nombre_admitido_trim (s : JsString) :
  3 <= js_length s <= 200 ->
  (truthy (trim s) && (js_length (trim (trim s)) <? 3)) = false ->
  nombre_admitido (trim s).
Proof.
  intros Hl Hv. unfold nombre_admitido.
  destruct (trim s) as [|c r] eqn:E; [now left|].
  right. rewrite <- E in *. rewrite trim_idem in *.
  cbn [andb] in Hv. rewrite E in Hv at 1. cbn [truthy andb] in Hv.
  apply Z.ltb_ge in Hv. pose proof (trim_longitud s).
  repeat split; [lia | lia].
Qed.

Lemma rut_admitido_almacenado (r : option JsString) :
  rut_dto_admitido r ->
  rut_admitido match r with
               | Some s => if truthy s then Some s else None
               | None => None
               end.
Proof.
  destruct r as [[|c s]|]; cbn; try tauto.
  intros [H | H]; [discriminate | exact H].
Qed.

Lemma atender_filas_admitidas (p : Peticion) (db : DB) :
  Forall fila_admitida (grupos db) ->
  Forall fila_admitida (grupos (atender p db)).
Proof.
  intros Hdb.
  assert (Hre : forall i g g',
             grupoEconomico_findUnique i db = Some g ->
             (fila_admitida g -> fila_admitida g') ->
             Forall fila_admitida
               (grupos (set_grupos (reemplazar i g' (grupos db))
                                   (seq_grupos db) db))).
  { intros i g g' Hg Hgg. cbn [grupos set_grupos].
    apply Forall_forall. intros x Hx. apply In_reemplazar in Hx.
    destruct Hx as [-> | Hx].
    - apply Hgg. apply (proj1 (Forall_forall _ _) Hdb).
      now apply findUnique_In in Hg.
    - now apply (proj1 (Forall_forall _ _) Hdb). }
  destruct p as [f u | i u | body u | i body u | i u]; cbn [atender];
    rewrite ?get_grupos_no_escribe.
  - exact Hdb.
  - unfold get_grupo, responder.
    pose proof (obtenerPorId_no_escribe i u db) as H.
    destruct (obtenerPorId i u db) as [[r|e] db']; cbn [snd] in *; now subst.
  - unfold post_grupos, responder, bind, lift.
    destruct (CreateGrupoSchema body) as [d|e] eqn:Es; [|exact Hdb].
    destruct (CreateGrupoSchema_decodifica_aux body d Es) as [s [Hl [Hn Hr]]].
    assert (Hc : Forall fila_admitida (grupos (snd (crear d u db)))).
    { unfold crear, bind, lift.
      destruct (validarDatosGrupo (partial_of_create d)) as [[]|e] eqn:Ev;
        [|exact Hdb].
      destruct (create_fila d u db) as [H | [g [H [Hgn Hgr]]]]; rewrite H;
        [exact Hdb|].
      apply Forall_app. split; [exact Hdb|]. constructor; [|constructor].
      split.
      - rewrite Hgn, Hn. apply nombre_admitido_trim; [exact Hl|].
        unfold validarDatosGrupo, partial_of_create in Ev.
        cbn [p_nombre] in Ev. rewrite Hn in Ev.
        now destruct (truthy (trim s) && _).
      - rewrite Hgr. now apply rut_admitido_almacenado. }
    destruct (crear d u db) as [[r|e] db']; exact Hc.
  - unfold put_grupo, responder, bind, lift.
    destruct (UpdateGrupoSchema body) as [d|e] eqn:Es; [|exact Hdb].
    destruct (UpdateGrupoSchema_ok body d Es) as [Hn Hr].
    assert (Hc : Forall fila_admitida (grupos (snd (actualizar i d u db)))).
    { destruct (actualizar_estado_valido i d u db) as [H | [g [Hg [Hv H]]]];
        rewrite H; [exact Hdb|].
      apply (Hre i g); [exact Hg|]. intros [Hgn Hgr]. split.
      - cbn [nombre update_data].
        destruct Hn as [Hn | [s [Hn Hl]]]; rewrite Hn; [exact Hgn|].
        destruct (truthy (trim s)) eqn:Et; [|exact Hgn].
        apply nombre_admitido_trim; [exact Hl|].
        unfold revisar_patch, validarDatosGrupo, partial_of_update in Hv.
        rewrite Hn in Hv. cbn [truthy_opt p_nombre orb] in Hv.
        rewrite Et in Hv. cbn [orb] in Hv.
        rewrite Et. cbn [andb] in *.
        now destruct (js_length (trim (trim s)) <? 3).
      - cbn [rutControlador update_data].
        destruct (u_rutControlador d) as [r|]; [|exact Hgr].
        now apply (rut_admitido_almacenado (Some r)). }
    destruct (actualizar i d u db) as [[r|e] db']; exact Hc.
  - unfold delete_grupo, responder.
    assert (Hc : Forall fila_admitida (grupos (snd (eliminar i u db)))).
    { destruct (eliminar_estado i u db) as [H | [g [Hg H]]]; rewrite H;
        [exact Hdb|].
      apply (Hre i g); [exact Hg|]. now intros [Hgn Hgr]. }
    destruct (eliminar i u db) as [[r|e] db']; exact Hc.
Qed.

(** X16: what the routes let into the table.  Along every sequence of
    requests to the five handlers, with any bodies, every stored group
    keeps a name that is either empty or trimmed and 3 to 200 code units
    long (never 1 or 2, never above the 200 of the column) and a tax id
    that is either null or exactly twelve decimal digits (never the empty
    string). *)
Theorem filas_admitidas_se_conservan (ps : list Peticion) (db : DB) :
  Forall fila_admitida (grupos db) ->
  Forall fila_admitida (grupos (atender_todas ps db)).
Proof.
  revert db. induction ps as [|p ps IH]; intros db Hdb; [exact Hdb|].
  cbn [atender_todas fold_left]. apply IH. now apply atender_filas_admitidas.
Qed.

Lemma filas_admitidas_se_conservan_witness :
  Forall fila_admitida
    (grupos (atender_todas
               [POST_grupos (cuerpo (JString (lit "   ")) "UY" "UYU") 1;
                POST_grupos (cuerpo_completo " Acme " "217890120018" "UY" "USD") 1;
                PUT_grupo 2 (cuerpo_completo "  ab  " "" "AR" "ARS") 1;
                PUT_grupo 2 (cuerpo_completo "Beta" "" "AR" "ARS") 1;
                DELETE_grupo 1 1]
               db_usuarios)).
Proof.
  apply filas_admitidas_se_conservan. constructor.
Defined.

(** ** The status of every answer *)

Lemma create_errores (d : CreateGrupoDto) (u : Z) (db db' : DB) (e : Thrown) :
  create d u db = (Throw e, db') ->
  e = ThrowPrisma P2003 \/ exists t, e = ThrowPrisma (P2002 t).
Proof.
  unfold create, transaction.
  destruct (create_body d u db) as [[r1|e1] db1] eqn:E; [discriminate|].
  intros H. injection H as <- _. revert E.
  unfold create_body, bind, grupoEconomico_create, usuarioGrupo_create,
    configuracionContable_create, planDeCuentas_create, query.
  cbn [id nombre].
  repeat match goal with
         | |- context [if ?c then _ else _] => destruct c; cbn
         end; intros H; try discriminate; injection H as <- _;
    try (now left); right; eexists; reflexivity.
Qed.

Lemma create_sin_conflicto (d : CreateGrupoDto) (u : Z) (db : DB) :
  id_siguiente_libre u db = true ->
  (exists r, fst (create d u db) = Ok r)
  \/ fst (create d u db) = Throw (ThrowPrisma P2003).
Proof.
  intros Hl. destruct (existe_usuario u db) eqn:Hu.
  - left. destruct (create_exito d u db Hu Hl) as [r [db' [Hc _]]].
    exists (Some r). now rewrite Hc.
  - right. unfold create, transaction, create_body, bind,
      grupoEconomico_create, usuarioGrupo_create.
    cbn [id].
    replace (existe_usuario u (set_grupos _ _ db)) with false
      by (symmetry; exact Hu).
    reflexivity.
Qed.

Lemma estado_BusinessRule {A} (regla : option string) (e : Thrown) :
  es_BusinessRule regla (@Throw A e) -> status (errorHandler e) = 422.
Proof.
  intros [x [Hx [_ [Hs _]]]]. injection Hx as ->. exact Hs.
Qed.

(** When [findMany] throws, Prisma has rejected [skip] or [take], which a
    query in range with a whole page and limit does not cause. *)
Lemma findMany_lanza (f : ListGruposQuery) (db db' : DB) (e : Thrown) :
  findMany f db = (Throw e, db') ->
  e = ThrowPrisma PrismaOther /\ db' = db
  /\ (consulta_valida f ->
      entero (page f) = None \/ entero (limit f) = None).
Proof.
  intros Ef. split; [|split].
  - rewrite findMany_casos in Ef.
    destruct (entero (js_mul _ _)) as [s|];
      [destruct (entero (limit f)) as [t|]; [destruct (s <? 0)|]|];
      congruence.
  - pose proof (findMany_no_escribe f db) as H. now rewrite Ef in H.
  - intros [Hp Hl].
    destruct (entero (page f)) as [pg|] eqn:Ep; [|now left].
    destruct (entero (limit f)) as [lm|] eqn:El; [|now right].
    exfalso.
    rewrite (page_refine_entero _ _ Ep) in Hp. apply Z.ltb_lt in Hp.
    rewrite (limit_refine_entero _ _ El) in Hl.
    apply andb_true_iff in Hl. destruct Hl as [Hl _]. apply Z.ltb_lt in Hl.
    rewrite (findMany_enteros f pg lm db Ep El) in Ef by lia.
    discriminate.
Qed.

(** The answers of the handlers from the service call on. *)
Lemma estados_de_los_handlers (p : Peticion) (db : DB) :
  match p with
  | GET_grupos f _ =>
      In (estado_http p db) [200; 500]
      /\ (estado_http p db = 500 -> consulta_valida f ->
          entero (page f) = None \/ entero (limit f) = None)
  | GET_grupo _ _ => In (estado_http p db) [200; 403; 404]
  | POST_grupos _ _ =>
      In (estado_http p db) [201; 400; 409; 422]
      /\ (bien_formada db -> estado_http p db <> 409)
  | PUT_grupo _ _ _ => In (estado_http p db) [200; 400; 403; 404; 422]
  | DELETE_grupo _ _ => In (estado_http p db) [200; 403; 404; 422]
  end
  /\ (estado_http p db >= 400 -> mismas_filas (atender p db) db).
Proof.
  assert (Hmf : mismas_filas db db) by (repeat split).
  destruct p as [f u | i u | body u | i body u | i u];
    cbn [estado_http atender].
  - rewrite get_grupos_no_escribe. split; [|intros _; exact Hmf].
    unfold get_grupos, responder, listar.
    destruct (findMany f db) as [[r|e] db'] eqn:Ef.
    + cbn. split; [tauto | discriminate].
    + destruct (findMany_lanza f db db' e Ef) as [-> [_ Hv]].
      cbn. split; [tauto | intros _; exact Hv].
  - unfold get_grupo, responder. rewrite obtenerPorId_casos.
    destruct (grupoEconomico_findUnique i db) as [g|].
    + destruct (verificarAcceso_valor i u db) as [b Hb]. rewrite Hb.
      destruct b; cbn; (split; [tauto | intros _; exact Hmf]).
    + cbn. split; [tauto | intros _; exact Hmf].
  - unfold post_grupos, responder, bind, lift.
    destruct (CreateGrupoSchema body) as [d|e] eqn:Es.
    + unfold crear, bind, lift.
      destruct (validarDatosGrupo (partial_of_create d)) as [[]|e] eqn:Ev.
      * pose proof (create_resultado d u db) as Hr.
        pose proof (create_errores d u db) as He.
        pose proof (create_sin_conflicto d u db) as Hs.
        destruct (create d u db) as [[r|e] db'] eqn:Ec; cbn [fst snd reply_status].
        -- split; [split; [cbn; tauto | discriminate]|]. lia.
        -- destruct (He db' e eq_refl) as [-> | [t ->]].
           ++ split; [split; [cbn; tauto | cbn; discriminate]|].
              intros _. exact Hr.
           ++ split; [split; [cbn; tauto|] | intros _; exact Hr].
              intros Hbf. exfalso.
              destruct (Hs (bien_formada_libre u db Hbf)) as [[r Hx] | Hx];
                cbn in Hx; discriminate.
      * destruct (validarDatosGrupo_error _ _ Ev) as [regla Hbr].
        cbn [fst snd reply_status].
        rewrite (estado_BusinessRule (A := GrupoActualizado) regla e Hbr).
        split; [split; [cbn; tauto | discriminate] | intros _; exact Hmf].
    + unfold CreateGrupoSchema in Es.
      destruct (z_string _ _) as [n e1], (rutControlador_schema _) as [r e2],
        (z_enum PAISES_VALIDOS _ _ _) as [pa e3],
        (z_enum MONEDAS_VALIDAS _ _ _) as [m e4].
      assert (Hz : exists issues, e = ThrowZod issues).
      { destruct (at_key "nombre" e1 ++ _), n, r, pa, m;
          try discriminate; injection Es as <-; eexists; reflexivity. }
      destruct Hz as [issues ->]. cbn.
      split; [split; [tauto | discriminate] | intros _; exact Hmf].
  - unfold put_grupo, responder, bind, lift.
    destruct (UpdateGrupoSchema body) as [d|e] eqn:Es.
    + destruct (exists_valor i db) as [b0 H0].
      destruct (verificarAcceso_valor i u db) as [b Hb].
      rewrite (actualizar_casos i d u db b0 b H0 Hb).
      destruct b0; cbn [negb];
        [|cbn; split; [tauto | intros _; exact Hmf]].
      destruct b; cbn [negb];
        [|cbn; split; [tauto | intros _; exact Hmf]].
      destruct (revisar_patch d) as [[]|e] eqn:Ev.
      * assert (Hex : existe_fila i db) by now apply exists_existe_fila.
        destruct (proj1 (existe_fila_findUnique i db) Hex) as [g Hg].
        destruct (update_ok i d db g Hg) as [r [Hr _]]. rewrite Hr.
        cbn. split; [tauto | lia].
      * assert (Hbr : exists regla,
                   es_BusinessRule regla (@Throw GrupoActualizado e)).
        { unfold revisar_patch in Ev.
          destruct (_ || _) in Ev; [|discriminate].
          exact (validarDatosGrupo_error _ _ Ev). }
        destruct Hbr as [regla Hbr]. cbn [fst snd reply_status].
        rewrite (estado_BusinessRule (A := GrupoActualizado) regla e Hbr).
        split; [cbn; tauto | intros _; exact Hmf].
    + unfold UpdateGrupoSchema in Es.
      destruct (z_optional (z_string _) _) as [n e1],
        (rutControlador_schema _) as [r e2],
        (z_optional (z_enum PAISES_VALIDOS _ _) _) as [pa e3],
        (z_optional (z_enum MONEDAS_VALIDAS _ _) _) as [m e4],
        (z_optional z_boolean _) as [a e5].
      assert (Hz : exists issues, e = ThrowZod issues).
      { destruct (at_key "nombre" e1 ++ _), n, r, pa, m, a;
          try discriminate; injection Es as <-; eexists; reflexivity. }
      destruct Hz as [issues ->]. cbn.
      split; [tauto | intros _; exact Hmf].
  - unfold delete_grupo, responder. rewrite eliminar_precedencia.
    destruct (grupoEconomico_findUnique i db) as [g|];
      [|cbn; split; [tauto | intros _; exact Hmf]].
    destruct (verificarAcceso_valor i u db) as [b Hb]. rewrite Hb.
    destruct b; [|cbn; split; [tauto | intros _; exact Hmf]].
    destruct (existsb er_activa _); cbn;
      (split; [tauto|]); [intros _; exact Hmf | lia].
Qed.

(** ** The routes *)

Lemma responder_lift {A B} (st : Z) (r : Res A) (k : A -> M B) (db : DB) :
  responder st (x <- lift r ;; k x) db =
  match r with
  | Ok a => responder st (k a) db
  | Throw e => (SendError (errorHandler e), db)
  end.
Proof. unfold responder, bind, lift. now destruct r. Qed.


Section EstadosDeLasRutas.

Variable Number : JsString -> JsNumber.
Variable nombre_leb : JsString -> JsString -> bool.

Lemma authenticateUser_casos (h : option JsString) (db : DB) :
  (exists e, authenticateUser Number h db = (Throw (ThrowApp e), db)
             /\ (statusCode e = 401 \/ statusCode e = 403))
  \/ (exists user, authenticateUser Number h db = (Ok user, db)).
Proof.
  unfold authenticateUser.
  destruct h as [s|]; [|left; eexists; split; [reflexivity | now left]].
  destruct (truthy s); cbn [negb];
    [|left; eexists; split; [reflexivity | now left]].
  destruct (entero (Number s)) as [i|];
    [|left; eexists; split; [reflexivity | now left]].
  destruct (find _ (usuarios db)) as [usuario|];
    [|left; eexists; split; [reflexivity | now left]].
  destruct (us_activo usuario); cbn [negb];
    [|left; eexists; split; [reflexivity | now right]].
  destruct (filter _ (usuariosGrupos db)) as [|x xs];
    [left; eexists; split; [reflexivity | now right]|].
  right. eexists. reflexivity.
Qed.


Lemma ruta_casos {A} (st : Z) (h : option JsString)
  (handler : RequestUser -> M A) (db : DB) :
  ruta Number st h handler db =
  match authenticateUser Number h db with
  | (Ok user, db') => responder st (handler user) db'
  | (Throw e, db') => (SendError (errorHandler e), db')
  end.
Proof.
  unfold ruta, responder, bind.
  now destruct (authenticateUser Number h db) as [[user|e] db'].
Qed.

Lemma z_numero_valor (d : string) (ok : JsNumber -> bool) (msg : string)
  (j : Json) (n : JsNumber) :
  z_numero Number d ok msg j = (Some n, []) -> ok n = true.
Proof.
  unfold z_numero. destruct j as [| |b|x|s| |]; try discriminate.
  - destruct (ok (Number (lit d))) eqn:E; [|discriminate].
    intros H. now injection H as <-.
  - destruct (ok (Number s)) eqn:E; [|discriminate].
    intros H. now injection H as <-.
Qed.

Lemma ListGruposQuerySchema_casos (q : Query) :
  (exists f, ListGruposQuerySchema Number q = Ok f /\ consulta_valida f)
  \/ (exists issues, ListGruposQuerySchema Number q = Throw (ThrowZod issues)).
Proof.
  destruct (ListGruposQuerySchema Number q) as [f|e] eqn:Es;
    unfold ListGruposQuerySchema in Es;
    destruct (z_numero Number "1" _ _ (qs_page q)) as [pg e1] eqn:E1;
    destruct (z_numero Number "10" _ _ (qs_limit q)) as [lm e2] eqn:E2;
    destruct (z_optional (z_string []) (qs_search q)) as [se e3];
    destruct (z_activo (qs_activo q)) as [ac e4];
    destruct (z_optional _ (qs_paisPrincipal q)) as [pa e5].
  - left. exists f. split; [reflexivity|].
    destruct (at_key "page" e1 ++ _) as [|x xs] eqn:Ei;
      [|destruct pg, lm, se, ac, pa; discriminate].
    destruct pg as [pg|], lm as [lm|], se, ac, pa; try discriminate.
    injection Es as <-. unfold consulta_valida. cbn [page limit].
    apply app_eq_nil in Ei. destruct Ei as [Ei1 Ei].
    apply app_eq_nil in Ei. destruct Ei as [Ei2 _].
    apply map_eq_nil in Ei1, Ei2. subst e1 e2.
    split; [exact (z_numero_valor _ _ _ _ _ E1)
           | exact (z_numero_valor _ _ _ _ _ E2)].
  - right.
    destruct (at_key "page" e1 ++ _), pg, lm, se, ac, pa;
      try discriminate; injection Es as <-; eexists; reflexivity.
Qed.

Lemma GrupoParamsSchema_casos (id_ : Json) :
  (exists x, id_ = JString x
             /\ GrupoParamsSchema JsNumber Number id_ = Ok (Number x))
  \/ (exists issues,
        GrupoParamsSchema JsNumber Number id_ = Throw (ThrowZod issues)).
Proof.
  unfold GrupoParamsSchema, z_string.
  destruct id_ as [| |b|n|s| |]; try (right; eexists; reflexivity).
  cbn [run_checks].
  destruct (id_regex s); [left; now exists s | right; eexists; reflexivity].
Qed.

(** The listing, for the caller the hook has resolved. *)
Lemma estados_listar (q : Query) (u : Z) (db : DB) :
  let R := responder 200
             (filters <- lift (ListGruposQuerySchema Number q) ;;
              listar filters u) db in
  In (reply_status (fst R)) [200; 400; 500]
  /\ (reply_status (fst R) = 500 ->
      exists f, ListGruposQuerySchema Number q = Ok f
                /\ (entero (page f) = None \/ entero (limit f) = None))
  /\ snd R = db.
Proof.
  cbn zeta. rewrite responder_lift.
  destruct (ListGruposQuerySchema_casos q) as [[f [Hf Hv]] | [issues Hz]].
  - rewrite Hf.
    destruct (estados_de_los_handlers (GET_grupos f u) db) as [[Hin H5] _].
    cbn [estado_http] in Hin, H5. unfold get_grupos in Hin, H5.
    split; [|split].
    + destruct Hin as [<- | [<- | []]]; cbn; tauto.
    + intros H. exists f. split; [reflexivity | now apply H5].
    + apply get_grupos_no_escribe.
  - rewrite Hz. cbn. split; [tauto|]. split; [discriminate | reflexivity].
Qed.

(** A route with an id, for the caller the hook has resolved: the answer is
    that of the handler on the integer id, or 400 when a parse fails, or
    500 when the id is no integer. *)
Lemma estados_con_id {A} (st : Z) (id_ : Json) (k : Z -> M A) (db : DB) :
  let R := responder st
             (n <- lift (GrupoParamsSchema JsNumber Number id_) ;;
              con_id n k) db in
  (exists i, R = responder st (k i) db)
  \/ (reply_status (fst R) = 400 /\ snd R = db)
  \/ (reply_status (fst R) = 500 /\ snd R = db
      /\ exists x, id_ = JString x /\ entero (Number x) = None).
Proof.
  cbn zeta. rewrite responder_lift.
  destruct (GrupoParamsSchema_casos id_) as [[x [Hx ->]] | [issues ->]].
  - unfold con_id. destruct (entero (Number x)) as [i|] eqn:E.
    + left. now exists i.
    + right. right. cbn. repeat split. now exists x.
  - right. left. cbn. now split.
Qed.


(** What a request leaves behind is what one of the handlers leaves, or
    nothing new. *)
Lemma atender_casos (p : Peticion) (db : DB) :
  atender p db = db \/ exists op, atender p db = ejecutar op db.
Proof.
  destruct p as [f u | i u | body u | i body u | i u]; cbn [atender].
  - left. apply get_grupos_no_escribe.
  - right. exists (OpObtenerPorId i u). unfold get_grupo.
    now rewrite responder_estado.
  - unfold post_grupos. rewrite responder_lift.
    destruct (CreateGrupoSchema body) as [d|e]; [|now left].
    right. exists (OpCrear d u). now rewrite responder_estado.
  - unfold put_grupo. rewrite responder_lift.
    destruct (UpdateGrupoSchema body) as [d|e]; [|now left].
    right. exists (OpActualizar i d u). now rewrite responder_estado.
  - right. exists (OpEliminar i u). unfold delete_grupo.
    now rewrite responder_estado.
Qed.

Lemma despues_de_casos (s : Solicitud) (db : DB) :
  despues_de Number nombre_leb s db = db
  \/ exists p, despues_de Number nombre_leb s db = atender p db.
Proof.
  destruct s as [h q | h | h i | h body | h i body | h i];
    cbn [despues_de];
    unfold ruta_get_grupos, ruta_get_mis_grupos, ruta_get_grupo,
      ruta_post_grupos, ruta_put_grupo, ruta_delete_grupo;
    rewrite ruta_casos;
    destruct (authenticateUser_casos h db) as [[e [-> _]] | [user ->]];
    try (now left).
  - left. now destruct (estados_listar q (ru_id user) db) as [_ [_ Hs]].
  - destruct (estados_con_id 200 i
                (fun i0 => obtenerPorId i0 (ru_id user)) db)
      as [[i0 ->] | [[_ ->] | [_ [-> _]]]]; try (now left).
    right. now exists (GET_grupo i0 (ru_id user)).
  - right. now exists (POST_grupos body (ru_id user)).
  - rewrite responder_lift.
    destruct (GrupoParamsSchema_casos i) as [[x [Hx ->]] | [issues ->]];
      [|now left].
    rewrite responder_lift.
    destruct (UpdateGrupoSchema body) as [d|e] eqn:Hd; [|now left].
    unfold con_id. destruct (entero (Number x)) as [i0|]; [|now left].
    right. exists (PUT_grupo i0 body (ru_id user)).
    cbn [atender]. unfold put_grupo. now rewrite responder_lift, Hd.
  - destruct (estados_con_id 200 i
                (fun i0 => eliminar i0 (ru_id user)) db)
      as [[i0 ->] | [[_ ->] | [_ [-> _]]]]; try (now left).
    right. now exists (DELETE_grupo i0 (ru_id user)).
Qed.

(** What every handler keeps, every request keeps. *)
Lemma despues_de_conserva (P : DB -> Prop) (s : Solicitud) (db : DB) :
  (forall p st, P st -> P (atender p st)) ->
  P db -> P (despues_de Number nombre_leb s db).
Proof.
  intros Hp Hdb.
  destruct (despues_de_casos s db) as [-> | [p ->]]; [exact Hdb|].
  now apply Hp.
Qed.

Lemma atender_solicitudes_conserva (P : DB -> Prop) (ss : list Solicitud)
  (db : DB) :
  (forall p st, P st -> P (atender p st)) ->
  P db -> P (atender_solicitudes Number nombre_leb ss db).
Proof.
  intros Hp. revert db. induction ss as [|s ss IH]; intros db Hdb;
    [exact Hdb|].
  cbn [atender_solicitudes fold_left]. apply IH.
  now apply despues_de_conserva.
Qed.

Lemma atender_conserva (P : DB -> Prop) (p : Peticion) (db : DB) :
  (forall op st, P st -> P (ejecutar op st)) ->
  P db -> P (atender p db).
Proof.
  intros Hop Hdb.
  destruct (atender_casos p db) as [-> | [op ->]]; [exact Hdb|].
  now apply Hop.
Qed.

(** X26: what the requests keep.  Along every sequence of requests to the
    routes, with any headers, queries, ids and bodies and whatever [Number]
    makes of a string, each of these holds afterwards when it held before:
    group ids are unique and no row refers to a group id above the
    sequence; every group has exactly one configuration, one chart of
    accounts and an ADMIN member; every stored name is empty or trimmed and
    3 to 200 code units long and every stored tax id null or twelve digits.
    And a group that exists keeps existing under its id with its creation
    time, and a member of a group stays one. *)
Theorem las_rutas_conservan (ss : list Solicitud) (db : DB) :
  (bien_formada db -> bien_formada (atender_solicitudes Number nombre_leb ss db))
  /\ (integra db -> integra (atender_solicitudes Number nombre_leb ss db))
  /\ (Forall fila_admitida (grupos db) ->
      Forall fila_admitida (grupos (atender_solicitudes Number nombre_leb ss db)))
  /\ (forall i g, grupoEconomico_findUnique i db = Some g ->
        exists g',
          grupoEconomico_findUnique i (atender_solicitudes Number nombre_leb ss db)
          = Some g'
          /\ id g' = id g /\ fechaCreacion g' = fechaCreacion g)
  /\ (forall u i, es_miembro u i db ->
        es_miembro u i (atender_solicitudes Number nombre_leb ss db)).
Proof.
  assert (Hs : forall P : DB -> Prop,
             (forall op st, P st -> P (ejecutar op st)) ->
             P db -> P (atender_solicitudes Number nombre_leb ss db)).
  { intros P Hop. apply atender_solicitudes_conserva.
    intros p st. now apply atender_conserva. }
  split; [|split; [|split; [|split]]].
  - apply (Hs bien_formada). intros op st. apply ejecutar_bien_formada.
  - apply (Hs integra). intros op st. apply ejecutar_integra.
  - apply (atender_solicitudes_conserva
             (fun st => Forall fila_admitida (grupos st))).
    intros p st. apply atender_filas_admitidas.
  - intros i g Hg.
    apply (Hs (fun st => exists g',
                   grupoEconomico_findUnique i st = Some g'
                   /\ id g' = id g /\ fechaCreacion g' = fechaCreacion g));
      [|now exists g].
    intros op st [g1 [H1 [Hid Hfe]]].
    destruct (ejecutar_conserva_fila op st i g1 H1) as [g2 [H2 [Hid2 Hfe2]]].
    exists g2. split; [exact H2 | split; congruence].
  - intros u i.
    apply (Hs (fun st => es_miembro u i st)).
    intros op st [x [Hin Hx]].
    destruct (ejecutar_usuariosGrupos op st) as [extra He].
    exists x. split; [|exact Hx]. rewrite He. apply in_or_app. now left.
Qed.

End EstadosDeLasRutas.



(** ** Updating twice, and updating nothing *)

Lemma update_data_idem (d : UpdateGrupoDto) (g : GrupoEconomico) :
  update_data d (update_data d g) = update_data d g.
Proof.
  unfold update_data. cbn.
  destruct (u_nombre d) as [n|]; [destruct (truthy n)|];
    destruct (u_rutControlador d) as [r|]; try destruct (truthy r);
    destruct (u_paisPrincipal d), (u_monedaBase d), (u_activo d);
    reflexivity.
Qed.

Lemma reemplazar_mismo (i : Z) (g : GrupoEconomico) (l : list GrupoEconomico) :
  find (fun x => id x =? i) l = Some g -> reemplazar i g l = l.
Proof.
  induction l as [|h t IH]; cbn; [reflexivity|].
  destruct (id h =? i); [intros H; now injection H as -> |].
  intros H. now rewrite IH.
Qed.

Lemma set_grupos_mismo (db : DB) : set_grupos (grupos db) (seq_grupos db) db = db.
Proof. now destruct db. Qed.

(** X18: updating is idempotent.  When [actualizar] returns, the same call
    on the database it left returns the same result and leaves that
    database unchanged. *)
Theorem actualizar_idempotente
  (i : Z) (d : UpdateGrupoDto) (u : Z) (db db1 : DB) (r : GrupoActualizado) :
  actualizar i d u db = (Ok r, db1) ->
  actualizar i d u db1 = (Ok r, db1).
Proof.
  destruct (exists_valor i db) as [b0 H0].
  destruct (verificarAcceso_valor i u db) as [b Hb].
  rewrite (actualizar_casos i d u db b0 b H0 Hb).
  destruct b0; cbn [negb]; [|discriminate].
  destruct b; cbn [negb]; [|discriminate].
  destruct (revisar_patch d) as [[]|e] eqn:Ev; [|discriminate].
  assert (Hex : existe_fila i db) by now apply exists_existe_fila.
  destruct (proj1 (existe_fila_findUnique i db) Hex) as [g Hg].
  pose proof (proj2 (findUnique_In _ _ _ Hg)) as Hid.
  unfold update, bind. rewrite (grupoEconomico_update_ok _ _ _ _ Hg).
  unfold query. intros H. injection H as <- <-.
  set (db1 := set_grupos _ _ db).
  assert (Hg1 : grupoEconomico_findUnique i db1 = Some (update_data d g)).
  { unfold grupoEconomico_findUnique in *. subst db1. cbn [grupos set_grupos].
    now apply find_reemplazar_mismo with (g := g). }
  assert (H01 : exists_ i db1 = (Ok true, db1)).
  { apply exists_existe_fila. apply existe_fila_findUnique. eauto. }
  assert (Hb1 : verificarAccesoUsuario i u db1 = (Ok true, db1)).
  { apply verificarAcceso_miembro. apply verificarAcceso_miembro in Hb.
    exact Hb. }
  rewrite (actualizar_casos i d u db1 true true H01 Hb1). cbn [negb].
  rewrite Ev. unfold update, bind.
  rewrite (grupoEconomico_update_ok _ _ _ _ Hg1). unfold query.
  rewrite update_data_idem.
  assert (Hdb : set_grupos (reemplazar i (update_data d g) (grupos db1))
                           (seq_grupos db1) db1 = db1).
  { rewrite reemplazar_mismo; [apply set_grupos_mismo | exact Hg1]. }
  rewrite Hdb. reflexivity.
Qed.

Lemma actualizar_idempotente_witness :
  exists r db1,
    actualizar 1 (patch_nombre "Grupo Persistido") 1 db_acme = (Ok r, db1)
    /\ actualizar 1 (patch_nombre "Grupo Persistido") 1 db1 = (Ok r, db1).
Proof.
  do 2 eexists. split; [reflexivity|].
  apply (actualizar_idempotente 1 (patch_nombre "Grupo Persistido") 1 db_acme).
  reflexivity.
Defined.

(** X19: an empty patch changes nothing.  The update schema accepts the
    empty body; for an existing group and a member, [PUT] with it is
    answered 200 with the stored group and leaves the database exactly as
    it was. *)
Theorem put_vacio_no_cambia_nada (i u : Z) (db : DB) (g : GrupoEconomico) :
  grupoEconomico_findUnique i db = Some g ->
  es_miembro u i db ->
  UpdateGrupoSchema cuerpo_vacio = Ok patch_vacio
  /\ exists r, put_grupo i cuerpo_vacio u db = (Send 200 r, db)
               /\ grupo r = g.
Proof.
  intros Hg Hm. split; [reflexivity|].
  assert (H0 : exists_ i db = (Ok true, db)).
  { apply exists_existe_fila. apply existe_fila_findUnique. eauto. }
  apply verificarAcceso_miembro in Hm.
  unfold put_grupo, responder, bind, lift.
  change (UpdateGrupoSchema cuerpo_vacio) with (Ok patch_vacio).
  cbv beta iota.
  change ((fun db0 => match (Ok patch_vacio, db0) with
                      | (Ok a, db') => actualizar i a u db'
                      | (Throw e, db') => (Throw e, db')
                      end) db)
    with (actualizar i patch_vacio u db).
  rewrite (actualizar_casos i patch_vacio u db true true H0 Hm).
  cbn [negb]. change (revisar_patch patch_vacio) with (Ok tt).
  cbv iota. unfold update, bind.
  rewrite (grupoEconomico_update_ok _ _ _ _ Hg). unfold query.
  assert (Hu : update_data patch_vacio g = g) by now destruct g.
  rewrite Hu, reemplazar_mismo by exact Hg. rewrite set_grupos_mismo.
  eexists. split; reflexivity.
Qed.

Lemma put_vacio_no_cambia_nada_witness :
  exists r, put_grupo 1 cuerpo_vacio 1 db_acme = (Send 200 r, db_acme).
Proof.
  destruct (put_vacio_no_cambia_nada 1 1 db_acme _ eq_refl) as [_ [r [Hr _]]].
  - fila_concreta.
  - now exists r.
Defined.

(** ** The groups of a user *)

Section MisGruposProps.

Variable nombre_leb : JsString -> JsString -> bool.

Lemma insertar_asc_perm (g : GrupoEconomico) (l : list GrupoEconomico) :
  Permutation (insertar_asc nombre_leb g l) (g :: l).
Proof.
  induction l as [|h t IH]; cbn; [reflexivity|].
  destruct (nombre_leb (nombre g) (nombre h)); [reflexivity|].
  rewrite IH. apply perm_swap.
Qed.

Lemma orderBy_nombre_perm (l : list GrupoEconomico) :
  Permutation (orderBy_nombre_asc nombre_leb l) l.
Proof.
  induction l as [|h t IH]; cbn; [reflexivity|].
  rewrite insertar_asc_perm. now constructor.
Qed.

Hypothesis nombre_leb_total :
  forall a b, nombre_leb a b = true \/ nombre_leb b a = true.
Hypothesis nombre_leb_trans :
  forall a b c, nombre_leb a b = true -> nombre_leb b c = true ->
                nombre_leb a c = true.

Lemma insertar_asc_sorted (g : GrupoEconomico) (l : list GrupoEconomico) :
  StronglySorted (fun x y => nombre_leb (nombre x) (nombre y) = true) l ->
  StronglySorted (fun x y => nombre_leb (nombre x) (nombre y) = true)
    (insertar_asc nombre_leb g l).
Proof.
  induction l as [|h t IH]; cbn; intros Hs.
  - constructor; [constructor | constructor].
  - inversion Hs as [|h' t' Ht Hh]; subst.
    destruct (nombre_leb (nombre g) (nombre h)) eqn:E.
    + constructor; [exact Hs|]. constructor; [exact E|].
      eapply Forall_impl; [|exact Hh]. intros x Hx.
      now apply (nombre_leb_trans _ (nombre h)).
    + constructor; [now apply IH|].
      eapply Permutation_Forall; [symmetry; apply insertar_asc_perm|].
      constructor; [|exact Hh].
      destruct (nombre_leb_total (nombre g) (nombre h)); congruence.
Qed.

Lemma orderBy_nombre_sorted (l : list GrupoEconomico) :
  StronglySorted (fun x y => nombre_leb (nombre x) (nombre y) = true)
    (orderBy_nombre_asc nombre_leb l).
Proof.
  induction l as [|g t IH]; cbn; [constructor|].
  now apply insertar_asc_sorted.
Qed.

End MisGruposProps.

Lemma tiene_usuario_miembro (u : Z) (db : DB) (g : GrupoEconomico) :
  tiene_usuario u db g = true <-> es_miembro u (id g) db.
Proof.
  unfold tiene_usuario, es_miembro. rewrite existsb_exists. split.
  - intros [x [Hx Hb]]. apply andb_true_iff in Hb. destruct Hb as [H1 H2].
    exists x. repeat split; [assumption | now apply Z.eqb_eq ..].
  - intros [x [Hx [H1 H2]]]. exists x. split; [assumption|].
    now rewrite H1, H2, !Z.eqb_refl.
Qed.

Lemma obtenerPorId_ok_iff (i u : Z) (db : DB) :
  (exists det, fst (obtenerPorId i u db) = Ok det)
  <-> existe_fila i db /\ es_miembro u i db.
Proof.
  rewrite obtenerPorId_casos, existe_fila_findUnique.
  destruct (grupoEconomico_findUnique i db) as [g|].
  - destruct (verificarAcceso_valor i u db) as [b Hb]. rewrite Hb.
    destruct b; cbn.
    + apply verificarAcceso_miembro in Hb. split; [|eauto].
      intros _. split; [eauto | exact Hb].
    + split; [intros [det H]; discriminate|].
      intros [_ Hm]. apply verificarAcceso_miembro in Hm. congruence.
  - cbn. split; [intros [det H]; discriminate|].
    intros [[g H] _]. discriminate.
Qed.

(** X20: the list of my groups agrees with reading one group.  Whatever
    the collation, [obtenerGruposUsuario] never writes; it returns the
    summary of every stored group the user has a membership row for, each
    once; a group id is in the list exactly when [obtenerPorId] with that
    id and that user returns the group; and when the collation is a total
    and transitive order, the list is sorted by name in that order. *)
Theorem mis_grupos_y_acceso
  (nombre_leb : JsString -> JsString -> bool) (u : Z) (db : DB) :
  snd (obtenerGruposUsuario nombre_leb u db) = db
  /\ exists filas,
       fst (obtenerGruposUsuario nombre_leb u db) = Ok filas
       /\ Permutation filas
            (map resumen_grupo (filter (tiene_usuario u db) (grupos db)))
       /\ (forall i, In i (map gr_id filas)
                     <-> exists det, fst (obtenerPorId i u db) = Ok det)
       /\ ((forall a b, nombre_leb a b = true \/ nombre_leb b a = true) ->
           (forall a b c, nombre_leb a b = true -> nombre_leb b c = true ->
                          nombre_leb a c = true) ->
           StronglySorted
             (fun x y => nombre_leb (gr_nombre x) (gr_nombre y) = true)
             filas).
Proof.
  split; [reflexivity|].
  eexists. split; [reflexivity|].
  set (l := filter (tiene_usuario u db) (grupos db)).
  split; [apply Permutation_map, orderBy_nombre_perm|]. split.
  - intros i. rewrite obtenerPorId_ok_iff, map_map. cbn [gr_id resumen_grupo].
    split.
    + intros Hi. apply in_map_iff in Hi. destruct Hi as [g [<- Hg]].
      apply (Permutation_in _ (orderBy_nombre_perm nombre_leb l)) in Hg.
      apply filter_In in Hg. destruct Hg as [Hg Ht].
      split; [now exists g | now apply tiene_usuario_miembro].
    + intros [[g [Hg <-]] Hm]. apply in_map_iff. exists g.
      split; [reflexivity|].
      apply (Permutation_in _ (Permutation_sym (orderBy_nombre_perm nombre_leb l))).
      apply filter_In. split; [exact Hg | now apply tiene_usuario_miembro].
  - intros Htot Htr.
    pose proof (orderBy_nombre_sorted nombre_leb Htot Htr l) as Hs.
    induction Hs as [|x r Hr IH Hx]; cbn; constructor; [exact IH|].
    rewrite Forall_map. exact Hx.
Qed.

Lemma mis_grupos_y_acceso_witness :
  exists filas,
    fst (get_mis_grupos lex_leb 2 db_acme_operativo) = Send 200 filas
    /\ map gr_id filas = [1]
    /\ fst (obtenerGruposUsuario lex_leb 2 db_acme) = Ok [].
Proof.
  destruct (mis_grupos_y_acceso lex_leb 2 db_acme_operativo)
    as [_ [filas [Hf _]]].
  exists filas. unfold get_mis_grupos, responder.
  cbn in Hf. injection Hf as <-. repeat split.
Defined.

(** ** The id of the route *)

(** X21: the params schema lets through exactly the ids that are non-empty
    strings of ASCII decimal digits, and hands [Number] the string as it was
    sent.  Every other id (empty, signed, fractional, padded with spaces,
    not a string) is rejected with a validation error that the error
    handler answers 400 VALIDATION_ERROR with an entry for [id]. *)
Theorem GrupoParamsSchema_spec
  (T : Type) (Number : JsString -> T) (id_ : Json) :
  (forall s, id_ = JString s -> s <> [] -> forallb is_digit s = true ->
     GrupoParamsSchema T Number id_ = Ok (Number s))
  /\ ((forall s, id_ = JString s -> s = [] \/ forallb is_digit s = false) ->
      exists issues det,
        GrupoParamsSchema T Number id_ = Throw (ThrowZod issues)
        /\ status (errorHandler (ThrowZod issues)) = 400
        /\ eb_code (error (errorHandler (ThrowZod issues))) = "VALIDATION_ERROR"
        /\ eb_details (error (errorHandler (ThrowZod issues))) = Some det
        /\ tiene_detalle "id" det).
Proof.
  split.
  - intros s -> Hne Hd. unfold GrupoParamsSchema, z_string.
    cbn [run_checks]. unfold id_regex. rewrite Hd.
    destruct s; [contradiction | reflexivity].
  - intros Hbad.
    assert (Hi : exists m,
               GrupoParamsSchema T Number id_
               = Throw (ThrowZod [{| path := ["id"]; issue_message := m |}])).
    { unfold GrupoParamsSchema, z_string.
      destruct id_ as [| |b|n|s| |]; try (eexists; reflexivity).
      cbn [run_checks]. unfold id_regex.
      destruct (Hbad s eq_refl) as [-> | Hd]; [eexists; reflexivity|].
      rewrite Hd, andb_false_r. eexists. reflexivity. }
    destruct Hi as [m Hi].
    destruct (handleZodError_primero "id" m []) as [det [Hdet Ht]].
    exists [{| path := ["id"]; issue_message := m |}], det.
    split; [exact Hi|]. repeat split; assumption.
Qed.

Lemma GrupoParamsSchema_spec_witness :
  GrupoParamsSchema N (fun s => N.of_nat (List.length s)) (JString (lit "007"))
  = Ok 3%N
  /\ exists issues,
       GrupoParamsSchema N (fun s => N.of_nat (List.length s))
         (JString (lit "-1")) = Throw (ThrowZod issues).
Proof.
  destruct (GrupoParamsSchema_spec N (fun s => N.of_nat (List.length s))
              (JString (lit "007"))) as [H1 _].
  destruct (GrupoParamsSchema_spec N (fun s => N.of_nat (List.length s))
              (JString (lit "-1"))) as [_ H2].
  split.
  - apply (H1 (lit "007") eq_refl); [discriminate | reflexivity].
  - destruct H2 as [issues [det [H _]]].
    + intros s Hs. injection Hs as <-. now right.
    + now exists issues.
Defined.

(** ** Which valid bodies the service rejects *)

(** X22: the business validation on a DTO the create schema produced.  It
    passes exactly when the trimmed name is empty or at least 3 code units
    long and, for country UY, the currency is UYU or USD.  Otherwise it
    throws BusinessRule (422): without a rule when the name is the cause,
    with rule MONEDA_INVALIDA_PAIS when only the currency is.  The tax-id
    check of the service never fires on such a DTO. *)
Theorem validarDatosGrupo_tras_schema (body : Body) (d : CreateGrupoDto) :
  CreateGrupoSchema body = Ok d ->
  let nombre_ok := c_nombre d = [] \/ 3 <= js_length (c_nombre d) in
  let moneda_ok :=
    c_paisPrincipal d = UY -> c_monedaBase d = UYU \/ c_monedaBase d = USD in
  (validarDatosGrupo (partial_of_create d) = Ok tt <-> nombre_ok /\ moneda_ok)
  /\ (~ nombre_ok ->
      validarDatosGrupo (partial_of_create d)
      = Throw (ThrowApp (BusinessRuleError
                           "El nombre debe tener al menos 3 caracteres" None)))
  /\ (nombre_ok -> ~ moneda_ok ->
      validarDatosGrupo (partial_of_create d)
      = Throw (ThrowApp (BusinessRuleError
                           "Para Uruguay, la moneda base debe ser UYU o USD"
                           (Some "MONEDA_INVALIDA_PAIS")))).
Proof.
  intros Hs.
  destruct (CreateGrupoSchema_decodifica_aux body d Hs) as [s [Hl [Hn Hr]]].
  assert (Hlen : js_length (trim (c_nombre d)) = js_length (c_nombre d))
    by (rewrite Hn; now rewrite trim_idem).
  assert (Hrut : match c_rutControlador d with
                 | Some r => truthy r && negb (rut_regex r)
                 | None => false
                 end = false).
  { destruct (c_rutControlador d) as [[|c r]|]; try reflexivity.
    destruct Hr as [Hr | Hr]; [discriminate|]. cbn. now rewrite Hr. }
  assert (Hbn : (truthy (c_nombre d) && (js_length (c_nombre d) <? 3)) = false
                <-> (c_nombre d = [] \/ 3 <= js_length (c_nombre d))).
  { destruct (c_nombre d) as [|c r]; cbn [truthy andb].
    - split; [now left | reflexivity].
    - rewrite Z.ltb_ge. split; [now right | intros [H | H]; [discriminate | exact H]]. }
  assert (Hbm : forall m, existsb (moneda_eqb m) [UYU; USD] = true
                          <-> (m = UYU \/ m = USD)).
  { intros m. destruct m; cbn; split; intros H;
      try reflexivity; try (now left); try (now right); try discriminate;
      destruct H; discriminate. }
  cbv zeta. unfold validarDatosGrupo, partial_of_create.
  cbn [p_nombre p_rutControlador p_paisPrincipal p_monedaBase].
  rewrite Hlen, Hrut.
  destruct (truthy (c_nombre d) && (js_length (c_nombre d) <? 3)) eqn:Eb.
  - assert (Hno : ~ (c_nombre d = [] \/ 3 <= js_length (c_nombre d))).
    { intros H. apply Hbn in H. discriminate. }
    split; [split; [discriminate | intros [H _]; contradiction]|].
    split; [reflexivity | intros H; contradiction].
  - assert (Hsi : c_nombre d = [] \/ 3 <= js_length (c_nombre d))
      by now apply Hbn.
    destruct (c_paisPrincipal d) eqn:Ep;
      try (split; [split; [intros _; split; [exact Hsi | discriminate]
                          | reflexivity]|];
           split; [intros H; contradiction|];
           intros _ H; exfalso; apply H; discriminate).
    destruct (existsb (moneda_eqb (c_monedaBase d)) [UYU; USD]) eqn:Em;
      cbn [negb].
    + apply Hbm in Em.
      split; [split; [intros _; split; [exact Hsi | intros _; exact Em]
                     | reflexivity]|].
      split; [intros H; contradiction|].
      intros _ H. exfalso. apply H. intros _. exact Em.
    + assert (Hnm : ~ (c_monedaBase d = UYU \/ c_monedaBase d = USD)).
      { intros H. apply Hbm in H. congruence. }
      split; [split; [discriminate | intros [_ H]; exfalso; exact (Hnm (H eq_refl))]|].
      split; [intros H; contradiction | reflexivity].
Qed.

Lemma validarDatosGrupo_tras_schema_witness :
  validarDatosGrupo (partial_of_create dto_acme) = Ok tt.
Proof.
  apply (proj1 (validarDatosGrupo_tras_schema
                  (cuerpo (JString (lit "Acme Holdings")) "UY" "UYU")
                  dto_acme eq_refl)).
  split; [right; cbn; lia | intros _; now left].
Defined.

(** ** Roles *)

Lemma verificarAcceso_roles (f : UsuarioGrupo -> Rol) (i u : Z) (db : DB) :
  fst (verificarAccesoUsuario i u (cambiar_roles f db))
  = fst (verificarAccesoUsuario i u db).
Proof.
  unfold verificarAccesoUsuario, query, cambiar_roles. cbn [fst].
  cbn [usuariosGrupos set_usuariosGrupos].
  induction (usuariosGrupos db) as [|x r IH]; [reflexivity|].
  cbn [map find ug_usuarioId ug_grupoEconomicoId].
  destruct ((ug_usuarioId x =? u) && (ug_grupoEconomicoId x =? i));
    [reflexivity | exact IH].
Qed.

Lemma verificarAcceso_roles_valor (f : UsuarioGrupo -> Rol) (i u : Z)
  (db : DB) (b : bool) :
  verificarAccesoUsuario i u db = (Ok b, db) ->
  verificarAccesoUsuario i u (cambiar_roles f db)
  = (Ok b, cambiar_roles f db).
Proof.
  intros Hb.
  destruct (verificarAcceso_valor i u (cambiar_roles f db)) as [b' Hb'].
  pose proof (verificarAcceso_roles f i u db) as H.
  rewrite Hb, Hb' in H. cbn in H. injection H as ->. exact Hb'.
Qed.

(** X23: the role of a membership plays no part in reading, updating or
    deleting a group.  Rewriting the roles of the membership rows in any
    way changes neither what [obtenerPorId], [actualizar] and [eliminar]
    return or throw nor what they write: a member with any role, not only
    ADMIN, updates and deletes. *)
Theorem el_rol_no_influye
  (f : UsuarioGrupo -> Rol) (i u : Z) (d : UpdateGrupoDto) (db : DB) :
  obtenerPorId i u (cambiar_roles f db)
  = (fst (obtenerPorId i u db), cambiar_roles f (snd (obtenerPorId i u db)))
  /\ actualizar i d u (cambiar_roles f db)
     = (fst (actualizar i d u db),
        cambiar_roles f (snd (actualizar i d u db)))
  /\ eliminar i u (cambiar_roles f db)
     = (fst (eliminar i u db), cambiar_roles f (snd (eliminar i u db))).
Proof.
  destruct (verificarAcceso_valor i u db) as [b Hb].
  pose proof (verificarAcceso_roles_valor f i u db b Hb) as Hb'.
  assert (Hfu : grupoEconomico_findUnique i (cambiar_roles f db)
                = grupoEconomico_findUnique i db) by reflexivity.
  split; [|split].
  - rewrite !obtenerPorId_casos, Hfu, Hb, Hb'.
    destruct (grupoEconomico_findUnique i db); [|reflexivity].
    now destruct b.
  - destruct (exists_valor i db) as [b0 H0].
    assert (H0' : exists_ i (cambiar_roles f db) = (Ok b0, cambiar_roles f db)).
    { unfold exists_, query in *. injection H0 as <-. reflexivity. }
    rewrite (actualizar_casos i d u db b0 b H0 Hb).
    rewrite (actualizar_casos i d u _ b0 b H0' Hb').
    destruct b0; cbn [negb]; [|reflexivity].
    destruct b; cbn [negb]; [|reflexivity].
    destruct (revisar_patch d) as [[]|e]; [|reflexivity].
    unfold update, bind, grupoEconomico_update. rewrite Hfu.
    now destruct (grupoEconomico_findUnique i db).
  - rewrite !eliminar_precedencia, Hfu, Hb, Hb'.
    destruct (grupoEconomico_findUnique i db) as [g|]; [|reflexivity].
    destruct b; [|reflexivity].
    change (empresas_de (id g) (cambiar_roles f db))
      with (empresas_de (id g) db).
    now destruct (existsb er_activa _).
Qed.

(** ** Where the country-currency rule is enforced *)

(** X24: where the country-currency rule does hold.  [crear] never stores
    a group that breaks it: if every stored group satisfies the rule
    before, every stored group satisfies it after.  And an update whose
    patch carries both a country and a currency is checked: when
    [actualizar] returns on such a patch, the updated row satisfies the
    rule. *)
Theorem regla_moneda_donde_se_cumple
  (d : CreateGrupoDto) (i : Z) (p : UpdateGrupoDto) (u : Z) (db : DB) :
  (Forall (fun g => moneda_valida_pais g = true) (grupos db) ->
   Forall (fun g => moneda_valida_pais g = true) (grupos (snd (crear d u db))))
  /\ (forall pa m r db',
        u_paisPrincipal p = Some pa -> u_monedaBase p = Some m ->
        actualizar i p u db = (Ok r, db') ->
        moneda_valida_pais (grupo r) = true
        /\ grupoEconomico_findUnique i db' = Some (grupo r)).
Proof.
  split; [apply crear_moneda_valida|].
  intros pa m r db' Hpa Hm.
  destruct (exists_valor i db) as [b0 H0].
  destruct (verificarAcceso_valor i u db) as [b Hb].
  rewrite (actualizar_casos i p u db b0 b H0 Hb).
  destruct b0; cbn [negb]; [|discriminate].
  destruct b; cbn [negb]; [|discriminate].
  destruct (revisar_patch p) as [[]|e] eqn:Ev; [|discriminate].
  assert (Hex : existe_fila i db) by now apply exists_existe_fila.
  destruct (proj1 (existe_fila_findUnique i db) Hex) as [g Hg].
  pose proof (proj2 (findUnique_In _ _ _ Hg)) as Hid.
  destruct (update_ok i p db g Hg) as [r0 [Hr Hgr]]. rewrite Hr.
  intros H. injection H as <- <-. rewrite Hgr. split.
  - unfold moneda_valida_pais, update_data. cbn. rewrite Hpa, Hm.
    unfold revisar_patch in Ev. rewrite Hpa, orb_true_r in Ev. cbn [orb] in Ev.
    unfold validarDatosGrupo, partial_of_update in Ev.
    cbn [p_nombre p_rutControlador p_paisPrincipal p_monedaBase] in Ev.
    rewrite Hpa, Hm in Ev.
    destruct (match u_nombre p with Some _ => _ | None => _ end) in Ev;
      [discriminate|].
    destruct (match u_rutControlador p with Some _ => _ | None => _ end) in Ev;
      [discriminate|].
    destruct pa; try reflexivity.
    destruct (existsb (moneda_eqb m) [UYU; USD]) eqn:Em;
      [exact Em | discriminate].
  - unfold grupoEconomico_findUnique in *. cbn [grupos set_grupos].
    now apply find_reemplazar_mismo with (g := g).
Qed.

Lemma regla_moneda_donde_se_cumple_witness :
  exists r db',
    actualizar 1 (patch_pais_moneda UY USD) 1 db_acme = (Ok r, db')
    /\ moneda_valida_pais (grupo r) = true
    /\ grupoEconomico_findUnique 1 db' = Some (grupo r).
Proof.
  do 2 eexists. split; [vm_compute; reflexivity|].
  apply (proj2 (regla_moneda_donde_se_cumple
                  dto_acme 1 (patch_pais_moneda UY USD) 1 db_acme) UY USD);
    [reflexivity | reflexivity | vm_compute; reflexivity].
Defined.
